(** * Intelligent Engine Maintenance Assistant: the RAG query path

    A shallow embedding of [src/rag_pipeline/pipeline.py] and
    [src/data_processing/embeddings.py], with [src/config.py] as a record of
    settings, and the properties of the query path stated over it.

    Conventions of the embedding.
    - Python [str] is [string]; [len] is [Py.len], an integer.
    - Python [int] is [Z].
    - Python [float] is [Qc], the exact rationals in canonical form: sums,
      quotients and comparisons are the exact ones and [round] is the
      round-half-to-even of the exact value; a decimal literal stands for
      its exact value.  Binary64 representation error, NaN and infinities
      are outside this model; [Binary64] runs the confidence computation on
      doubles for concrete scores.
    - A [dict] with string keys is a [gmap string _]; a dict literal with a
      fixed set of keys is a record.
    - Code that calls a collaborator (the hosted model, the vector index) is
      written in a state-and-exception monad over an explicit world. *)

From Stdlib Require Import ZArith QArith Qcanon Lia.
From Stdlib Require Import Floats.SpecFloat.
From stdpp Require Import base numbers strings gmap list pretty finite.

Local Open Scope Z_scope.

(** ** Python primitives *)

Module Py.

Abbreviation float := Qc (only parsing).

(** The literal of a decimal fraction. *)
Definition lit (q : Q) : float := Q2Qc q.

(** [bool(x)] of a float: zero is falsy. *)
Definition truthy (x : float) : bool := bool_decide (x ≠ Q2Qc 0).

(** [bool(n)] of an int. *)
Definition truthy_int (n : Z) : bool := bool_decide (n ≠ 0).

(** [x or d] where [x] is [None] or a float. *)
Definition or_float (x : option float) (d : float) : float :=
  match x with
  | Some v => if truthy v then v else d
  | None => d
  end.

(** [x or d] where [x] is [None] or an int. *)
Definition or_int (x : option Z) (d : Z) : Z :=
  match x with
  | Some v => if truthy_int v then v else d
  | None => d
  end.

(** [a >= b] and [a > b]. *)
Definition ge (a b : float) : bool := bool_decide (b ≤ a)%Qc.
Definition gt (a b : float) : bool := bool_decide (b < a)%Qc.

(** [max(a, b)]: the first argument is kept unless the second is greater. *)
Definition max (a b : float) : float := if gt b a then b else a.

(** [min(a, b)]: the first argument is kept unless the second is smaller. *)
Definition min (a b : float) : float := if gt a b then b else a.

(** [sum(xs)]: a left fold from [0]. *)
Definition sum (xs : list float) : float := foldl Qcplus (Q2Qc 0) xs.

(** [float(n)] of an int, as done implicitly by [/]. *)
Definition of_int (n : Z) : float := Qc_of_Z n.

(** [round(x, ndigits)] for [ndigits >= 0]: the nearest multiple of
    [10 ** -ndigits], a tie going to the even multiple. *)
Definition round_units (x : float) (ndigits : nat) : Z :=
  let scaled := Qnum (this x) * 10 ^ Z.of_nat ndigits in
  let den := Z.pos (Qden (this x)) in
  let lo := scaled / den in
  let r := scaled mod den in
  if 2 * r <? den then lo
  else if den <? 2 * r then lo + 1
  else if Z.even lo then lo else lo + 1.

Definition round (x : float) (ndigits : nat) : float :=
  Q2Qc (Qmake (round_units x ndigits) (Z.to_pos (10 ^ Z.of_nat ndigits))).

(** [len(s)] of a string. *)
Definition len (s : string) : Z := Z.of_nat (String.length s).

(** [l[i:j]] on a list: an index below zero counts from the end, and both
    ends are cut to the list. *)
Definition slice_index (n i : Z) : Z :=
  if i <? 0 then Z.max 0 (n + i) else Z.min i n.

Definition slice {A} (l : list A) (i j : Z) : list A :=
  let n := Z.of_nat (length l) in
  let a := slice_index n i in
  let b := slice_index n j in
  take (Z.to_nat (b - a)) (drop (Z.to_nat a) l).

(** [range(start, stop, step)] for [step > 0]. *)
Definition range (start stop step : Z) : list Z :=
  (fun j => start + step * Z.of_nat j)
    <$> seq 0 (Z.to_nat ((stop - start + step - 1) / step)).

(** The first [n] characters of [s] (all of [s] when it is shorter). *)
Fixpoint take (n : nat) (s : string) : string :=
  match n, s with
  | O, _ => EmptyString
  | S _, EmptyString => EmptyString
  | S n', String c s' => String c (take n' s')
  end.

(** [s[:n]]: a negative [n] counts from the end. *)
Definition slice_to (s : string) (n : Z) : string :=
  if n <? 0 then take (Z.to_nat (len s + n)) s else take (Z.to_nat n) s.

(** [sep.join(parts)]. *)
Fixpoint join (sep : string) (parts : list string) : string :=
  match parts with
  | [] => EmptyString
  | [p] => p
  | p :: rest => p +:+ sep +:+ join sep rest
  end.

(** The character [\n]. *)
Definition nl : string := String (Ascii.ascii_of_nat 10) EmptyString.

End Py.

(** ** [src/config.py]: the settings the query path reads *)

Record Settings := {
  gemini_model : string;
  embedding_model : string;
  similarity_threshold : Py.float;
  max_context_length : Z
}.

(** The defaults of the [Field] declarations. *)
Definition default_settings : Settings := {|
  gemini_model := "gemini-pro";
  embedding_model := "models/embedding-001";
  similarity_threshold := Py.lit 0.7;
  max_context_length := 4000
|}.

(** ** Data of the query path *)

(** A langchain [Document]. *)
Record Document := {
  page_content : string;
  metadata : gmap string string
}.

(** A search result: [(doc, score)]. *)
Definition Scored : Type := Document * Py.float.

(** One entry of [sources]: the dict built by [_format_sources]. *)
Record SourceInfo := {
  src_id : Z;
  src_content : string;
  src_metadata : gmap string string;
  src_similarity_score : Py.float
}.

(** The dict returned by [query]. *)
Record Response := {
  answer : string;
  sources : list SourceInfo;
  confidence : Py.float
}.

(** ** Exceptions, and the monad of code that talks to collaborators *)

(** Instances of [Exception]; [RetryError] is the one tenacity raises when
    it gives up. *)
Inductive PyException :=
| Exception (message : string)
| RetryError (last : PyException).

Inductive result (A : Type) :=
| Ok (a : A)
| Raise (e : PyException).
Arguments Ok {A} a.
Arguments Raise {A} e.

(** A computation over a world [W]: it returns or raises, and in both cases
    leaves a world behind. *)
Definition M (W A : Type) : Type := W -> result A * W.

Definition ret {W A} (a : A) : M W A := fun w => (Ok a, w).

Definition raise {W A} (e : PyException) : M W A := fun w => (Raise e, w).

Definition bind {W A B} (m : M W A) (k : A -> M W B) : M W B :=
  fun w =>
    match m w with
    | (Ok a, w') => k a w'
    | (Raise e, w') => (Raise e, w')
    end.

(** [try: m  except Exception as e: h e]. *)
Definition try_except {W A} (m : M W A) (h : PyException -> M W A) : M W A :=
  fun w =>
    match m w with
    | (Ok a, w') => (Ok a, w')
    | (Raise e, w') => h e w'
    end.

Declare Scope py_scope.
Delimit Scope py_scope with py.
Notation "x <- m ;; k" := (bind m (fun x => k))
  (at level 100, m at next level, right associativity) : py_scope.
Notation "m ;;; k" := (bind m (fun _ => k))
  (at level 100, right associativity) : py_scope.

Local Open Scope py_scope.

(** ** The world outside the process

    What the code does to the outside is recorded as a trace of events, the
    newest first.  [Enter...] events mark the entry into a method of the
    embedding provider, so that calls can be counted the way a mock counts
    them. *)

Module genai.

Inductive TaskType := retrieval_document | retrieval_query.

(** The arguments of [genai.embed_content]. *)
Record EmbedRequest := {
  embed_model : string;
  embed_text : string;
  task_type : TaskType
}.

(** The arguments of [client.generate_content]; the temperature and
    [top_p] are the constants 0.1 and 0.8. *)
Record GenerateRequest := {
  generate_model : string;
  prompt : string;
  max_output_tokens : Z
}.

End genai.

Definition Embedding : Type := list Py.float.

Inductive Event :=
| EmbedContent (r : genai.EmbedRequest)
| GenerateContent (r : genai.GenerateRequest)
| Sleep (seconds : Z)
| EnterEmbedDocuments (texts : list string)
| EnterEmbedQuery (text : string).

Definition World : Type := list Event.

(** The hosted service: what a request returns, or the exception it raises,
    may depend on everything that happened before it. *)
Record Service := {
  embed_outcome : World -> genai.EmbedRequest -> result Embedding;
  generate_outcome : World -> genai.GenerateRequest -> result string
}.

Definition emit (e : Event) : M World unit := fun w => (Ok tt, e :: w).

(** [time.sleep(seconds)]. *)
Definition sleep (seconds : Z) : M World unit := emit (Sleep seconds).

(** [genai.embed_content(...)['embedding']]. *)
Definition embed_content (svc : Service) (r : genai.EmbedRequest) : M World Embedding :=
  fun w => (embed_outcome svc w r, EmbedContent r :: w).

(** [client.generate_content(...).text]. *)
Definition generate_content (svc : Service) (r : genai.GenerateRequest) : M World string :=
  fun w => (generate_outcome svc w r, GenerateContent r :: w).

Definition is_api_call (e : Event) : bool :=
  match e with
  | EmbedContent _ | GenerateContent _ => true
  | _ => false
  end.

Definition is_provider_call (e : Event) : bool :=
  match e with
  | EnterEmbedDocuments _ | EnterEmbedQuery _ => true
  | _ => false
  end.

Definition is_sleep (e : Event) : bool :=
  match e with
  | Sleep _ => true
  | _ => false
  end.

(** The number of requests sent to the hosted service. *)
Definition api_calls (w : World) : nat := length (filter is_api_call w).

(** The number of calls of a method of the embedding provider. *)
Definition provider_calls (w : World) : nat := length (filter is_provider_call w).

(** The number of pauses. *)
Definition sleeps (w : World) : nat := length (filter is_sleep w).

(** ** tenacity: the [retry] decorator

    [retry(stop=stop_after_attempt(n), wait=wait_exponential(...))] calls the
    function; when it raises and fewer than [n] attempts were made it sleeps
    and calls again, and after the [n]-th failure it raises [RetryError].
    A call that returns is never repeated. *)

Module tenacity.

(** [wait_exponential(multiplier, min, max)] at a given attempt. *)
Definition wait_exponential (multiplier min max : Z) (attempt_number : Z) : Z :=
  Z.max (Z.max 0 min) (Z.min (multiplier * 2 ^ (attempt_number - 1)) max).

Fixpoint attempts {A} (remaining : nat) (wait : Z -> Z) (attempt_number : Z)
    (f : M World A) : M World A :=
  fun w =>
    match f w with
    | (Ok a, w') => (Ok a, w')
    | (Raise e, w') =>
        match remaining with
        | O => (Raise (RetryError e), w')
        | S remaining' =>
            attempts remaining' wait (attempt_number + 1) f
              (Sleep (wait attempt_number) :: w')
        end
    end.

Definition retry {A} (stop_after_attempt : nat) (wait : Z -> Z)
    (f : M World A) : M World A :=
  attempts (stop_after_attempt - 1) wait 1 f.

End tenacity.

(** ** [src/data_processing/embeddings.py] *)

Module GoogleEmbeddings.

Record t := { model : string }.

(** [[0.0] * 768]. *)
Definition zero_vector : Embedding := replicate 768 (Q2Qc 0).

(** [text[:2048]] when [len(text) > 2048]. *)
Definition truncate (text : string) : string :=
  if 2048 <? Py.len text then Py.slice_to text 2048 else text.

Section Methods.
Variable svc : Service.
Variable self : t.

(** The body of the [for] loop of [embed_documents], from index [i]. *)
Fixpoint embed_documents_loop (i : Z) (texts : list string)
    (embeddings : list Embedding) : M World (list Embedding) :=
  match texts with
  | [] => ret embeddings
  | text :: rest =>
      embeddings' <-
        try_except
          (result <- embed_content svc
             {| genai.embed_model := model self;
                genai.embed_text := truncate text;
                genai.task_type := genai.retrieval_document |} ;;
           if (0 <? i) && (i mod 10 =? 0)
           then (sleep 1 ;;; ret (embeddings ++ [result]))
           else ret (embeddings ++ [result]))
          (fun _ => ret (embeddings ++ [zero_vector])) ;;
      embed_documents_loop (i + 1) rest embeddings'
  end.

Definition embed_documents_body (texts : list string) : M World (list Embedding) :=
  embed_documents_loop 0 texts [].

Definition embed_documents (texts : list string) : M World (list Embedding) :=
  (emit (EnterEmbedDocuments texts) ;;;
   tenacity.retry 3 (tenacity.wait_exponential 1 4 10)
     (embed_documents_body texts)).

Definition embed_query_body (text : string) : M World Embedding :=
  try_except
    (embed_content svc
       {| genai.embed_model := model self;
          genai.embed_text := truncate text;
          genai.task_type := genai.retrieval_query |})
    (fun _ => ret zero_vector).

Definition embed_query (text : string) : M World Embedding :=
  (emit (EnterEmbedQuery text) ;;;
   tenacity.retry 3 (tenacity.wait_exponential 1 4 10)
     (embed_query_body text)).

End Methods.

End GoogleEmbeddings.

Module EmbeddingManager.

(** The manager: its provider and its cache. *)
Record t := {
  embedding_model : GoogleEmbeddings.t;
  cache : gmap string Embedding
}.

Definition set_cache (self : t) (c : gmap string Embedding) : t :=
  {| embedding_model := embedding_model self; cache := c |}.

Section Methods.
(** The built-in [hash] on strings: some function into the integers. *)
Variable hash : string -> Z.
Variable svc : Service.

(** [f"embed_{hash(text)}"]. *)
Definition _get_cache_key (text : string) : string :=
  "embed_" +:+ pretty (hash text).

(** The first loop of [get_embeddings]: the three lists it builds. *)
Fixpoint check_cache (self : t) (i : nat) (texts : list string)
    (embeddings : list (option Embedding)) (texts_to_embed : list string)
    (indices_to_embed : list nat)
  : list (option Embedding) * list string * list nat :=
  match texts with
  | [] => (embeddings, texts_to_embed, indices_to_embed)
  | text :: rest =>
      let cache_key := _get_cache_key text in
      match cache self !! cache_key with
      | Some e =>
          check_cache self (S i) rest (embeddings ++ [Some e])
            texts_to_embed indices_to_embed
      | None =>
          check_cache self (S i) rest (embeddings ++ [None])
            (texts_to_embed ++ [text]) (indices_to_embed ++ [i])
      end
  end.

(** The second loop: [for idx, new_embedding in zip(...)].  The text at
    [idx] exists, as [idx] was produced by [enumerate(texts)]. *)
Definition update_cache (texts : list string)
    (acc : gmap string Embedding * list (option Embedding))
    (p : nat * Embedding) : gmap string Embedding * list (option Embedding) :=
  let '(idx, new_embedding) := p in
  let cache_key := _get_cache_key (default EmptyString (texts !! idx)) in
  (<[cache_key := new_embedding]> (fst acc), <[idx := Some new_embedding]> (snd acc)).

Definition get_embeddings (self : t) (texts : list string) (use_cache : bool)
  : M World (list (option Embedding) * t) :=
  if negb use_cache then
    (es <- GoogleEmbeddings.embed_documents svc (embedding_model self) texts ;;
     ret (Some <$> es, self))
  else
    let '(embeddings, texts_to_embed, indices_to_embed) :=
      check_cache self 0 texts [] [] [] in
    match texts_to_embed with
    | [] => ret (embeddings, self)
    | _ :: _ =>
        (new_embeddings <-
           GoogleEmbeddings.embed_documents svc (embedding_model self) texts_to_embed ;;
         let '(cache', embeddings') :=
           foldl (update_cache texts) (cache self, embeddings)
             (zip indices_to_embed new_embeddings) in
         ret (embeddings', set_cache self cache'))
    end.

Definition get_query_embedding (self : t) (query : string) (use_cache : bool)
  : M World (Embedding * t) :=
  if negb use_cache then
    (e <- GoogleEmbeddings.embed_query svc (embedding_model self) query ;;
     ret (e, self))
  else
    let cache_key := _get_cache_key query in
    match cache self !! cache_key with
    | Some e => ret (e, self)
    | None =>
        (embedding <- GoogleEmbeddings.embed_query svc (embedding_model self) query ;;
         ret (embedding, set_cache self (<[cache_key := embedding]> (cache self))))
    end.

End Methods.

(** [clear_cache]. *)
Definition clear_cache (self : t) : t := set_cache self ∅.

(** The dict returned by [cache_stats]. *)
Record CacheStats := {
  cached_embeddings : Z;
  total_cache_size : Z
}.

Definition cache_stats (self : t) : CacheStats :=
  {| cached_embeddings := Z.of_nat (size (cache self));
     total_cache_size :=
       map_fold (fun _ emb acc => acc + Z.of_nat (length emb)) 0 (cache self) |}.

End EmbeddingManager.

(** ** [src/rag_pipeline/pipeline.py] *)

Module GoogleLLM.

Record t := { model : string }.

Definition apology : string :=
  "I apologize, but I encountered an error processing your request. Please try again.".

Section Methods.
Variable svc : Service.
Variable self : t.

Definition generate_body (prompt : string) (max_tokens : Z) : M World string :=
  try_except
    (generate_content svc
       {| genai.generate_model := model self;
          genai.prompt := prompt;
          genai.max_output_tokens := max_tokens |})
    (fun _ => ret apology).

Definition generate (prompt : string) (max_tokens : Z) : M World string :=
  tenacity.retry 3 (tenacity.wait_exponential 1 4 10)
    (generate_body prompt max_tokens).

End Methods.

End GoogleLLM.

Module VectorStore.

Section Methods.
Context {W : Type}.
Variable settings : Settings.
(** [self.vectorstore.similarity_search_with_score]: the Chroma index. *)
Variable similarity_search_with_score : string -> Z -> M W (list Scored).

(** [[(doc, score) for doc, score in results if score >= threshold]]. *)
Definition keep (threshold : Py.float) (results : list Scored) : list Scored :=
  filter (fun r => Is_true (Py.ge (snd r) threshold)) results.

Definition similarity_search (query : string) (k : Z)
    (threshold : option Py.float) : M W (list Scored) :=
  try_except
    (let threshold := Py.or_float threshold (similarity_threshold settings) in
     results <- similarity_search_with_score query k ;;
     let results :=
       if Py.truthy threshold then keep threshold results else results in
     ret results)
    (fun _ => ret []).

End Methods.

Section Ingestion.
Context {W : Type}.
(** [self.vectorstore.add_documents] and [self.vectorstore.persist]. *)
Variable vectorstore_add_documents : list Document -> M W unit.
Variable vectorstore_persist : M W unit.

Definition batch_size : Z := 50.

(** The [for i in range(0, len(documents), batch_size)] loop. *)
Fixpoint add_batches (starts : list Z) (documents : list Document) : M W unit :=
  match starts with
  | [] => ret tt
  | i :: rest =>
      let batch := Py.slice documents i (i + batch_size) in
      (vectorstore_add_documents batch ;;; add_batches rest documents)
  end.

Definition add_documents (documents : list Document) : M W unit :=
  try_except
    (match documents with
     | [] => ret tt
     | _ :: _ =>
         (add_batches (Py.range 0 (Z.of_nat (length documents)) batch_size)
            documents ;;;
          vectorstore_persist)
     end)
    (fun e => raise e).

End Ingestion.

End VectorStore.

Module RAGPipeline.

Definition no_match : Response := {|
  answer := "I couldn't find relevant information to answer your question. Please try rephrasing or asking about a different topic.";
  sources := [];
  confidence := Py.lit 0.0
|}.

Definition error_response : Response := {|
  answer := "I encountered an error while processing your question. Please try again.";
  sources := [];
  confidence := Py.lit 0.0
|}.

(** [doc.metadata.get('source', 'Unknown')]. *)
Definition source_label (doc : Document) : string :=
  default "Unknown" (metadata doc !! "source").

(** [f"Source: {label}\n{doc_text}"]. *)
Definition context_part (doc : Document) (doc_text : string) : string :=
  "Source: " +:+ source_label doc +:+ Py.nl +:+ doc_text.

(** The [for] loop of [_prepare_context], with its two variables. *)
Fixpoint prepare_loop (max_context_length : Z) (retrieved_docs : list Scored)
    (context_parts : list string) (current_length : Z) : list string :=
  match retrieved_docs with
  | [] => context_parts
  | (doc, score) :: rest =>
      let doc_text := page_content doc in
      if max_context_length <? current_length + Py.len doc_text then
        let remaining_length := max_context_length - current_length in
        if 100 <? remaining_length then
          let doc_text := Py.slice_to doc_text remaining_length +:+ "..." in
          context_parts ++ [context_part doc doc_text]
        else context_parts
      else
        prepare_loop max_context_length rest
          (context_parts ++ [context_part doc doc_text])
          (current_length + Py.len doc_text)
  end.

Definition _prepare_context (max_context_length : Z)
    (retrieved_docs : list Scored) : string :=
  Py.join (Py.nl +:+ Py.nl) (prepare_loop max_context_length retrieved_docs [] 0).

(** The prompt of [_generate_answer]. *)
Definition build_prompt (question context : string) : string :=
  "You are an expert maintenance advisor for commercial trucking fleets. Use the provided context to answer the user's question accurately and helpfully."
  +:+ Py.nl +:+ Py.nl +:+ "Context:" +:+ Py.nl +:+ context
  +:+ Py.nl +:+ Py.nl +:+ "Question: " +:+ question
  +:+ Py.nl +:+ Py.nl +:+ "Instructions:"
  +:+ Py.nl +:+ "- Provide a detailed, practical answer based on the context"
  +:+ Py.nl +:+ "- Focus on actionable maintenance advice"
  +:+ Py.nl +:+ "- Include specific procedures, costs, or timeframes when available"
  +:+ Py.nl +:+ "- If the question relates to safety or compliance, emphasize those aspects"
  +:+ Py.nl +:+ "- If the context doesn't contain enough information, say so clearly"
  +:+ Py.nl +:+ "- Cite sources when referencing specific information"
  +:+ Py.nl +:+ Py.nl +:+ "Answer:".

Definition _calculate_confidence (retrieved_docs : list Scored) : Py.float :=
  match retrieved_docs with
  | [] => Py.lit 0.0
  | _ :: _ =>
      let avg_score :=
        (Py.sum (snd <$> retrieved_docs)
         / Py.of_int (Z.of_nat (length retrieved_docs)))%Qc in
      let confidence := Py.min (Py.lit 1.0) (Py.max (Py.lit 0.0) avg_score) in
      Py.round confidence 2
  end.

(** The conditional expression of the ["content"] entry. *)
Definition source_content (doc : Document) : string :=
  if 200 <? Py.len (page_content doc)
  then Py.slice_to (page_content doc) 200 +:+ "..."
  else page_content doc.

(** The [for] loop of [_format_sources], from index [i]. *)
Fixpoint format_loop (i : Z) (retrieved_docs : list Scored)
    (sources : list SourceInfo) : list SourceInfo :=
  match retrieved_docs with
  | [] => sources
  | (doc, score) :: rest =>
      let source_info := {|
        src_id := i + 1;
        src_content := source_content doc;
        src_metadata := metadata doc;
        src_similarity_score := Py.round score 3
      |} in
      format_loop (i + 1) rest (sources ++ [source_info])
  end.

Definition _format_sources (retrieved_docs : list Scored) : list SourceInfo :=
  format_loop 0 retrieved_docs [].

Section Query.
Context {W : Type}.

(** [query] reaches its collaborators and its helpers through [self];
    this is the table of what it finds there. *)
Record t := {
  similarity_search : string -> Z -> M W (list Scored);
  prepare_context : list Scored -> M W string;
  generate_answer : string -> string -> M W string;
  calculate_confidence : list Scored -> M W Py.float;
  format_sources : list Scored -> M W (list SourceInfo)
}.

Definition set_sources (response : Response) (s : list SourceInfo) : Response :=
  {| answer := answer response; sources := s; confidence := confidence response |}.

(** The [try] block of [query]. *)
Definition query_body (self : t) (question : string) (k : Z)
    (include_sources : bool) : M W Response :=
  (retrieved_docs <- similarity_search self question k ;;
   match retrieved_docs with
   | [] => ret no_match
   | _ :: _ =>
       (context <- prepare_context self retrieved_docs ;;
        answer <- generate_answer self question context ;;
        confidence <- calculate_confidence self retrieved_docs ;;
        let response :=
          {| answer := answer; confidence := confidence; sources := [] |} in
        if include_sources then
          (s <- format_sources self retrieved_docs ;;
           ret (set_sources response s))
        else ret response)
   end).

Definition query (self : t) (question : string) (k : Z)
    (include_sources : bool) : M W Response :=
  try_except (query_body self question k include_sources)
    (fun _ => ret error_response).

End Query.

Arguments t : clear implicits.

(** [RAGPipeline(vector_store, llm, max_context_length)], with the methods
    of the class. *)
Definition new {W} (settings : Settings)
    (vector_store_similarity_search : string -> Z -> option Py.float -> M W (list Scored))
    (llm_generate : string -> Z -> M W string)
    (max_context_length_arg : option Z) : t W :=
  let max_context_length :=
    Py.or_int max_context_length_arg (max_context_length settings) in
  {| similarity_search := fun question k => vector_store_similarity_search question k None;
     prepare_context := fun docs => ret (_prepare_context max_context_length docs);
     generate_answer := fun question context =>
       llm_generate (build_prompt question context) 1000;
     calculate_confidence := fun docs => ret (_calculate_confidence docs);
     format_sources := fun docs => ret (_format_sources docs) |}.

End RAGPipeline.

(** ** [src/streamlit_app.py]: how the pipeline is put together *)

(** [initialize_rag_pipeline]: [RAGPipeline(vector_store=VectorStore())],
    over the Chroma index [index] and the hosted service. *)
Definition initialize_rag_pipeline (settings : Settings) (svc : Service)
    (index : string -> Z -> M World (list Scored)) : RAGPipeline.t World :=
  RAGPipeline.new settings
    (VectorStore.similarity_search settings index)
    (GoogleLLM.generate svc {| GoogleLLM.model := gemini_model settings |})
    None.

(** ** [src/utils/metrics.py] *)

Module MetricsCollector.

(** The dict [self.metrics]. *)
Record t := {
  query_count : Z;
  total_response_time : Py.float;
  average_response_time : Py.float;
  error_count : Z;
  embedding_cache_hits : Z;
  embedding_cache_misses : Z
}.

(** [__init__]. *)
Definition init : t := {|
  query_count := 0;
  total_response_time := Q2Qc 0;
  average_response_time := Q2Qc 0;
  error_count := 0;
  embedding_cache_hits := 0;
  embedding_cache_misses := 0
|}.

(** [a / b]: raises [ZeroDivisionError] when [b] is zero. *)
Definition truediv (a b : Py.float) : result Py.float :=
  if decide (b = Q2Qc 0) then Raise (Exception "division by zero")
  else Ok (a / b)%Qc.

Definition record_query (response_time : Py.float) (error : bool) : M t unit :=
  fun self =>
    let self := {|
      query_count := query_count self + 1;
      total_response_time := total_response_time self;
      average_response_time := average_response_time self;
      error_count := error_count self;
      embedding_cache_hits := embedding_cache_hits self;
      embedding_cache_misses := embedding_cache_misses self |} in
    if error then
      (Ok tt,
       {| query_count := query_count self;
          total_response_time := total_response_time self;
          average_response_time := average_response_time self;
          error_count := error_count self + 1;
          embedding_cache_hits := embedding_cache_hits self;
          embedding_cache_misses := embedding_cache_misses self |})
    else
      let self := {|
        query_count := query_count self;
        total_response_time := (total_response_time self + response_time)%Qc;
        average_response_time := average_response_time self;
        error_count := error_count self;
        embedding_cache_hits := embedding_cache_hits self;
        embedding_cache_misses := embedding_cache_misses self |} in
      match truediv (total_response_time self)
              (Py.of_int (query_count self - error_count self)) with
      | Ok average =>
          (Ok tt,
           {| query_count := query_count self;
              total_response_time := total_response_time self;
              average_response_time := average;
              error_count := error_count self;
              embedding_cache_hits := embedding_cache_hits self;
              embedding_cache_misses := embedding_cache_misses self |})
      | Raise e => (Raise e, self)
      end.

Definition record_cache_hit : M t unit :=
  fun self =>
    (Ok tt,
     {| query_count := query_count self;
        total_response_time := total_response_time self;
        average_response_time := average_response_time self;
        error_count := error_count self;
        embedding_cache_hits := embedding_cache_hits self + 1;
        embedding_cache_misses := embedding_cache_misses self |}).

Definition record_cache_miss : M t unit :=
  fun self =>
    (Ok tt,
     {| query_count := query_count self;
        total_response_time := total_response_time self;
        average_response_time := average_response_time self;
        error_count := error_count self;
        embedding_cache_hits := embedding_cache_hits self;
        embedding_cache_misses := embedding_cache_misses self + 1 |}).

(** The dict returned by [get_metrics]: the metrics and the two rates. *)
Record Report := {
  metrics : t;
  cache_hit_rate : Py.float;
  error_rate : Py.float
}.

Definition get_metrics : M t Report :=
  fun self =>
    let cache_total := embedding_cache_hits self + embedding_cache_misses self in
    match (if 0 <? cache_total
           then truediv (Py.of_int (embedding_cache_hits self)) (Py.of_int cache_total)
           else Ok (Q2Qc 0)) with
    | Raise e => (Raise e, self)
    | Ok cache_hit_rate =>
        match (if 0 <? query_count self
               then truediv (Py.of_int (error_count self))
                      (Py.of_int (query_count self))
               else Ok (Q2Qc 0)) with
        | Raise e => (Raise e, self)
        | Ok error_rate =>
            (Ok {| metrics := self;
                   cache_hit_rate := cache_hit_rate;
                   error_rate := error_rate |}, self)
        end
    end.

(** [reset_metrics]: every key is set to [0]. *)
Definition reset_metrics : M t unit := fun _ => (Ok tt, init).

End MetricsCollector.

(** ** The confidence in IEEE 754 binary64

    The computation of [_calculate_confidence] once more, on the doubles of
    CPython instead of the rationals, to run it on concrete scores.  The
    operations are those of the Standard Library's specification of
    binary64; [sum] is the left fold CPython has up to 3.11 and
    [sum_compensated] the Neumaier summation it has from 3.12 on. *)

Module Binary64.

Abbreviation float := spec_float (only parsing).

Definition prec : Z := 53.
Definition emax : Z := 1024.

(** [float(n)] of an int. *)
Definition of_int (n : Z) : float := binary_normalize prec emax n 0 false.

Definition add : float -> float -> float := SFadd prec emax.
Definition sub : float -> float -> float := SFsub prec emax.
Definition div : float -> float -> float := SFdiv prec emax.

(** The literal with the decimal digits [digits] and [places] digits after
    the point: the double nearest to [digits / 10^places]. *)
Definition lit (digits : Z) (places : nat) : float :=
  div (of_int digits) (of_int (10 ^ Z.of_nat places)).

Definition gt (a b : float) : bool := SFltb b a.
Definition ge (a b : float) : bool := SFleb b a.

Definition max (a b : float) : float := if gt b a then b else a.
Definition min (a b : float) : float := if gt a b then b else a.

Definition sum (xs : list float) : float := foldl add (of_int 0) xs.

Definition is_finite (x : float) : bool :=
  match x with
  | S754_zero _ | S754_finite _ _ _ => true
  | _ => false
  end.

Definition is_zero (x : float) : bool :=
  match x with
  | S754_zero _ => true
  | _ => false
  end.

(** One step of the compensated summation, on the running sum and the
    running compensation. *)
Definition compensated_step (acc : float * float) (x : float) : float * float :=
  let '(f_result, c) := acc in
  let t := add f_result x in
  let c :=
    if ge (SFabs f_result) (SFabs x)
    then add c (add (sub f_result t) x)
    else add c (add (sub x t) f_result) in
  (t, c).

Definition sum_compensated (xs : list float) : float :=
  let '(f_result, c) := foldl compensated_step (of_int 0, of_int 0) xs in
  if negb (is_zero c) && is_finite c then add f_result c else f_result.

(** The rational a finite double stands for. *)
Definition exact (s : bool) (m : positive) (e : Z) : Qc :=
  let mantissa := if s then Z.neg m else Z.pos m in
  if 0 <=? e then Qc_of_Z (mantissa * 2 ^ e)
  else Q2Qc (Qmake mantissa (Z.to_pos (2 ^ (- e)))).

(** [round(x, ndigits)] for a small [ndigits >= 0]: the double nearest to
    the decimal rounding of the exact value of [x]; a double so large that
    its neighbours are further apart than [10^-ndigits] rounds to itself. *)
Definition round (x : float) (ndigits : nat) : float :=
  match x with
  | S754_finite s m e =>
      let n := Py.round_units (exact s m e) ndigits in
      if n =? 0 then S754_zero s
      else if Z.abs n <=? 2 ^ 53 then div (of_int n) (of_int (10 ^ Z.of_nat ndigits))
      else x
  | _ => x
  end.

(** The body of [_calculate_confidence] on the scores, with one or the other
    [sum]. *)
Definition calculate_confidence (sum : list float -> float) (scores : list float)
  : float :=
  match scores with
  | [] => lit 0 1
  | _ :: _ =>
      let avg_score := div (sum scores) (of_int (Z.of_nat (length scores))) in
      let confidence := min (lit 10 1) (max (lit 0 1) avg_score) in
      round confidence 2
  end.

End Binary64.

(** ** The words of the specification

    Definitions that follow the specification's sentences rather than the
    code, to state what the code is compared with. *)

Module Spec.

(** The arithmetic mean of a sequence of scores. *)
Definition mean (scores : list Py.float) : Py.float :=
  (foldr Qcplus (Q2Qc 0) scores / Qc_of_Z (Z.of_nat (length scores)))%Qc.

(** [clamp(x, lo, hi)]. *)
Definition clamp (x lo hi : Py.float) : Py.float :=
  if decide (x < lo)%Qc then lo
  else if decide (hi < x)%Qc then hi
  else x.

(** [r] is [x] rounded to [ndigits] decimals: [r] is [n / 10^ndigits] for an
    integer [n] at distance at most one half from [x * 10^ndigits], and
    [n] is even when the distance is exactly one half. *)
Definition rounds_to (ndigits : nat) (x r : Py.float) : Prop :=
  let unit := Qc_of_Z (10 ^ Z.of_nat ndigits) in
  exists n : Z,
    (r * unit = Qc_of_Z n)%Qc
    /\ (Qc_of_Z (2 * n - 1) <= Q2Qc 2 * (x * unit))%Qc
    /\ (Q2Qc 2 * (x * unit) <= Qc_of_Z (2 * n + 1))%Qc
    /\ ((Q2Qc 2 * (x * unit) = Qc_of_Z (2 * n - 1)
         \/ Q2Qc 2 * (x * unit) = Qc_of_Z (2 * n + 1))%Qc -> Z.even n = true).

(** [pre] is the first [n] characters of [s]. *)
Definition first_chars (n : nat) (s pre : string) : Prop :=
  String.length pre = n /\ exists rest, s = pre +:+ rest.

(** The ellipsis marker. *)
Definition ellipsis : string := "...".

End Spec.

(** ** Measures of the context assembler

    The quantities in which the length of the assembled context is stated. *)

Module Measure.

(** The characters [_prepare_context] adds around the text of the first
    [n] chunks: a header [Source: <label>\n] each, and a blank line between
    two entries. *)
Definition header_length (doc : Document) : Z :=
  Py.len "Source: " + Py.len (RAGPipeline.source_label doc) + Py.len Py.nl.

Fixpoint headers_length (docs : list Scored) : Z :=
  match docs with
  | [] => 0
  | (doc, _) :: rest => header_length doc + headers_length rest
  end.

Definition framing (n : nat) (docs : list Scored) : Z :=
  headers_length (take n docs)
  + Py.len (Py.nl +:+ Py.nl) * Z.max 0 (Z.of_nat n - 1).

(** The total length of the contents of a sequence of chunks. *)
Fixpoint contents_length (docs : list Scored) : Z :=
  match docs with
  | [] => 0
  | (doc, _) :: rest => Py.len (page_content doc) + contents_length rest
  end.

(** The entry of a chunk that went in whole. *)
Definition whole_part (r : Scored) : string :=
  RAGPipeline.context_part (fst r) (page_content (fst r)).

(** The total length of a sequence of entries. *)
Definition parts_length (parts : list string) : Z :=
  foldr (fun p acc => Py.len p + acc) 0 parts.

End Measure.

(** ** Scenarios

    Requests, services and documents used to state the properties and to
    run the code on concrete inputs. *)

(** A chunk with its [source] label. *)
Definition doc_of (content label : string) : Document :=
  {| page_content := content; metadata := {[ "source" := label ]} |}.



(** A Chroma index that returns the given results. *)
Definition demo_index (results : list Scored) : string -> Z -> M unit (list Scored) :=
  fun _ _ w => (Ok results, w).

(** A generator that must not be called: it leaves a mark on the world. *)
Definition marking_generate : string -> Z -> M bool string :=
  fun _ _ _ => (Ok "called", true).

(** A vector store that finds nothing. *)
Definition empty_search : string -> Z -> option Py.float -> M bool (list Scored) :=
  fun _ _ _ w => (Ok [], w).


(** The request [generate] sends. *)
Definition generate_request (self : GoogleLLM.t) (prompt : string) (max_tokens : Z)
  : genai.GenerateRequest :=
  {| genai.generate_model := GoogleLLM.model self;
     genai.prompt := prompt;
     genai.max_output_tokens := max_tokens |}.

(** The request [embed_query] sends. *)
Definition query_request (self : GoogleEmbeddings.t) (text : string)
  : genai.EmbedRequest :=
  {| genai.embed_model := GoogleEmbeddings.model self;
     genai.embed_text := GoogleEmbeddings.truncate text;
     genai.task_type := genai.retrieval_query |}.

(** A service with a transient failure: the first request fails, every
    later one succeeds. *)
Definition flaky : Service := {|
  embed_outcome := fun w _ =>
    if decide (api_calls w = 0%nat) then Raise (Exception "503 unavailable")
    else Ok [Py.lit 0.1; Py.lit 0.2; Py.lit 0.3];
  generate_outcome := fun w _ =>
    if decide (api_calls w = 0%nat) then Raise (Exception "503 unavailable")
    else Ok "Top up the coolant."
|}.

(** A request for the embedding of one text, through either method of the
    manager; it returns the manager as the request leaves it. *)
Inductive Entry := through_get_embeddings | through_get_query_embedding.

Definition request_embedding (hash : string -> Z) (svc : Service) (entry : Entry)
    (self : EmbeddingManager.t) (text : string) (use_cache : bool)
  : M World EmbeddingManager.t :=
  match entry with
  | through_get_embeddings =>
      (r <- EmbeddingManager.get_embeddings hash svc self [text] use_cache ;;
       ret (snd r))
  | through_get_query_embedding =>
      (r <- EmbeddingManager.get_query_embedding hash svc self text use_cache ;;
       ret (snd r))
  end.

(** Two requests in a row. *)
Definition request_twice (hash : string -> Z) (svc : Service)
    (entry1 entry2 : Entry) (self : EmbeddingManager.t) (text1 text2 : string)
    (use_cache : bool) : M World EmbeddingManager.t :=
  (self1 <- request_embedding hash svc entry1 self text1 use_cache ;;
   request_embedding hash svc entry2 self1 text2 use_cache).

(** [EmbeddingManager(embedding_model)]: the cache starts empty. *)
Definition new_manager (embedding_model : GoogleEmbeddings.t) : EmbeddingManager.t :=
  {| EmbeddingManager.embedding_model := embedding_model;
     EmbeddingManager.cache := ∅ |}.

(** A hash for examples: the length of the text. *)
Definition length_hash (text : string) : Z := Py.len text.

(** The requests for embeddings in a trace, the oldest first. *)
Definition embed_requests (w : World) : list genai.EmbedRequest :=
  omap (fun e => match e with EmbedContent r => Some r | _ => None end) (reverse w).

(** The entries into [embed_documents] in a trace, the oldest first, each
    with the texts it was given. *)
Definition embed_documents_calls (w : World) : list (list string) :=
  omap (fun e => match e with EnterEmbedDocuments ts => Some ts | _ => None end)
    (reverse w).

(** The request [embed_documents] sends for a text. *)
Definition document_request (self : GoogleEmbeddings.t) (text : string)
  : genai.EmbedRequest :=
  {| genai.embed_model := GoogleEmbeddings.model self;
     genai.embed_text := GoogleEmbeddings.truncate text;
     genai.task_type := genai.retrieval_document |}.

(** What a text's entry of the result is, given what the service answered. *)
Definition embedding_or_fallback (outcome : result Embedding) : Embedding :=
  match outcome with
  | Ok e => e
  | Raise _ => GoogleEmbeddings.zero_vector
  end.

(** Whether [embed_documents] pauses after the text at index [i]. *)
Definition pause_after (i : Z) : bool := (0 <? i) && (i mod 10 =? 0).

(** The number of pauses for [n] texts from index [i] on, when every
    request succeeds. *)
Fixpoint pauses_from (i : Z) (n : nat) : nat :=
  match n with
  | O => O
  | S n' => ((if pause_after i then 1 else 0) + pauses_from (i + 1) n')%nat
  end.

(** Services for examples: one that never answers, one that always does. *)
Definition dead : Service := {|
  embed_outcome := fun _ _ => Raise (Exception "503 unavailable");
  generate_outcome := fun _ _ => Raise (Exception "503 unavailable")
|}.

Definition healthy : Service := {|
  embed_outcome := fun _ _ => Ok [Py.lit 0.1; Py.lit 0.2; Py.lit 0.3];
  generate_outcome := fun _ _ => Ok "Top up the coolant."
|}.

(** The texts of a batch that the cache of [self] does not answer. *)
Definition misses (hash : string -> Z) (self : EmbeddingManager.t)
    (texts : list string) : list string :=
  filter (fun t => EmbeddingManager.cache self
                     !! EmbeddingManager._get_cache_key hash t = None) texts.

(** Their indices in the batch, counted from [i]. *)
Fixpoint miss_indices (hash : string -> Z) (self : EmbeddingManager.t) (i : nat)
    (texts : list string) : list nat :=
  match texts with
  | [] => []
  | t :: rest =>
      match EmbeddingManager.cache self !! EmbeddingManager._get_cache_key hash t with
      | Some _ => miss_indices hash self (S i) rest
      | None => i :: miss_indices hash self (S i) rest
      end
  end.

(** The answers of the cache to a batch, with the gaps filled in order from
    what the provider returned. *)
Fixpoint fill (lookups : list (option Embedding)) (new : list Embedding)
  : list (option Embedding) :=
  match lookups with
  | [] => []
  | Some e :: rest => Some e :: fill rest new
  | None :: rest =>
      match new with
      | e :: new' => Some e :: fill rest new'
      | [] => None :: fill rest []
      end
  end.

(** A cache after the entries for some texts were written, in order. *)
Definition store_all (hash : string -> Z) (c : gmap string Embedding)
    (entries : list (string * Embedding)) : gmap string Embedding :=
  foldl (fun c p => <[EmbeddingManager._get_cache_key hash (fst p) := snd p]> c)
    c entries.

(** A manager whose cache already answers the text ["oil filter"] under
    [length_hash]. *)
Definition warm_manager : EmbeddingManager.t :=
  {| EmbeddingManager.embedding_model :=
       {| GoogleEmbeddings.model := "models/embedding-001" |};
     EmbeddingManager.cache := {[ "embed_10" := [Py.lit 0.5; Py.lit 0.25] ]} |}.

(** The batches [add_documents] hands to the collection, in order. *)
Definition batches (documents : list Document) : list (list Document) :=
  (fun i => Py.slice documents i (i + VectorStore.batch_size))
    <$> Py.range 0 (Z.of_nat (length documents)) VectorStore.batch_size.

(** A Chroma collection that records what it is asked to do, the newest
    first. *)
Inductive StoreEvent :=
| AddDocuments (batch : list Document)
| Persist.

Definition recording_add (batch : list Document) : M (list StoreEvent) unit :=
  fun w => (Ok tt, AddDocuments batch :: w).

Definition recording_persist : M (list StoreEvent) unit :=
  fun w => (Ok tt, Persist :: w).

(** A collection that refuses a batch holding more than [limit] documents
    before it, counting all the documents added so far. *)
Definition added_so_far (w : list StoreEvent) : nat :=
  length (mjoin (omap (fun e => match e with AddDocuments b => Some b | _ => None end) w)).

Definition limited_add (limit : nat) (batch : list Document)
  : M (list StoreEvent) unit :=
  fun w =>
    if decide (added_so_far w + length batch <= limit)%nat
    then (Ok tt, AddDocuments batch :: w)
    else (Raise (Exception "quota exceeded"), w).

(** The calls a client makes on a metrics collector. *)
Inductive MetricsCall :=
| RecordQuery (response_time : Py.float) (error : bool)
| RecordCacheHit
| RecordCacheMiss
| ResetMetrics.

Definition metrics_call (c : MetricsCall) : M MetricsCollector.t unit :=
  match c with
  | RecordQuery response_time error => MetricsCollector.record_query response_time error
  | RecordCacheHit => MetricsCollector.record_cache_hit
  | RecordCacheMiss => MetricsCollector.record_cache_miss
  | ResetMetrics => MetricsCollector.reset_metrics
  end.

Fixpoint metrics_calls (cs : list MetricsCall) : M MetricsCollector.t unit :=
  match cs with
  | [] => ret tt
  | c :: rest => (metrics_call c ;;; metrics_calls rest)
  end.

(** The response times of the queries recorded without error. *)
Fixpoint successful_times (cs : list MetricsCall) : list Py.float :=
  match cs with
  | [] => []
  | RecordQuery response_time false :: rest => response_time :: successful_times rest
  | _ :: rest => successful_times rest
  end.

(** What holds of a collector between two calls. *)
Definition consistent (m : MetricsCollector.t) : Prop :=
  0 <= MetricsCollector.error_count m <= MetricsCollector.query_count m
  /\ 0 <= MetricsCollector.embedding_cache_hits m
  /\ 0 <= MetricsCollector.embedding_cache_misses m
  /\ (MetricsCollector.average_response_time m
      * Py.of_int (MetricsCollector.query_count m - MetricsCollector.error_count m)
      = MetricsCollector.total_response_time m)%Qc.

Definition is_query (c : MetricsCall) : bool :=
  match c with RecordQuery _ _ => true | _ => false end.

Definition is_error (c : MetricsCall) : bool :=
  match c with RecordQuery _ true => true | _ => false end.

Definition is_hit (c : MetricsCall) : bool :=
  match c with RecordCacheHit => true | _ => false end.

Definition is_miss (c : MetricsCall) : bool :=
  match c with RecordCacheMiss => true | _ => false end.

(** How many of the calls are of a kind. *)
Definition count_calls (kind : MetricsCall -> bool) (cs : list MetricsCall) : Z :=
  Z.of_nat (length (List.filter kind cs)).

(** A Chroma index of the assembled pipeline that returns the given results
    and asks nothing of the provider. *)
Definition stocked_index (results : list Scored)
  : string -> Z -> M World (list Scored) :=
  fun _ _ w => (Ok results, w).

(** A Chroma index that cannot be reached. *)
Definition failing_index : string -> Z -> M World (list Scored) :=
  fun _ _ w => (Raise (Exception "collection not found"), w).

(** * Properties *)

(** ** Strings *)

Lemma len_nonneg s : 0 <= Py.len s.
Proof. unfold Py.len. lia. Qed.

Lemma len_app s1 s2 : Py.len (s1 +:+ s2) = Py.len s1 + Py.len s2.
Proof.
  unfold Py.len. induction s1 as [|c s1 IH]; [reflexivity|].
  change (String c s1 +:+ s2) with (String c (s1 +:+ s2)).
  cbn [String.length]. rewrite !Nat2Z.inj_succ. lia.
Qed.

Lemma length_take n s : String.length (Py.take n s) = Nat.min n (String.length s).
Proof.
  revert s. induction n as [|n IH]; intros [|c s]; simpl; try reflexivity.
  now rewrite IH.
Qed.

Lemma take_split n s : exists rest, s = Py.take n s +:+ rest.
Proof.
  revert s. induction n as [|n IH]; intros s.
  - exists s. now destruct s.
  - destruct s as [|c s]; [now exists EmptyString|].
    destruct (IH s) as [rest Hrest]. exists rest.
    change (Py.take (S n) (String c s) +:+ rest)
      with (String c (Py.take n s +:+ rest)).
    now rewrite <- Hrest.
Qed.

Lemma len_slice_to s n : 0 <= n <= Py.len s -> Py.len (Py.slice_to s n) = n.
Proof.
  intros Hn. unfold Py.slice_to.
  destruct (Z.ltb_spec n 0) as [?|_]; [lia|].
  unfold Py.len in *. rewrite length_take. lia.
Qed.

Lemma slice_to_first_chars s n :
  0 <= n <= Py.len s -> Spec.first_chars (Z.to_nat n) s (Py.slice_to s n).
Proof.
  intros Hn. split.
  - pose proof (len_slice_to s n Hn) as H. unfold Py.len in H. lia.
  - unfold Py.slice_to. destruct (Z.ltb_spec n 0) as [?|_]; [lia|].
    apply take_split.
Qed.

Lemma len_join sep parts :
  Py.len (Py.join sep parts)
  = foldr (fun p acc => Py.len p + acc) 0 parts
    + Py.len sep * Z.max 0 (Z.of_nat (length parts) - 1).
Proof.
  induction parts as [|p [|q rest] IH].
  - change (Z.max 0 (Z.of_nat (length (@nil string)) - 1)) with 0.
    change (Py.len (Py.join sep [])) with 0. cbn [foldr]. lia.
  - change (Z.max 0 (Z.of_nat (length [p]) - 1)) with 0.
    cbn [foldr Py.join]. clear IH. lia.
  - change (Py.join sep (p :: q :: rest)) with (p +:+ sep +:+ Py.join sep (q :: rest)).
    rewrite !len_app, IH. simpl foldr. simpl length.
    rewrite !Nat2Z.inj_succ, !Z.max_r by lia. lia.
Qed.

(** ** Numbers *)

Lemma lit_zero : Py.lit 0.0 = Q2Qc 0.
Proof. apply Qc_is_canon. reflexivity. Qed.

Lemma lit_one : Py.lit 1.0 = Q2Qc 1.
Proof. apply Qc_is_canon. reflexivity. Qed.

Lemma sum_from (a : Py.float) (xs : list Py.float) :
  foldl Qcplus a xs = (a + foldr Qcplus (Q2Qc 0) xs)%Qc.
Proof.
  revert a. induction xs as [|x xs IH]; intros a; simpl.
  - ring.
  - rewrite IH. ring.
Qed.

Lemma sum_foldr (xs : list Py.float) : Py.sum xs = foldr Qcplus (Q2Qc 0) xs.
Proof. unfold Py.sum. rewrite sum_from. ring. Qed.

Lemma min_max_clamp (x : Py.float) :
  Py.min (Py.lit 1.0) (Py.max (Py.lit 0.0) x)
  = Spec.clamp x (Py.lit 0.0) (Py.lit 1.0).
Proof.
  rewrite lit_zero, lit_one.
  assert (H01 : (Q2Qc 0 < Q2Qc 1)%Qc) by reflexivity.
  unfold Py.min, Py.max, Py.gt, Spec.clamp.
  destruct (decide (x < Q2Qc 0)%Qc) as [Hlo|Hlo].
  - rewrite (bool_decide_eq_false_2 (Q2Qc 0 < x)%Qc).
    + now rewrite bool_decide_eq_true_2.
    + apply Qcle_not_lt, Qclt_le_weak, Hlo.
  - apply Qcnot_lt_le in Hlo.
    destruct (decide (Q2Qc 1 < x)%Qc) as [Hhi|Hhi].
    + rewrite (bool_decide_eq_true_2 (Q2Qc 0 < x)%Qc)
        by (eapply Qclt_trans; eassumption).
      now rewrite bool_decide_eq_false_2 by (apply Qcle_not_lt, Qclt_le_weak, Hhi).
    + apply Qcnot_lt_le in Hhi.
      destruct (decide (Q2Qc 0 < x)%Qc) as [Hpos|Hpos].
      * rewrite (bool_decide_eq_true_2 _ Hpos).
        destruct (decide (x < Q2Qc 1)%Qc) as [Hlt|Hlt].
        -- now rewrite bool_decide_eq_true_2.
        -- rewrite bool_decide_eq_false_2 by assumption.
           apply Qcle_antisym; [|assumption]. now apply Qcnot_lt_le.
      * rewrite (bool_decide_eq_false_2 _ Hpos).
        rewrite bool_decide_eq_true_2 by assumption.
        apply Qcle_antisym; [assumption|]. now apply Qcnot_lt_le.
Qed.

(** The integer chosen by [round] is a nearest one, and even at a tie;
    stated on the numerator [a] and denominator [b] of the argument. *)
Lemma round_units_nearest (x : Py.float) (ndigits : nat) :
  let a := Qnum (this x) in
  let b := Z.pos (Qden (this x)) in
  let s := 10 ^ Z.of_nat ndigits in
  let n := Py.round_units x ndigits in
  (2 * n - 1) * b <= 2 * (a * s) <= (2 * n + 1) * b
  /\ (2 * (a * s) = (2 * n - 1) * b \/ 2 * (a * s) = (2 * n + 1) * b ->
      Z.even n = true).
Proof.
  intros a b s n. subst n. unfold Py.round_units. fold a b s.
  assert (Hb : 0 < b) by (subst b; lia).
  pose proof (Z.div_mod (a * s) b ltac:(lia)) as Hdm.
  pose proof (Z.mod_pos_bound (a * s) b Hb) as Hr.
  set (lo := a * s / b) in *. set (r := (a * s) mod b) in *.
  destruct (Z.ltb_spec (2 * r) b) as [H1|H1].
  - split; [nia|]. intros [H|H]; nia.
  - destruct (Z.ltb_spec b (2 * r)) as [H2|H2].
    + split; [nia|]. intros [H|H]; nia.
    + assert (Heq : 2 * r = b) by lia.
      destruct (Z.even lo) eqn:Hev.
      * split; [nia|]. intros _. exact Hev.
      * split; [nia|]. intros _.
        rewrite Z.add_1_r, Z.even_succ, <- Z.negb_even, Hev. reflexivity.
Qed.

Lemma twice_scaled (x : Py.float) (s : Z) :
  (this (Q2Qc 2 * (x * Qc_of_Z s))%Qc == (2 * (Qnum (this x) * s)) # Qden (this x))%Q.
Proof.
  destruct x as [[a b] Hx]. cbn [this Qcmult Q2Qc Qc_of_Z].
  rewrite !Qred_correct. unfold Qeq, Qmult, inject_Z. cbn [Qnum Qden].
  rewrite ?Pos.mul_1_l, ?Pos.mul_1_r. lia.
Qed.

Lemma of_Z_le_twice_scaled (x : Py.float) (s z : Z) :
  (Qc_of_Z z <= Q2Qc 2 * (x * Qc_of_Z s))%Qc
  <-> z * Z.pos (Qden (this x)) <= 2 * (Qnum (this x) * s).
Proof.
  unfold Qcle. rewrite twice_scaled. unfold Qle, Qc_of_Z, inject_Z.
  cbn [this Qnum Qden]. lia.
Qed.

Lemma twice_scaled_le_of_Z (x : Py.float) (s z : Z) :
  (Q2Qc 2 * (x * Qc_of_Z s) <= Qc_of_Z z)%Qc
  <-> 2 * (Qnum (this x) * s) <= z * Z.pos (Qden (this x)).
Proof.
  unfold Qcle. rewrite twice_scaled. unfold Qle, Qc_of_Z, inject_Z.
  cbn [this Qnum Qden]. lia.
Qed.

Lemma twice_scaled_eq_of_Z (x : Py.float) (s z : Z) :
  (Q2Qc 2 * (x * Qc_of_Z s))%Qc = Qc_of_Z z
  -> 2 * (Qnum (this x) * s) = z * Z.pos (Qden (this x)).
Proof.
  intros H. apply (f_equal this) in H.
  assert (Hq : (this (Q2Qc 2 * (x * Qc_of_Z s))%Qc == this (Qc_of_Z z))%Q)
    by (rewrite H; reflexivity).
  rewrite twice_scaled in Hq. unfold Qeq, Qc_of_Z, inject_Z in Hq.
  cbn [this Qnum Qden] in Hq. lia.
Qed.

Lemma round_times_unit (x : Py.float) (ndigits : nat) :
  (Py.round x ndigits * Qc_of_Z (10 ^ Z.of_nat ndigits))%Qc
  = Qc_of_Z (Py.round_units x ndigits).
Proof.
  apply Qc_is_canon. unfold Py.round.
  assert (Hs : 0 < 10 ^ Z.of_nat ndigits) by (apply Z.pow_pos_nonneg; lia).
  set (s := 10 ^ Z.of_nat ndigits) in *. set (n := Py.round_units x ndigits).
  cbn [this Qcmult Q2Qc Qc_of_Z]. rewrite !Qred_correct.
  unfold Qeq, Qmult, inject_Z. cbn [Qnum Qden].
  rewrite Pos.mul_1_r, Z2Pos.id by exact Hs. lia.
Qed.

Lemma round_rounds_to (x : Py.float) (ndigits : nat) :
  Spec.rounds_to ndigits x (Py.round x ndigits).
Proof.
  exists (Py.round_units x ndigits).
  destruct (round_units_nearest x ndigits) as [[Hlo Hhi] Htie].
  split; [apply round_times_unit|].
  split; [apply of_Z_le_twice_scaled; exact Hlo|].
  split; [apply twice_scaled_le_of_Z; exact Hhi|].
  intros [H|H]; apply twice_scaled_eq_of_Z in H; apply Htie; auto.
Qed.


(** ** The orchestrator on its normal path *)

(** What [query] returns for the class as written, when retrieval finds
    something and the generator returns. *)
Lemma query_new_returns {W} (settings : Settings)
    (search : string -> Z -> option Py.float -> M W (list Scored))
    (generate : string -> Z -> M W string) (max_len : option Z)
    (question : string) (k : Z) (include_sources : bool)
    (r : Scored) (rest : list Scored) (text : string) (w w1 w2 : W) :
  search question k None w = (Ok (r :: rest), w1) ->
  generate
    (RAGPipeline.build_prompt question
       (RAGPipeline._prepare_context
          (Py.or_int max_len (max_context_length settings)) (r :: rest)))
    1000 w1 = (Ok text, w2) ->
  RAGPipeline.query (RAGPipeline.new settings search generate max_len)
    question k include_sources w
  = (Ok {| answer := text;
           sources := if include_sources
                      then RAGPipeline._format_sources (r :: rest) else [];
           confidence := RAGPipeline._calculate_confidence (r :: rest) |}, w2).
Proof.
  intros Hs Hg.
  unfold RAGPipeline.query, RAGPipeline.query_body, try_except, bind, ret.
  cbn [RAGPipeline.new RAGPipeline.similarity_search RAGPipeline.prepare_context
       RAGPipeline.generate_answer RAGPipeline.calculate_confidence
       RAGPipeline.format_sources].
  rewrite Hs. unfold ret. cbn beta iota. rewrite Hg. cbn beta iota.
  destruct include_sources; reflexivity.
Qed.

(** ** C1: the confidence *)



(** The example of C1 on doubles, as the repository's test
    [test_confidence_calculation] runs it: the scores 0.8 and 0.6 give the
    double 0.7, which is also [(0.8 + 0.6) / 2], with either summation. *)
Lemma confidence_of_0_8_and_0_6_in_binary64 :
  let scores := [Binary64.lit 8 1; Binary64.lit 6 1] in
  let expected :=
    Binary64.div (Binary64.add (Binary64.lit 8 1) (Binary64.lit 6 1))
      (Binary64.of_int 2) in
  Binary64.calculate_confidence Binary64.sum scores = Binary64.lit 70 2
  /\ Binary64.calculate_confidence Binary64.sum_compensated scores = Binary64.lit 70 2
  /\ expected = Binary64.lit 70 2.
Proof. vm_compute. repeat split. Qed.

(** ** C8: the sources *)

Lemma format_loop_app (docs : list Scored) (i : Z) (acc : list SourceInfo) :
  exists tail,
    RAGPipeline.format_loop i docs acc = acc ++ tail /\ length tail = length docs.
Proof.
  revert i acc. induction docs as [|[doc score] rest IH]; intros i acc.
  - exists []. split; [now rewrite app_nil_r|reflexivity].
  - cbn [RAGPipeline.format_loop].
    destruct (IH (i + 1) (acc ++ [{| src_id := i + 1;
                                      src_content := RAGPipeline.source_content doc;
                                      src_metadata := metadata doc;
                                      src_similarity_score := Py.round score 3 |}]))
      as [tail [Heq Hlen]].
    eexists (_ :: tail). split.
    + rewrite Heq, <- app_assoc. reflexivity.
    + simpl. now rewrite Hlen.
Qed.

Lemma format_loop_lookup (docs : list Scored) (i : Z) (acc : list SourceInfo)
    (j : nat) (doc : Document) (score : Py.float) :
  docs !! j = Some (doc, score) ->
  RAGPipeline.format_loop i docs acc !! (length acc + j)%nat
  = Some {| src_id := i + Z.of_nat j + 1;
            src_content := RAGPipeline.source_content doc;
            src_metadata := metadata doc;
            src_similarity_score := Py.round score 3 |}.
Proof.
  revert i acc j. induction docs as [|[d s] rest IH]; intros i acc j Hj.
  - discriminate.
  - cbn [RAGPipeline.format_loop]. destruct j as [|j].
    + injection Hj as -> ->.
      destruct (format_loop_app rest (i + 1)
                  (acc ++ [{| src_id := i + 1;
                              src_content := RAGPipeline.source_content doc;
                              src_metadata := metadata doc;
                              src_similarity_score := Py.round score 3 |}]))
        as [tail [-> _]].
      rewrite Nat.add_0_r, <- app_assoc, lookup_app_r by lia.
      rewrite Nat.sub_diag. cbn. do 2 f_equal. lia.
    + cbn in Hj. specialize (IH (i + 1) (acc ++ [{| src_id := i + 1;
                              src_content := RAGPipeline.source_content d;
                              src_metadata := metadata d;
                              src_similarity_score := Py.round s 3 |}]) j Hj).
      rewrite length_app in IH. cbn [length] in IH.
      replace (length acc + S j)%nat with (length acc + 1 + j)%nat by lia.
      rewrite IH. do 2 f_equal. lia.
Qed.

Lemma source_content_long (doc : Document) :
  200 < Py.len (page_content doc) ->
  exists pre,
    Spec.first_chars 200 (page_content doc) pre
    /\ RAGPipeline.source_content doc = pre +:+ Spec.ellipsis.
Proof.
  intros H. unfold RAGPipeline.source_content.
  destruct (Z.ltb_spec 200 (Py.len (page_content doc))) as [_|?]; [|lia].
  exists (Py.slice_to (page_content doc) 200). split; [|reflexivity].
  apply (slice_to_first_chars (page_content doc) 200). lia.
Qed.

Lemma source_content_short (doc : Document) :
  Py.len (page_content doc) <= 200 ->
  RAGPipeline.source_content doc = page_content doc.
Proof.
  intros H. unfold RAGPipeline.source_content.
  destruct (Z.ltb_spec 200 (Py.len (page_content doc))) as [?|_]; [lia|reflexivity].
Qed.

(** C8. Entry [i] (counted from 1, in the order of retrieval) of the sources
    of a query response carries the metadata of chunk [i], its score rounded
    to three decimals, and as content the first 200 characters of the chunk
    followed by the ellipsis marker when the chunk is longer than 200
    characters, the chunk's content unchanged otherwise. *)
Theorem C8_sources_entries :
  (forall (docs : list Scored) (i : nat) (doc : Document) (score : Py.float),
     docs !! i = Some (doc, score) ->
     length (RAGPipeline._format_sources docs) = length docs
     /\ exists entry,
          RAGPipeline._format_sources docs !! i = Some entry
          /\ src_id entry = Z.of_nat i + 1
          /\ src_metadata entry = metadata doc
          /\ src_similarity_score entry = Py.round score 3
          /\ Spec.rounds_to 3 score (src_similarity_score entry)
          /\ (200 < Py.len (page_content doc) ->
              exists pre,
                Spec.first_chars 200 (page_content doc) pre
                /\ src_content entry = pre +:+ Spec.ellipsis)
          /\ (Py.len (page_content doc) <= 200 ->
              src_content entry = page_content doc))
  /\ (forall W settings search generate max_len question k
             (r : Scored) (rest : list Scored) (text : string) (w w1 w2 : W),
        search question k None w = (Ok (r :: rest), w1) ->
        generate
          (RAGPipeline.build_prompt question
             (RAGPipeline._prepare_context
                (Py.or_int max_len (max_context_length settings)) (r :: rest)))
          1000 w1 = (Ok text, w2) ->
        exists response,
          RAGPipeline.query (RAGPipeline.new settings search generate max_len)
            question k true w = (Ok response, w2)
          /\ sources response = RAGPipeline._format_sources (r :: rest)).
Proof.
  split.
  - intros docs i doc score Hi. split.
    + unfold RAGPipeline._format_sources.
      destruct (format_loop_app docs 0 []) as [tail [-> Hlen]]. exact Hlen.
    + eexists. split.
      * unfold RAGPipeline._format_sources.
        exact (format_loop_lookup docs 0 [] i doc score Hi).
      * cbn [src_id src_metadata src_similarity_score src_content].
        split; [lia|]. split; [reflexivity|]. split; [reflexivity|].
        split; [apply round_rounds_to|].
        split; [apply source_content_long|apply source_content_short].
  - intros. eexists. split; [eapply query_new_returns; eassumption|reflexivity].
Qed.

Lemma C8_witness :
  exists entry,
    RAGPipeline._format_sources
      [(doc_of "Low coolant is the usual cause of overheating." "manual.pdf", Py.lit 0.82);
       (doc_of "Inspect the radiator fan clutch." "bulletin.csv", Py.lit 0.6549)]
      !! 1%nat = Some entry
    /\ src_id entry = 2
    /\ src_metadata entry = {[ "source" := "bulletin.csv" ]}
    /\ src_similarity_score entry = Py.lit 0.655
    /\ src_content entry = "Inspect the radiator fan clutch.".
Proof.
  destruct (proj1 C8_sources_entries
              [(doc_of "Low coolant is the usual cause of overheating." "manual.pdf",
                Py.lit 0.82);
               (doc_of "Inspect the radiator fan clutch." "bulletin.csv", Py.lit 0.6549)]
              1%nat (doc_of "Inspect the radiator fan clutch." "bulletin.csv")
              (Py.lit 0.6549) eq_refl)
    as [_ [entry (Hl & Hid & Hm & Hs & _ & _ & Hc)]].
  exists entry. split; [exact Hl|]. split; [exact Hid|]. split; [exact Hm|].
  split.
  - rewrite Hs. apply Qc_is_canon. vm_compute. reflexivity.
  - apply Hc. vm_compute. discriminate.
Defined.

(** ** C3 and C9: the context assembler *)

Lemma len_context_part (doc : Document) (text : string) :
  Py.len (RAGPipeline.context_part doc text) = Measure.header_length doc + Py.len text.
Proof.
  unfold RAGPipeline.context_part, Measure.header_length. rewrite !len_app. lia.
Qed.

Lemma contents_length_nonneg (docs : list Scored) : 0 <= Measure.contents_length docs.
Proof.
  induction docs as [|[doc score] rest IH]; cbn [Measure.contents_length]; [lia|].
  pose proof (len_nonneg (page_content doc)). lia.
Qed.

(** Chunks that fit go in whole, one after the other. *)
Lemma prepare_loop_fits (max_len : Z) (fit tail : list Scored)
    (parts : list string) (cur : Z) :
  cur + Measure.contents_length fit <= max_len ->
  RAGPipeline.prepare_loop max_len (fit ++ tail) parts cur
  = RAGPipeline.prepare_loop max_len tail
      (parts ++ (Measure.whole_part <$> fit)) (cur + Measure.contents_length fit).
Proof.
  revert parts cur. induction fit as [|[doc score] fit IH]; intros parts cur Hfit.
  - cbn. now rewrite app_nil_r, Z.add_0_r.
  - cbn [Measure.contents_length] in *. pose proof (contents_length_nonneg fit).
    cbn [app RAGPipeline.prepare_loop].
    destruct (Z.ltb_spec max_len (cur + Py.len (page_content doc))) as [?|_]; [lia|].
    rewrite IH by lia. cbn [fmap list_fmap]. rewrite <- app_assoc.
    f_equal. lia.
Qed.

(** What one run of the loop appends, and how long it is. *)
Lemma prepare_loop_bound (max_len : Z) (docs : list Scored)
    (parts : list string) (cur : Z) :
  exists added,
    RAGPipeline.prepare_loop max_len docs parts cur = parts ++ added
    /\ (length added <= length docs)%nat
    /\ Measure.parts_length added
       <= Z.max 0 (max_len - cur) + Py.len Spec.ellipsis
          + Measure.headers_length (take (length added) docs).
Proof.
  revert parts cur. induction docs as [|[doc score] rest IH]; intros parts cur.
  - exists []. cbn [RAGPipeline.prepare_loop length take Measure.headers_length].
    rewrite app_nil_r. change (Measure.parts_length []) with 0.
    change (Py.len Spec.ellipsis) with 3. repeat split; lia.
  - cbn [RAGPipeline.prepare_loop].
    destruct (Z.ltb_spec max_len (cur + Py.len (page_content doc))) as [Hover|Hfit].
    + destruct (Z.ltb_spec 100 (max_len - cur)) as [Hroom|Hroom].
      * clear IH. eexists [_]. split; [reflexivity|]. split; [cbn; lia|].
        cbn [length take Measure.headers_length Measure.parts_length foldr].
        rewrite len_context_part, len_app, len_slice_to by lia.
        change (Py.len "...") with (Py.len Spec.ellipsis).
        rewrite take_0. cbn [Measure.headers_length]. lia.
      * exists []. rewrite app_nil_r. split; [reflexivity|]. split; [cbn; lia|].
        cbn [length take Measure.headers_length].
        change (Measure.parts_length []) with 0.
        change (Py.len Spec.ellipsis) with 3. lia.
    + destruct (IH (parts ++ [RAGPipeline.context_part doc (page_content doc)])
                  (cur + Py.len (page_content doc)))
        as (added & Heq & Hlen & Hbound).
      exists (RAGPipeline.context_part doc (page_content doc) :: added).
      split; [now rewrite Heq, <- app_assoc|]. split; [cbn; lia|].
      cbn [length take Measure.headers_length Measure.parts_length foldr].
      fold (Measure.parts_length added). rewrite len_context_part.
      pose proof (len_nonneg (page_content doc)). lia.
Qed.

(** C3, as the code has it.  The budget [max_length] is spent on the text
    of the chunks only: the returned string is at most [max_length] (zero
    when [max_length] is negative) plus one ellipsis marker long, not
    counting the [Source: <label>\n] header of each entry and the blank line
    between two entries. *)
Theorem C3_context_length_bound :
  forall (max_length : Z) (docs : list Scored),
    let n := length (RAGPipeline.prepare_loop max_length docs [] 0) in
    (n <= length docs)%nat
    /\ Py.len (RAGPipeline._prepare_context max_length docs)
       <= Z.max 0 max_length + Py.len Spec.ellipsis + Measure.framing n docs.
Proof.
  intros max_length docs n. subst n. unfold RAGPipeline._prepare_context.
  destruct (prepare_loop_bound max_length docs [] 0)
    as (added & Heq & Hlen & Hbound).
  rewrite Heq. cbn [app]. split; [exact Hlen|].
  rewrite len_join. fold (Measure.parts_length added). unfold Measure.framing.
  rewrite Z.sub_0_r in Hbound. lia.
Qed.

Lemma C3_witness :
  Py.len
    (RAGPipeline._prepare_context 20
       [(doc_of "Check coolant level." "manual.pdf", Py.lit 0.9);
        (doc_of "Inspect the radiator fan clutch." "bulletin.csv", Py.lit 0.8)])
  <= 20 + 3 + 19.
Proof.
  pose proof (C3_context_length_bound 20
       [(doc_of "Check coolant level." "manual.pdf", Py.lit 0.9);
        (doc_of "Inspect the radiator fan clutch." "bulletin.csv", Py.lit 0.8)])
    as [_ H].
  exact H.
Defined.

(** C3, as the specification has it, fails: a chunk of 20 characters under a
    limit of 20 gives a string of 39 characters, the header included. *)
Lemma C3_counterexample :
  ~ (Py.len
       (RAGPipeline._prepare_context 20
          [(doc_of "Check coolant level." "manual.pdf", Py.lit 0.9)])
     <= 20 + Py.len Spec.ellipsis).
Proof. vm_compute. intros H. apply H. reflexivity. Qed.

(** C9, as the code has it.  When the chunks [fit] went in whole and the
    next chunk does not fit, a prefix of it as long as the headroom, followed
    by the ellipsis marker, is the last entry when the headroom is more than
    100 characters; with a headroom of 100 characters or less nothing is
    added.  In both cases the chunks after it are not looked at. *)
Theorem C9_partial_entry :
  forall (max_length : Z) (fit : list Scored) (doc : Document)
         (score : Py.float) (rest : list Scored),
    Measure.contents_length fit <= max_length ->
    max_length < Measure.contents_length fit + Py.len (page_content doc) ->
    let headroom := max_length - Measure.contents_length fit in
    let sep := Py.nl +:+ Py.nl in
    (100 < headroom ->
     exists pre,
       Spec.first_chars (Z.to_nat headroom) (page_content doc) pre
       /\ RAGPipeline._prepare_context max_length (fit ++ (doc, score) :: rest)
          = Py.join sep ((Measure.whole_part <$> fit)
                         ++ [RAGPipeline.context_part doc (pre +:+ Spec.ellipsis)]))
    /\ (headroom <= 100 ->
        RAGPipeline._prepare_context max_length (fit ++ (doc, score) :: rest)
        = Py.join sep (Measure.whole_part <$> fit)).
Proof.
  intros max_length fit doc score rest Hfit Hover headroom sep.
  unfold RAGPipeline._prepare_context. fold sep.
  rewrite prepare_loop_fits by lia. cbn [app RAGPipeline.prepare_loop].
  rewrite Z.add_0_l. fold headroom.
  destruct (Z.ltb_spec max_length (Measure.contents_length fit + Py.len (page_content doc)))
    as [_|?]; [|lia].
  split; intros Hroom.
  - destruct (Z.ltb_spec 100 headroom) as [_|?]; [|lia].
    exists (Py.slice_to (page_content doc) headroom). split; [|reflexivity].
    apply slice_to_first_chars. subst headroom. lia.
  - destruct (Z.ltb_spec 100 headroom) as [?|_]; [lia|reflexivity].
Qed.

Lemma C9_witness :
  exists pre,
    Spec.first_chars 101
      "Replace the thermostat when the engine runs hot at idle, then bleed the cooling system of trapped air." pre
    /\ RAGPipeline._prepare_context 121
         [(doc_of "Check coolant level." "manual.pdf", Py.lit 0.9);
          (doc_of "Replace the thermostat when the engine runs hot at idle, then bleed the cooling system of trapped air." "guide.pdf", Py.lit 0.8);
          (doc_of "Inspect the radiator fan clutch." "bulletin.csv", Py.lit 0.7)]
       = Py.join (Py.nl +:+ Py.nl)
           [RAGPipeline.context_part (doc_of "Check coolant level." "manual.pdf")
              "Check coolant level.";
            RAGPipeline.context_part
              (doc_of "Replace the thermostat when the engine runs hot at idle, then bleed the cooling system of trapped air." "guide.pdf")
              (pre +:+ Spec.ellipsis)].
Proof.
  apply (proj1 (C9_partial_entry 121
           [(doc_of "Check coolant level." "manual.pdf", Py.lit 0.9)]
           (doc_of "Replace the thermostat when the engine runs hot at idle, then bleed the cooling system of trapped air." "guide.pdf")
           (Py.lit 0.8)
           [(doc_of "Inspect the radiator fan clutch." "bulletin.csv", Py.lit 0.7)]
           ltac:(vm_compute; discriminate) ltac:(vm_compute; reflexivity))).
  vm_compute. reflexivity.
Defined.

(** C9, as the specification has it, fails at a headroom of exactly 100
    characters: nothing of a chunk of 101 characters is included under a
    limit of 100. *)
Lemma C9_counterexample :
  let doc := doc_of "Replace the thermostat when the engine runs hot at idle, then bleed the cooling system of trapped air" "guide.pdf" in
  Py.len (page_content doc) = 101
  /\ 100 <= 100 - Measure.contents_length []
  /\ RAGPipeline._prepare_context 100 [(doc, Py.lit 0.8)] = ""
  /\ ~ (exists pre,
          RAGPipeline._prepare_context 100 [(doc, Py.lit 0.8)]
          = Py.join (Py.nl +:+ Py.nl)
              [RAGPipeline.context_part doc (pre +:+ Spec.ellipsis)]).
Proof.
  intros doc. split; [reflexivity|]. split; [vm_compute; discriminate|].
  split; [reflexivity|]. intros [pre H]. vm_compute in H. discriminate.
Qed.

(** ** C5 and C10: the score filter of [similarity_search] *)

(** What [similarity_search] returns when the index answers. *)
Lemma similarity_search_returns {W} (settings : Settings)
    (index : string -> Z -> M W (list Scored)) (query : string) (k : Z)
    (threshold : option Py.float) (w w' : W) (results : list Scored) :
  index query k w = (Ok results, w') ->
  VectorStore.similarity_search settings index query k threshold w
  = (Ok (let t := Py.or_float threshold (similarity_threshold settings) in
         if Py.truthy t then VectorStore.keep t results else results), w').
Proof.
  intros H. unfold VectorStore.similarity_search, try_except, bind, ret.
  rewrite H. reflexivity.
Qed.

(** A failed search gives the empty sequence. *)
Lemma similarity_search_fails {W} (settings : Settings)
    (index : string -> Z -> M W (list Scored)) (query : string) (k : Z)
    (threshold : option Py.float) (w w' : W) (e : PyException) :
  index query k w = (Raise e, w') ->
  VectorStore.similarity_search settings index query k threshold w = (Ok [], w').
Proof.
  intros H. unfold VectorStore.similarity_search, try_except, bind, ret.
  rewrite H. reflexivity.
Qed.

Lemma elem_of_keep (t : Py.float) (results : list Scored) (r : Scored) :
  r ∈ VectorStore.keep t results <-> (t <= snd r)%Qc /\ r ∈ results.
Proof.
  unfold VectorStore.keep. rewrite list_elem_of_filter. unfold Py.ge.
  rewrite bool_decide_spec. reflexivity.
Qed.

Lemma truthy_nonzero (t : Py.float) : t <> Q2Qc 0 -> Py.truthy t = true.
Proof. intros H. unfold Py.truthy. now apply bool_decide_eq_true_2. Qed.

Lemma or_float_zero (d : Py.float) : Py.or_float (Some (Py.lit 0.0)) d = d.
Proof. reflexivity. Qed.

(** C5, as the code has it.  When the threshold in effect (the one passed,
    or the configured default when none or zero is passed) is not zero, the
    filter is an inclusive lower bound: a result scoring exactly the
    threshold is kept and a result scoring below it is dropped. *)
Theorem C5_threshold_inclusive :
  forall W (settings : Settings) (index : string -> Z -> M W (list Scored))
         (query : string) (k : Z) (threshold : option Py.float)
         (w w' : W) (results : list Scored),
    let t := Py.or_float threshold (similarity_threshold settings) in
    t <> Q2Qc 0 ->
    index query k w = (Ok results, w') ->
    exists kept,
      VectorStore.similarity_search settings index query k threshold w
      = (Ok kept, w')
      /\ kept = VectorStore.keep t results
      /\ forall r : Scored,
           r ∈ results ->
           (snd r = t -> r ∈ kept) /\ ((snd r < t)%Qc -> r ∉ kept).
Proof.
  intros W settings index query k threshold w w' results t Ht Hidx.
  exists (VectorStore.keep t results).
  split.
  - rewrite (similarity_search_returns _ _ _ _ _ _ _ _ Hidx). cbv zeta.
    fold t. now rewrite (truthy_nonzero t Ht).
  - split; [reflexivity|]. intros r Hr. split.
    + intros Heq. apply elem_of_keep. split; [|exact Hr].
      rewrite Heq. apply Qcle_refl.
    + intros Hlt Hin. apply elem_of_keep in Hin as [Hle _].
      exact (Qclt_not_le _ _ Hlt Hle).
Qed.

Lemma C5_witness :
  exists kept,
    VectorStore.similarity_search default_settings
      (demo_index [(doc_of "a" "m", Py.lit 0.6); (doc_of "b" "m", Py.lit 0.59)])
      "engine" 5 (Some (Py.lit 0.6)) tt = (Ok kept, tt)
    /\ (doc_of "a" "m", Py.lit 0.6) ∈ kept
    /\ (doc_of "b" "m", Py.lit 0.59) ∉ kept.
Proof.
  destruct (C5_threshold_inclusive unit default_settings
              (demo_index [(doc_of "a" "m", Py.lit 0.6); (doc_of "b" "m", Py.lit 0.59)])
              "engine" 5 (Some (Py.lit 0.6)) tt tt
              [(doc_of "a" "m", Py.lit 0.6); (doc_of "b" "m", Py.lit 0.59)]
              ltac:(vm_compute; discriminate) eq_refl)
    as (kept & Hs & _ & Hr).
  exists kept. split; [exact Hs|]. split.
  - apply (Hr (doc_of "a" "m", Py.lit 0.6)); [|reflexivity].
    apply list_elem_of_here.
  - apply (Hr (doc_of "b" "m", Py.lit 0.59)); [|reflexivity].
    apply list_elem_of_further, list_elem_of_here.
Defined.

(** C5, as the specification has it, fails at the threshold 0.0: the default
    0.7 is used in its place, and a result scoring exactly 0.0 is dropped. *)
Lemma C5_counterexample :
  let r := (doc_of "a" "m", Py.lit 0.0) in
  snd r = Py.lit 0.0
  /\ VectorStore.similarity_search default_settings (demo_index [r])
       "engine" 5 (Some (Py.lit 0.0)) tt = (Ok [], tt).
Proof. split; reflexivity. Qed.

(** With a configured default of zero and no threshold passed, the guard
    [if threshold:] is false and nothing is filtered, whatever the scores. *)
Lemma zero_default_keeps_all {W} (settings : Settings)
    (index : string -> Z -> M W (list Scored)) (query : string) (k : Z)
    (w w' : W) (results : list Scored) :
  similarity_threshold settings = Q2Qc 0 ->
  index query k w = (Ok results, w') ->
  VectorStore.similarity_search settings index query k None w = (Ok results, w').
Proof.
  intros Hz Hidx. rewrite (similarity_search_returns _ _ _ _ _ _ _ _ Hidx).
  cbv zeta. cbn [Py.or_float]. rewrite Hz. reflexivity.
Qed.

(** C10. A threshold of 0.0 gives what no threshold gives, whatever the
    query and [k]; and it does not switch the filter off: with a configured
    default other than zero the results are those at or above the default. *)
Theorem C10_zero_threshold_is_unset :
  (forall W (settings : Settings) (index : string -> Z -> M W (list Scored))
          (query : string) (k : Z) (w : W),
     VectorStore.similarity_search settings index query k (Some (Py.lit 0.0)) w
     = VectorStore.similarity_search settings index query k None w)
  /\ (forall W (settings : Settings) (index : string -> Z -> M W (list Scored))
             (query : string) (k : Z) (w w' : W) (results : list Scored),
        similarity_threshold settings <> Q2Qc 0 ->
        index query k w = (Ok results, w') ->
        VectorStore.similarity_search settings index query k (Some (Py.lit 0.0)) w
        = (Ok (VectorStore.keep (similarity_threshold settings) results), w')).
Proof.
  split.
  - intros. reflexivity.
  - intros W settings index query k w w' results Hd Hidx.
    rewrite (similarity_search_returns _ _ _ _ _ _ _ _ Hidx). cbv zeta.
    rewrite or_float_zero. now rewrite (truthy_nonzero _ Hd).
Qed.

Lemma C10_witness :
  VectorStore.similarity_search default_settings
    (demo_index [(doc_of "a" "m", Py.lit 0.75); (doc_of "b" "m", Py.lit 0.3)])
    "engine" 5 (Some (Py.lit 0.0)) tt
  = (Ok [(doc_of "a" "m", Py.lit 0.75)], tt).
Proof.
  rewrite (proj2 C10_zero_threshold_is_unset unit default_settings
             (demo_index [(doc_of "a" "m", Py.lit 0.75); (doc_of "b" "m", Py.lit 0.3)])
             "engine" 5 tt tt
             [(doc_of "a" "m", Py.lit 0.75); (doc_of "b" "m", Py.lit 0.3)]
             ltac:(vm_compute; discriminate) eq_refl).
  reflexivity.
Defined.

(** ** C2 and C4: the orchestrator *)

(** C2. When retrieval returns the empty sequence, [query] returns the fixed
    fallback answer with confidence 0.0 and no sources, and leaves the world
    as retrieval left it; nothing else that [self] offers is used: two
    pipelines that retrieve alike answer alike, whatever their context
    assembler and their generator do. *)
Theorem C2_empty_retrieval :
  (forall W (self : RAGPipeline.t W) (question : string) (k : Z)
          (include_sources : bool) (w w1 : W),
     RAGPipeline.similarity_search self question k w = (Ok [], w1) ->
     RAGPipeline.query self question k include_sources w
     = (Ok {| answer := "I couldn't find relevant information to answer your question. Please try rephrasing or asking about a different topic.";
              sources := [];
              confidence := Py.lit 0.0 |}, w1))
  /\ (forall W (self other : RAGPipeline.t W) (question : string) (k : Z)
             (include_sources : bool) (w w1 : W),
        RAGPipeline.similarity_search self question k w = (Ok [], w1) ->
        RAGPipeline.similarity_search other question k w = (Ok [], w1) ->
        RAGPipeline.query self question k include_sources w
        = RAGPipeline.query other question k include_sources w).
Proof.
  assert (H : forall W (self : RAGPipeline.t W) question k include_sources w w1,
             RAGPipeline.similarity_search self question k w = (Ok [], w1) ->
             RAGPipeline.query self question k include_sources w
             = (Ok RAGPipeline.no_match, w1)).
  { intros W self question k include_sources w w1 Hs.
    unfold RAGPipeline.query, RAGPipeline.query_body, try_except, bind.
    rewrite Hs. reflexivity. }
  split.
  - intros. now apply H.
  - intros W self other question k include_sources w w1 Hs Ho.
    now rewrite (H _ self _ _ _ _ _ Hs), (H _ other _ _ _ _ _ Ho).
Qed.

Lemma C2_witness :
  RAGPipeline.query
    (RAGPipeline.new default_settings empty_search marking_generate None)
    "Why is my engine overheating?" 5 true false
  = (Ok RAGPipeline.no_match, false).
Proof.
  apply (proj1 C2_empty_retrieval bool
           (RAGPipeline.new default_settings empty_search marking_generate None)
           "Why is my engine overheating?" 5 true false false).
  reflexivity.
Defined.




(** ** C7: retries around the provider calls *)

(** A call that returns is not repeated. *)
Lemma retry_returns {A} (n : nat) (wait : Z -> Z) (f : M World A)
    (w w' : World) (a : A) :
  f w = (Ok a, w') -> tenacity.retry n wait f w = (Ok a, w').
Proof.
  intros H. unfold tenacity.retry.
  destruct (n - 1)%nat; cbn [tenacity.attempts]; now rewrite H.
Qed.

(** A call that raises every time is made [n] times, with a pause between
    two attempts, and then [RetryError] is raised. *)
Lemma retry_exhausted {A} (wait : Z -> Z) (f : M World A) (e : PyException) :
  (forall w, f w = (Raise e, w)) ->
  forall w, tenacity.retry 3 wait f w
            = (Raise (RetryError e), Sleep (wait 2) :: Sleep (wait 1) :: w).
Proof.
  intros H w. unfold tenacity.retry. cbn [Nat.sub tenacity.attempts].
  rewrite !H. reflexivity.
Qed.

(** [generate] sends one request, whatever comes back, and never pauses. *)
Lemma generate_once (svc : Service) (self : GoogleLLM.t) (prompt : string)
    (max_tokens : Z) (w : World) :
  GoogleLLM.generate svc self prompt max_tokens w
  = (Ok match generate_outcome svc w (generate_request self prompt max_tokens) with
        | Ok text => text
        | Raise _ => GoogleLLM.apology
        end,
     GenerateContent (generate_request self prompt max_tokens) :: w).
Proof.
  unfold GoogleLLM.generate. apply retry_returns.
  unfold GoogleLLM.generate_body, try_except, generate_content, ret.
  fold (generate_request self prompt max_tokens).
  destruct (generate_outcome svc w _); reflexivity.
Qed.

(** [embed_query] sends one request, whatever comes back, and never pauses. *)
Lemma embed_query_once (svc : Service) (self : GoogleEmbeddings.t) (text : string)
    (w : World) :
  GoogleEmbeddings.embed_query svc self text w
  = (Ok match embed_outcome svc (EnterEmbedQuery text :: w) (query_request self text) with
        | Ok e => e
        | Raise _ => GoogleEmbeddings.zero_vector
        end,
     EmbedContent (query_request self text) :: EnterEmbedQuery text :: w).
Proof.
  unfold GoogleEmbeddings.embed_query, bind, emit.
  apply retry_returns.
  unfold GoogleEmbeddings.embed_query_body, try_except, embed_content, ret.
  fold (query_request self text).
  destruct (embed_outcome svc _ _); reflexivity.
Qed.

(** So each of them makes one attempt and never waits, whatever the service
    does: the retry around them has nothing to retry. *)
Lemma one_attempt_no_backoff (svc : Service) (w : World) :
  (forall (self : GoogleLLM.t) (prompt : string) (max_tokens : Z),
     exists text w',
       GoogleLLM.generate svc self prompt max_tokens w = (Ok text, w')
       /\ api_calls w' = S (api_calls w) /\ sleeps w' = sleeps w)
  /\ (forall (self : GoogleEmbeddings.t) (text : string),
        exists e w',
          GoogleEmbeddings.embed_query svc self text w = (Ok e, w')
          /\ api_calls w' = S (api_calls w) /\ sleeps w' = sleeps w).
Proof.
  split.
  - intros self prompt max_tokens. eexists _, _.
    split; [apply generate_once|]. split; reflexivity.
  - intros self text. eexists _, _.
    split; [apply embed_query_once|]. split; reflexivity.
Qed.

(** C7, on the code.  Against a service whose first request fails and whose
    second would succeed, [generate] and [embed_query] send one request, do
    not pause, and return the fallback: the failing call is not retried. *)
Theorem C7_failing_call_is_not_retried :
  let llm := {| GoogleLLM.model := "gemini-pro" |} in
  let emb := {| GoogleEmbeddings.model := "models/embedding-001" |} in
  GoogleLLM.generate flaky llm "Why is my engine overheating?" 1000 []
  = (Ok GoogleLLM.apology,
     [GenerateContent (generate_request llm "Why is my engine overheating?" 1000)])
  /\ generate_outcome flaky
       [GenerateContent (generate_request llm "Why is my engine overheating?" 1000)]
       (generate_request llm "Why is my engine overheating?" 1000)
     = Ok "Top up the coolant."
  /\ GoogleEmbeddings.embed_query flaky emb "engine overheating" []
     = (Ok (replicate 768 (Py.lit 0.0)),
        [EmbedContent (query_request emb "engine overheating");
         EnterEmbedQuery "engine overheating"])
  /\ embed_outcome flaky
       [EmbedContent (query_request emb "engine overheating");
        EnterEmbedQuery "engine overheating"]
       (query_request emb "engine overheating")
     = Ok [Py.lit 0.1; Py.lit 0.2; Py.lit 0.3].
Proof.
  intros llm emb. split; [|split; [|split]].
  - rewrite generate_once. reflexivity.
  - reflexivity.
  - rewrite embed_query_once. f_equal. f_equal.
    unfold GoogleEmbeddings.zero_vector. now rewrite lit_zero.
  - reflexivity.
Qed.

(** What the decorator does when the exception reaches it: around the bare
    request, against the same service, it waits four seconds, sends the
    request again and returns the answer. *)
Lemma retry_recovers_an_uncaught_failure :
  let llm := {| GoogleLLM.model := "gemini-pro" |} in
  let request := generate_request llm "Why is my engine overheating?" 1000 in
  tenacity.retry 3 (tenacity.wait_exponential 1 4 10)
    (generate_content flaky request) []
  = (Ok "Top up the coolant.",
     [GenerateContent request; Sleep 4; GenerateContent request]).
Proof. reflexivity. Qed.

(** ** C6: the embedding cache *)

Lemma counts_embed_content (r : genai.EmbedRequest) (w : World) :
  api_calls (EmbedContent r :: w) = S (api_calls w)
  /\ provider_calls (EmbedContent r :: w) = provider_calls w.
Proof. split; reflexivity. Qed.

Lemma counts_sleep (seconds : Z) (w : World) :
  api_calls (Sleep seconds :: w) = api_calls w
  /\ provider_calls (Sleep seconds :: w) = provider_calls w.
Proof. split; reflexivity. Qed.

Lemma counts_enter_embed_documents (texts : list string) (w : World) :
  api_calls (EnterEmbedDocuments texts :: w) = api_calls w
  /\ provider_calls (EnterEmbedDocuments texts :: w) = S (provider_calls w).
Proof. split; reflexivity. Qed.

(** The loop of [embed_documents] returns one embedding per text, sends one
    request per text and enters no provider method. *)
Lemma embed_documents_loop_spec (svc : Service) (self : GoogleEmbeddings.t)
    (texts : list string) (i : Z) (acc : list Embedding) (w : World) :
  exists es w',
    GoogleEmbeddings.embed_documents_loop svc self i texts acc w = (Ok (acc ++ es), w')
    /\ length es = length texts
    /\ api_calls w' = (api_calls w + length texts)%nat
    /\ provider_calls w' = provider_calls w.
Proof.
  revert i acc w. induction texts as [|text rest IH]; intros i acc w.
  - exists [], w. cbn [GoogleEmbeddings.embed_documents_loop length].
    rewrite app_nil_r. repeat split; lia.
  - cbn [GoogleEmbeddings.embed_documents_loop].
    unfold bind at 1. unfold try_except, bind, embed_content, sleep, emit, ret.
    set (req := {| genai.embed_model := GoogleEmbeddings.model self;
                   genai.embed_text := GoogleEmbeddings.truncate text;
                   genai.task_type := genai.retrieval_document |}).
    destruct (embed_outcome svc w req) as [e|err].
    + destruct ((0 <? i) && (i mod 10 =? 0)).
      * destruct (IH (i + 1) (acc ++ [e]) (Sleep 1 :: EmbedContent req :: w))
          as (es & w' & Heq & Hlen & Hapi & Hprov).
        exists (e :: es), w'. rewrite Heq, <- app_assoc.
        split; [reflexivity|]. split; [cbn; lia|].
        rewrite Hapi, Hprov.
        rewrite (proj1 (counts_sleep _ _)), (proj2 (counts_sleep _ _)).
        rewrite (proj1 (counts_embed_content _ _)), (proj2 (counts_embed_content _ _)).
        cbn [length]. split; lia.
      * destruct (IH (i + 1) (acc ++ [e]) (EmbedContent req :: w))
          as (es & w' & Heq & Hlen & Hapi & Hprov).
        exists (e :: es), w'. rewrite Heq, <- app_assoc.
        split; [reflexivity|]. split; [cbn; lia|].
        rewrite Hapi, Hprov.
        rewrite (proj1 (counts_embed_content _ _)), (proj2 (counts_embed_content _ _)).
        cbn [length]. split; lia.
    + destruct (IH (i + 1) (acc ++ [GoogleEmbeddings.zero_vector])
                  (EmbedContent req :: w))
        as (es & w' & Heq & Hlen & Hapi & Hprov).
      exists (GoogleEmbeddings.zero_vector :: es), w'. rewrite Heq, <- app_assoc.
      split; [reflexivity|]. split; [cbn; lia|].
      rewrite Hapi, Hprov.
      rewrite (proj1 (counts_embed_content _ _)), (proj2 (counts_embed_content _ _)).
      cbn [length]. split; lia.
Qed.

(** One call of [embed_documents]: one embedding per text, one entry into the
    provider, one request per text. *)
Lemma embed_documents_spec (svc : Service) (self : GoogleEmbeddings.t)
    (texts : list string) (w : World) :
  exists es w',
    GoogleEmbeddings.embed_documents svc self texts w = (Ok es, w')
    /\ length es = length texts
    /\ api_calls w' = (api_calls w + length texts)%nat
    /\ provider_calls w' = S (provider_calls w).
Proof.
  destruct (embed_documents_loop_spec svc self texts 0 []
              (EnterEmbedDocuments texts :: w))
    as (es & w' & Heq & Hlen & Hapi & Hprov).
  exists es, w'. split.
  - unfold GoogleEmbeddings.embed_documents, bind, emit.
    apply retry_returns. exact Heq.
  - split; [exact Hlen|]. rewrite Hapi, Hprov. split; reflexivity.
Qed.

(** One call of [embed_query]: one entry into the provider, one request. *)
Lemma embed_query_spec (svc : Service) (self : GoogleEmbeddings.t)
    (text : string) (w : World) :
  exists e w',
    GoogleEmbeddings.embed_query svc self text w = (Ok e, w')
    /\ api_calls w' = S (api_calls w)
    /\ provider_calls w' = S (provider_calls w).
Proof.
  eexists _, _. split; [apply embed_query_once|]. split; reflexivity.
Qed.

Section Cache.
Variable hash : string -> Z.
Variable svc : Service.

Local Abbreviation key := (EmbeddingManager._get_cache_key hash).

(** A request for a text that is not in the cache calls the provider once
    and stores what it returned under the key of the text. *)
Lemma request_miss (entry : Entry) (self : EmbeddingManager.t) (text : string)
    (w : World) :
  EmbeddingManager.cache self !! key text = None ->
  exists e w',
    request_embedding hash svc entry self text true w
    = (Ok (EmbeddingManager.set_cache self
             (<[key text := e]> (EmbeddingManager.cache self))), w')
    /\ api_calls w' = S (api_calls w)
    /\ provider_calls w' = S (provider_calls w).
Proof.
  intros Hmiss. destruct entry.
  - destruct (embed_documents_spec svc (EmbeddingManager.embedding_model self)
                [text] w) as (es & w' & Heq & Hlen & Hapi & Hprov).
    destruct es as [|e [|? ?]]; try discriminate.
    exists e, w'. split; [|split; [rewrite Hapi; cbn; lia|exact Hprov]].
    unfold request_embedding, EmbeddingManager.get_embeddings.
    cbn [negb EmbeddingManager.check_cache]. rewrite Hmiss.
    cbn [app]. unfold bind at 1. unfold bind at 1. rewrite Heq.
    reflexivity.
  - destruct (embed_query_spec svc (EmbeddingManager.embedding_model self) text w)
      as (e & w' & Heq & Hapi & Hprov).
    exists e, w'. split; [|split; assumption].
    unfold request_embedding, EmbeddingManager.get_query_embedding.
    cbn [negb]. rewrite Hmiss. unfold bind at 1. unfold bind at 1.
    rewrite Heq. reflexivity.
Qed.

(** A request for a text whose key is in the cache calls nothing. *)
Lemma request_hit (entry : Entry) (self : EmbeddingManager.t) (text : string)
    (w : World) :
  is_Some (EmbeddingManager.cache self !! key text) ->
  request_embedding hash svc entry self text true w = (Ok self, w).
Proof.
  intros [e Hhit]. destruct entry.
  - unfold request_embedding, EmbeddingManager.get_embeddings.
    cbn [negb EmbeddingManager.check_cache]. now rewrite Hhit.
  - unfold request_embedding, EmbeddingManager.get_query_embedding.
    cbn [negb]. now rewrite Hhit.
Qed.


End Cache.





(** Whatever the hash, if it takes its values in a bounded range (as the
    64-bit [hash] of Python does) two different texts have the same hash. *)
Lemma bounded_hash_collides (hash : string -> Z) (lo hi : Z) :
  (forall text, lo <= hash text < hi) ->
  exists text1 text2, text1 <> text2 /\ hash text1 = hash text2.
Proof.
  intros Hb.
  destruct (nat_pigeonhole (fun i => Z.to_nat (hash (pretty i) - lo))
              (S (Z.to_nat (hi - lo))) (Z.to_nat (hi - lo)))
    as (i1 & i2 & Hi & Heq).
  - apply Nat.lt_succ_diag_r.
  - intros i _. pose proof (Hb (pretty i)). lia.
  - exists (pretty i1), (pretty i2). split.
    + intros H. apply (inj pretty) in H. lia.
    + pose proof (Hb (pretty i1)). pose proof (Hb (pretty i2)). lia.
Qed.

(** So for every such hash the cache answers some text with the embedding
    of another one, without calling the provider for it. *)
Lemma bounded_hash_conflates (hash : string -> Z) (lo hi : Z) (svc : Service)
    (entry1 entry2 : Entry) (embedding_model : GoogleEmbeddings.t) (w : World) :
  (forall text, lo <= hash text < hi) ->
  exists text1 text2 self' w',
    text1 <> text2
    /\ request_twice hash svc entry1 entry2 (new_manager embedding_model)
         text1 text2 true w = (Ok self', w')
    /\ provider_calls w' = (provider_calls w + 1)%nat.
Proof.
  intros Hb. destruct (bounded_hash_collides hash lo hi Hb) as (t1 & t2 & Hne & Hh).
  destruct (request_miss hash svc entry1 (new_manager embedding_model) t1 w eq_refl)
    as (e & w1 & H1 & _ & Hprov).
  exists t1, t2. eexists _, w1. split; [exact Hne|]. split; [|lia].
  unfold request_twice, bind. rewrite H1. apply request_hit.
  cbn [EmbeddingManager.set_cache EmbeddingManager.cache].
  unfold EmbeddingManager._get_cache_key. rewrite <- Hh, lookup_insert_eq. eauto.
Qed.

(** * Further properties of the code *)

(** ** The embedding provider *)

Lemma embed_requests_cons (e : Event) (w : World) :
  embed_requests (e :: w)
  = embed_requests w
    ++ match e with EmbedContent r => [r] | _ => [] end.
Proof.
  unfold embed_requests. rewrite reverse_cons, omap_app.
  destruct e; cbn; reflexivity.
Qed.

Lemma sleeps_cons (e : Event) (w : World) :
  sleeps (e :: w) = ((if is_sleep e then 1 else 0) + sleeps w)%nat.
Proof. unfold sleeps. destruct e; reflexivity. Qed.

(** X1 and X2 rest on this: the loop of [embed_documents] sends the requests
    of its texts in order, and answers each text with what the service
    returned or with the zero vector. *)
Lemma embed_documents_loop_requests (svc : Service) (self : GoogleEmbeddings.t)
    (texts : list string) (i : Z) (acc : list Embedding) (w : World) :
  exists es w',
    GoogleEmbeddings.embed_documents_loop svc self i texts acc w = (Ok (acc ++ es), w')
    /\ embed_requests w' = embed_requests w ++ (document_request self <$> texts)
    /\ Forall2
         (fun text e =>
            exists w0, e = embedding_or_fallback
                             (embed_outcome svc w0 (document_request self text)))
         texts es.
Proof.
  revert i acc w. induction texts as [|text rest IH]; intros i acc w.
  - exists [], w. cbn [GoogleEmbeddings.embed_documents_loop fmap list_fmap].
    rewrite !app_nil_r. repeat split. constructor.
  - cbn [GoogleEmbeddings.embed_documents_loop].
    unfold bind at 1. unfold try_except, bind, embed_content, sleep, emit, ret.
    fold (document_request self text).
    destruct (embed_outcome svc w (document_request self text)) as [e|err] eqn:Hout.
    + destruct ((0 <? i) && (i mod 10 =? 0)).
      * destruct (IH (i + 1) (acc ++ [e])
                    (Sleep 1 :: EmbedContent (document_request self text) :: w))
          as (es & w' & Heq & Hreq & Hall).
        exists (e :: es), w'. rewrite Heq, <- app_assoc. split; [reflexivity|].
        split.
        -- rewrite Hreq, !embed_requests_cons, app_nil_r, <- app_assoc. reflexivity.
        -- constructor; [|exact Hall]. exists w. now rewrite Hout.
      * destruct (IH (i + 1) (acc ++ [e])
                    (EmbedContent (document_request self text) :: w))
          as (es & w' & Heq & Hreq & Hall).
        exists (e :: es), w'. rewrite Heq, <- app_assoc. split; [reflexivity|].
        split.
        -- rewrite Hreq, !embed_requests_cons, <- app_assoc. reflexivity.
        -- constructor; [|exact Hall]. exists w. now rewrite Hout.
    + destruct (IH (i + 1) (acc ++ [GoogleEmbeddings.zero_vector])
                  (EmbedContent (document_request self text) :: w))
        as (es & w' & Heq & Hreq & Hall).
      exists (GoogleEmbeddings.zero_vector :: es), w'.
      rewrite Heq, <- app_assoc. split; [reflexivity|]. split.
      * rewrite Hreq, !embed_requests_cons, <- app_assoc. reflexivity.
      * constructor; [|exact Hall]. exists w. now rewrite Hout.
Qed.

(** X1. [embed_documents] never raises; it returns one embedding per text,
    in the order of the texts, each being what the service answered to the
    request of that text or, when that request raised, the vector of 768
    zeros; and it sends exactly one request per text, in order, with the
    provider's model and the task type [retrieval_document]. *)
Theorem X1_embed_documents_one_request_per_text :
  forall (svc : Service) (self : GoogleEmbeddings.t) (texts : list string)
         (w : World),
    exists es w',
      GoogleEmbeddings.embed_documents svc self texts w = (Ok es, w')
      /\ length es = length texts
      /\ embed_requests w' = embed_requests w ++ (document_request self <$> texts)
      /\ Forall2
           (fun text e =>
              exists w0, e = embedding_or_fallback
                               (embed_outcome svc w0 (document_request self text)))
           texts es.
Proof.
  intros svc self texts w.
  destruct (embed_documents_loop_requests svc self texts 0 []
              (EnterEmbedDocuments texts :: w)) as (es & w' & Heq & Hreq & Hall).
  exists es, w'. split.
  - unfold GoogleEmbeddings.embed_documents, bind, emit.
    apply retry_returns. exact Heq.
  - split; [symmetry; exact (Forall2_length _ _ _ Hall)|]. split; [|exact Hall].
    rewrite Hreq, embed_requests_cons, app_nil_r. reflexivity.
Qed.

(** X2. The text of a request is the text itself when it has at most 2048
    characters, and otherwise its first 2048 characters: never more than
    2048 characters are sent. *)
Theorem X2_truncate :
  forall text : string,
    Py.len (GoogleEmbeddings.truncate text) <= 2048
    /\ (exists rest, text = GoogleEmbeddings.truncate text +:+ rest)
    /\ (Py.len text <= 2048 -> GoogleEmbeddings.truncate text = text)
    /\ (2048 < Py.len text -> Py.len (GoogleEmbeddings.truncate text) = 2048)
    /\ GoogleEmbeddings.truncate (GoogleEmbeddings.truncate text)
       = GoogleEmbeddings.truncate text.
Proof.
  intros text. unfold GoogleEmbeddings.truncate.
  destruct (Z.ltb_spec 2048 (Py.len text)) as [Hlong|Hshort].
  - pose proof (len_slice_to text 2048 ltac:(lia)) as Hlen.
    split; [lia|]. split.
    + unfold Py.slice_to. cbn [Z.ltb Z.compare]. apply take_split.
    + split; [lia|]. split; [intros _; exact Hlen|].
      rewrite Hlen. reflexivity.
  - split; [lia|]. split; [exists EmptyString|].
    + clear Hshort. induction text as [|c s IH]; [reflexivity|].
      change (String c s +:+ "") with (String c (s +:+ "")). now rewrite <- IH.
    + split; [reflexivity|]. split; [lia|].
      destruct (Z.ltb_spec 2048 (Py.len text)); [lia|reflexivity].
Qed.

Lemma pauses_from_closed (i : Z) (n : nat) :
  1 <= i ->
  Z.of_nat (pauses_from i n) = (i + Z.of_nat n - 1) / 10 - (i - 1) / 10.
Proof.
  revert i. induction n as [|n IH]; intros i Hi.
  - cbn [pauses_from]. replace (i + Z.of_nat 0 - 1) with (i - 1) by lia. lia.
  - cbn [pauses_from]. rewrite Nat2Z.inj_add, IH by lia.
    replace (i + 1 + Z.of_nat n - 1) with (i + Z.of_nat (S n) - 1) by lia.
    replace (i + 1 - 1) with i by lia.
    assert (Hstep : Z.of_nat (if pause_after i then 1 else 0)
                    = i / 10 - (i - 1) / 10).
    { unfold pause_after.
      destruct (Z.ltb_spec 0 i) as [_|?]; [|lia]. cbn [andb].
      pose proof (Z.div_mod i 10 ltac:(lia)) as Hd.
      pose proof (Z.mod_pos_bound i 10 ltac:(lia)) as Hm.
      destruct (Z.eqb_spec (i mod 10) 0) as [Hz|Hnz].
      - assert (Hq : (i - 1) / 10 = i / 10 - 1).
        { symmetry. apply (Z.div_unique (i - 1) 10 (i / 10 - 1) 9); lia. }
        rewrite Hq. cbn. lia.
      - assert (Hq : (i - 1) / 10 = i / 10).
        { symmetry. apply (Z.div_unique (i - 1) 10 (i / 10) (i mod 10 - 1)); lia. }
        rewrite Hq. cbn. lia. }
    lia.
Qed.

Lemma pauses_from_zero (n : nat) :
  pauses_from 0 n = Z.to_nat ((Z.of_nat n - 1) / 10).
Proof.
  destruct n as [|n]; [reflexivity|].
  cbn [pauses_from]. change (pause_after 0) with false. cbn [Nat.add].
  change (0 + 1) with 1. apply Nat2Z.inj. rewrite pauses_from_closed by lia.
  replace (1 + Z.of_nat n - 1) with (Z.of_nat (S n) - 1) by lia.
  change ((1 - 1) / 10) with 0.
  rewrite Z2Nat.id; [lia|]. apply Z.div_pos; lia.
Qed.

(** The loop when every request succeeds: it pauses after each index that is
    a positive multiple of ten. *)
Lemma embed_documents_loop_pauses (svc : Service) (self : GoogleEmbeddings.t)
    (texts : list string) (i : Z) (acc : list Embedding) (w : World) :
  (forall w0 r, exists e, embed_outcome svc w0 r = Ok e) ->
  exists es w',
    GoogleEmbeddings.embed_documents_loop svc self i texts acc w = (Ok es, w')
    /\ sleeps w' = (sleeps w + pauses_from i (length texts))%nat.
Proof.
  intros Hok. revert i acc w. induction texts as [|text rest IH]; intros i acc w.
  - exists acc, w. cbn. split; [reflexivity|lia].
  - cbn [GoogleEmbeddings.embed_documents_loop length pauses_from].
    unfold bind at 1. unfold try_except, bind, embed_content, sleep, emit, ret.
    fold (document_request self text).
    destruct (Hok w (document_request self text)) as [e ->].
    unfold pause_after. destruct ((0 <? i) && (i mod 10 =? 0)).
    + destruct (IH (i + 1) (acc ++ [e])
                  (Sleep 1 :: EmbedContent (document_request self text) :: w))
        as (es & w' & Heq & Hs).
      exists es, w'. split; [exact Heq|]. rewrite Hs, !sleeps_cons. cbn. lia.
    + destruct (IH (i + 1) (acc ++ [e])
                  (EmbedContent (document_request self text) :: w))
        as (es & w' & Heq & Hs).
      exists es, w'. split; [exact Heq|]. rewrite Hs, !sleeps_cons. cbn. lia.
Qed.

(** The loop when every request raises: zero vectors only, and no pause. *)
Lemma embed_documents_loop_dead (svc : Service) (self : GoogleEmbeddings.t)
    (texts : list string) (i : Z) (acc : list Embedding) (w : World) :
  (forall w0 r, exists err, embed_outcome svc w0 r = Raise err) ->
  exists w',
    GoogleEmbeddings.embed_documents_loop svc self i texts acc w
    = (Ok (acc ++ replicate (length texts) GoogleEmbeddings.zero_vector), w')
    /\ sleeps w' = sleeps w.
Proof.
  intros Hdead. revert i acc w. induction texts as [|text rest IH]; intros i acc w.
  - exists w. cbn. rewrite app_nil_r. split; reflexivity.
  - cbn [GoogleEmbeddings.embed_documents_loop length replicate].
    unfold bind at 1. unfold try_except, bind, embed_content, sleep, emit, ret.
    fold (document_request self text).
    destruct (Hdead w (document_request self text)) as [err ->].
    destruct (IH (i + 1) (acc ++ [GoogleEmbeddings.zero_vector])
                (EmbedContent (document_request self text) :: w))
      as (w' & Heq & Hs).
    exists w'. rewrite Heq, <- app_assoc. split; [reflexivity|].
    rewrite Hs, sleeps_cons. reflexivity.
Qed.

(** X3. When every request to the service raises, [embed_documents] still
    returns: one vector of 768 zeros per text, without pausing. *)
Theorem X3_embed_documents_dead_service :
  forall (svc : Service) (self : GoogleEmbeddings.t) (texts : list string)
         (w : World),
    (forall w0 r, exists err, embed_outcome svc w0 r = Raise err) ->
    exists w',
      GoogleEmbeddings.embed_documents svc self texts w
      = (Ok (replicate (length texts) (replicate 768 (Py.lit 0.0))), w')
      /\ sleeps w' = sleeps w.
Proof.
  intros svc self texts w Hdead.
  destruct (embed_documents_loop_dead svc self texts 0 []
              (EnterEmbedDocuments texts :: w) Hdead) as (w' & Heq & Hs).
  exists w'. split.
  - unfold GoogleEmbeddings.embed_documents, bind, emit.
    apply retry_returns. unfold GoogleEmbeddings.embed_documents_body.
    rewrite Heq. cbn [app].
    unfold GoogleEmbeddings.zero_vector. now rewrite lit_zero.
  - rewrite Hs, sleeps_cons. reflexivity.
Qed.

(** X4. When every request succeeds, [embed_documents] on [n] texts pauses
    after the texts at the indices 10, 20, ... below [n]: [(n - 1) // 10]
    times for [n >= 1], so not at all up to ten texts. *)
Theorem X4_embed_documents_pauses :
  forall (svc : Service) (self : GoogleEmbeddings.t) (texts : list string)
         (w : World),
    (forall w0 r, exists e, embed_outcome svc w0 r = Ok e) ->
    exists es w',
      GoogleEmbeddings.embed_documents svc self texts w = (Ok es, w')
      /\ sleeps w'
         = (sleeps w + Z.to_nat ((Z.of_nat (length texts) - 1) / 10))%nat.
Proof.
  intros svc self texts w Hok.
  destruct (embed_documents_loop_pauses svc self texts 0 []
              (EnterEmbedDocuments texts :: w) Hok) as (es & w' & Heq & Hs).
  exists es, w'. split.
  - unfold GoogleEmbeddings.embed_documents, bind, emit.
    apply retry_returns. exact Heq.
  - rewrite Hs, sleeps_cons, pauses_from_zero. reflexivity.
Qed.

Lemma X3_witness :
  exists w',
    GoogleEmbeddings.embed_documents dead
      {| GoogleEmbeddings.model := "models/embedding-001" |}
      ["oil filter"; "air filter"] []
    = (Ok (replicate 2 (replicate 768 (Py.lit 0.0))), w')
    /\ sleeps w' = 0%nat.
Proof.
  apply (X3_embed_documents_dead_service dead
           {| GoogleEmbeddings.model := "models/embedding-001" |}
           ["oil filter"; "air filter"] []).
  intros w0 r. eexists. reflexivity.
Defined.

Lemma X4_witness :
  exists es w',
    GoogleEmbeddings.embed_documents healthy
      {| GoogleEmbeddings.model := "models/embedding-001" |}
      (replicate 21 "oil filter") [] = (Ok es, w')
    /\ sleeps w' = 2%nat.
Proof.
  apply (X4_embed_documents_pauses healthy
           {| GoogleEmbeddings.model := "models/embedding-001" |}
           (replicate 21 "oil filter") []).
  intros w0 r. eexists. reflexivity.
Defined.

Lemma X2_witness :
  GoogleEmbeddings.truncate "oil filter" = "oil filter".
Proof.
  apply (proj1 (proj2 (proj2 (X2_truncate "oil filter")))).
  vm_compute. discriminate.
Defined.

(** ** The embedding cache *)

Lemma fill_nil (lookups : list (option Embedding)) : fill lookups [] = lookups.
Proof.
  induction lookups as [|[e|] rest IH]; cbn [fill]; now rewrite ?IH.
Qed.

Section CacheBatch.
Variable hash : string -> Z.
Variable self : EmbeddingManager.t.

Local Abbreviation key := (EmbeddingManager._get_cache_key hash).
Local Abbreviation answer :=
  (fun t : string => EmbeddingManager.cache self !! key t).

Lemma check_cache_spec (texts : list string) (i : nat)
    (embeddings : list (option Embedding)) (texts_to_embed : list string)
    (indices_to_embed : list nat) :
  EmbeddingManager.check_cache hash self i texts embeddings texts_to_embed
    indices_to_embed
  = (embeddings ++ (answer <$> texts),
     texts_to_embed ++ misses hash self texts,
     indices_to_embed ++ miss_indices hash self i texts).
Proof.
  revert i embeddings texts_to_embed indices_to_embed.
  induction texts as [|t rest IH]; intros i embeddings tte ite.
  - cbn. now rewrite !app_nil_r.
  - cbn [EmbeddingManager.check_cache miss_indices fmap list_fmap].
    unfold misses. rewrite filter_cons. fold (misses hash self rest).
    destruct (EmbeddingManager.cache self !! key t) as [e|] eqn:Ht.
    + rewrite IH, <- app_assoc. destruct (decide _) as [?|_]; [congruence|].
      reflexivity.
    + rewrite IH, <- !app_assoc. destruct (decide _) as [_|?]; [|congruence].
      reflexivity.
Qed.

(** The second loop, from any point of the batch on. *)
Lemma update_cache_spec (before texts : list string)
    (filled : list (option Embedding)) (c : gmap string Embedding)
    (new : list Embedding) :
  length filled = length before ->
  foldl (EmbeddingManager.update_cache hash (before ++ texts))
    (c, filled ++ (answer <$> texts))
    (zip (miss_indices hash self (length before) texts) new)
  = (store_all hash c (zip (misses hash self texts) new),
     filled ++ fill (answer <$> texts) new).
Proof.
  revert before filled c new. induction texts as [|t rest IH];
    intros before filled c new Hlen.
  - cbn. reflexivity.
  - cbn [miss_indices fmap list_fmap fill]. unfold misses. rewrite filter_cons.
    fold (misses hash self rest).
    replace (before ++ t :: rest) with ((before ++ [t]) ++ rest)
      by now rewrite <- app_assoc.
    destruct (EmbeddingManager.cache self !! key t) as [e|] eqn:Ht.
    + destruct (decide _) as [?|_]; [congruence|].
      replace (filled ++ Some e :: (answer <$> rest))
        with ((filled ++ [Some e]) ++ (answer <$> rest))
        by now rewrite <- app_assoc.
      replace (S (length before)) with (length (before ++ [t]))
        by (rewrite length_app; cbn; lia).
      rewrite IH by (rewrite !length_app; cbn; lia).
      now rewrite <- app_assoc.
    + destruct (decide _) as [_|?]; [|congruence].
      destruct new as [|e new].
      * cbn [zip zip_with foldl]. unfold store_all. cbn [foldl].
        now rewrite fill_nil.
      * cbn [zip zip_with foldl]. unfold EmbeddingManager.update_cache at 2.
        cbn [fst snd].
        assert (Hidx : ((before ++ [t]) ++ rest) !! length before = Some t).
        { rewrite <- app_assoc. rewrite lookup_app_r by lia.
          now rewrite Nat.sub_diag. }
        rewrite Hidx. cbn [default from_option].
        assert (Hins : <[length before := Some e]> (filled ++ None :: (answer <$> rest))
                       = (filled ++ [Some e]) ++ (answer <$> rest)).
        { rewrite <- Hlen, insert_app_r_alt by lia. rewrite Nat.sub_diag.
          now rewrite <- app_assoc. }
        rewrite Hins.
        replace (S (length before)) with (length (before ++ [t]))
          by (rewrite length_app; cbn; lia).
        rewrite IH by (rewrite !length_app; cbn; lia).
        unfold store_all. cbn [foldl fst snd]. now rewrite <- app_assoc.
Qed.

End CacheBatch.

(** [get_embeddings] with the cache, in one equation per case. *)
Lemma get_embeddings_all_hits (hash : string -> Z) (svc : Service)
    (self : EmbeddingManager.t) (texts : list string) (w : World) :
  misses hash self texts = [] ->
  EmbeddingManager.get_embeddings hash svc self texts true w
  = (Ok ((fun t => EmbeddingManager.cache self
                     !! EmbeddingManager._get_cache_key hash t) <$> texts, self), w).
Proof.
  intros Hm. unfold EmbeddingManager.get_embeddings. cbn [negb].
  rewrite check_cache_spec, Hm. reflexivity.
Qed.

Lemma get_embeddings_some_misses (hash : string -> Z) (svc : Service)
    (self : EmbeddingManager.t) (texts : list string) (w w' : World)
    (new : list Embedding) :
  misses hash self texts <> [] ->
  GoogleEmbeddings.embed_documents svc (EmbeddingManager.embedding_model self)
    (misses hash self texts) w = (Ok new, w') ->
  EmbeddingManager.get_embeddings hash svc self texts true w
  = (Ok (fill ((fun t => EmbeddingManager.cache self
                           !! EmbeddingManager._get_cache_key hash t) <$> texts) new,
         EmbeddingManager.set_cache self
           (store_all hash (EmbeddingManager.cache self)
              (zip (misses hash self texts) new))), w').
Proof.
  intros Hm Hp. unfold EmbeddingManager.get_embeddings. cbn [negb].
  rewrite check_cache_spec. cbn [app].
  destruct (misses hash self texts) as [|m ms] eqn:Hms; [congruence|].
  unfold bind. rewrite Hp.
  pose proof (update_cache_spec hash self [] texts [] (EmbeddingManager.cache self)
                new eq_refl) as Hu.
  cbn [app length] in Hu. rewrite Hms in Hu. rewrite Hu. reflexivity.
Qed.

(** The gaps of a batch are as many as its misses. *)
Lemma fill_complete (hash : string -> Z) (self : EmbeddingManager.t)
    (texts : list string) (new : list Embedding) :
  length new = length (misses hash self texts) ->
  let filled :=
    fill ((fun t => EmbeddingManager.cache self
                      !! EmbeddingManager._get_cache_key hash t) <$> texts) new in
  length filled = length texts
  /\ Forall is_Some filled
  /\ forall j t e,
       texts !! j = Some t ->
       EmbeddingManager.cache self !! EmbeddingManager._get_cache_key hash t = Some e ->
       filled !! j = Some (Some e).
Proof.
  revert new. induction texts as [|t rest IH]; intros new Hlen filled.
  - subst filled. cbn. repeat split; [constructor|]. intros j ? ? Hj. discriminate.
  - subst filled. cbn [fmap list_fmap fill]. unfold misses in Hlen.
    rewrite filter_cons in Hlen. fold (misses hash self rest) in Hlen.
    destruct (EmbeddingManager.cache self !! EmbeddingManager._get_cache_key hash t)
      as [e0|] eqn:Ht.
    + destruct (decide _) as [?|_] in Hlen; [congruence|].
      destruct (IH new Hlen) as (Hl & Hall & Hhit).
      split; [cbn; now rewrite Hl|]. split; [constructor; eauto|].
      intros [|j] t' e' Hj He'.
      * injection Hj as <-. cbn. congruence.
      * cbn in Hj |- *. eauto.
    + destruct (decide _) as [_|?] in Hlen; [|congruence].
      destruct new as [|e new]; [discriminate|]. cbn [length] in Hlen.
      destruct (IH new ltac:(lia)) as (Hl & Hall & Hhit).
      split; [cbn; now rewrite Hl|]. split; [constructor; eauto|].
      intros [|j] t' e' Hj He'.
      * injection Hj as <-. congruence.
      * cbn in Hj |- *. eauto.
Qed.

Lemma store_all_cons (hash : string -> Z) (c : gmap string Embedding)
    (p : string * Embedding) (entries : list (string * Embedding)) :
  store_all hash c (p :: entries)
  = store_all hash (<[EmbeddingManager._get_cache_key hash (fst p) := snd p]> c)
      entries.
Proof. reflexivity. Qed.

Lemma store_all_lookup_other (hash : string -> Z) (c : gmap string Embedding)
    (entries : list (string * Embedding)) (k : string) :
  (forall p, p ∈ entries -> EmbeddingManager._get_cache_key hash (fst p) <> k) ->
  store_all hash c entries !! k = c !! k.
Proof.
  revert c. induction entries as [|p rest IH]; intros c Hk; [reflexivity|].
  rewrite store_all_cons, IH.
  - apply lookup_insert_ne. apply Hk. apply list_elem_of_here.
  - intros q Hq. apply Hk. now apply list_elem_of_further.
Qed.

Lemma store_all_is_Some (hash : string -> Z) (c : gmap string Embedding)
    (entries : list (string * Embedding)) (k : string) :
  is_Some (c !! k) -> is_Some (store_all hash c entries !! k).
Proof.
  revert c. induction entries as [|p rest IH]; intros c Hk; [exact Hk|].
  rewrite store_all_cons. apply IH.
  destruct (decide (EmbeddingManager._get_cache_key hash (fst p) = k)) as [->|Hne].
  - rewrite lookup_insert_eq. eauto.
  - now rewrite lookup_insert_ne.
Qed.

Lemma store_all_stored (hash : string -> Z) (c : gmap string Embedding)
    (ts : list string) (new : list Embedding) (t : string) :
  length new = length ts -> t ∈ ts ->
  is_Some (store_all hash c (zip ts new) !! EmbeddingManager._get_cache_key hash t).
Proof.
  revert c new. induction ts as [|t0 ts IH]; intros c new Hlen Ht.
  - now apply elem_of_nil in Ht.
  - destruct new as [|e new]; [discriminate|]. cbn [length] in Hlen.
    cbn [zip zip_with]. rewrite store_all_cons. cbn [fst snd].
    apply elem_of_cons in Ht as [->|Ht].
    + apply store_all_is_Some. rewrite lookup_insert_eq. eauto.
    + apply IH; [lia|exact Ht].
Qed.

Lemma embed_documents_calls_cons (e : Event) (w : World) :
  embed_documents_calls (e :: w)
  = embed_documents_calls w
    ++ match e with EnterEmbedDocuments ts => [ts] | _ => [] end.
Proof.
  unfold embed_documents_calls. rewrite reverse_cons, omap_app.
  destruct e; cbn; reflexivity.
Qed.

(** The loop of [embed_documents] does not enter the provider again. *)
Lemma embed_documents_loop_calls (svc : Service) (self : GoogleEmbeddings.t)
    (texts : list string) (i : Z) (acc : list Embedding) (w : World) :
  embed_documents_calls
    (snd (GoogleEmbeddings.embed_documents_loop svc self i texts acc w))
  = embed_documents_calls w.
Proof.
  revert i acc w. induction texts as [|text rest IH]; intros i acc w.
  - reflexivity.
  - cbn [GoogleEmbeddings.embed_documents_loop].
    unfold bind at 1. unfold try_except, bind, embed_content, sleep, emit, ret.
    destruct (embed_outcome svc w _) as [e|err].
    + destruct ((0 <? i) && (i mod 10 =? 0)); rewrite IH,
        !embed_documents_calls_cons, ?app_nil_r; reflexivity.
    + rewrite IH, embed_documents_calls_cons, app_nil_r. reflexivity.
Qed.

(** One call of [embed_documents], with all that the cache needs. *)
Lemma embed_documents_full (svc : Service) (self : GoogleEmbeddings.t)
    (texts : list string) (w : World) :
  exists es w',
    GoogleEmbeddings.embed_documents svc self texts w = (Ok es, w')
    /\ length es = length texts
    /\ embed_requests w' = embed_requests w ++ (document_request self <$> texts)
    /\ embed_documents_calls w' = embed_documents_calls w ++ [texts].
Proof.
  destruct (embed_documents_loop_requests svc self texts 0 []
              (EnterEmbedDocuments texts :: w)) as (es & w' & Heq & Hreq & Hall).
  exists es, w'. split.
  - unfold GoogleEmbeddings.embed_documents, bind, emit.
    apply retry_returns. exact Heq.
  - split; [symmetry; exact (Forall2_length _ _ _ Hall)|]. split.
    + rewrite Hreq, embed_requests_cons, app_nil_r. reflexivity.
    + pose proof (embed_documents_loop_calls svc self texts 0 []
                    (EnterEmbedDocuments texts :: w)) as Hc.
      rewrite Heq in Hc. cbn [snd] in Hc.
      rewrite Hc, embed_documents_calls_cons. reflexivity.
Qed.

Lemma misses_are_missing (hash : string -> Z) (self : EmbeddingManager.t)
    (texts : list string) (t : string) :
  t ∈ misses hash self texts <->
  t ∈ texts
  /\ EmbeddingManager.cache self !! EmbeddingManager._get_cache_key hash t = None.
Proof. unfold misses. rewrite list_elem_of_filter. tauto. Qed.

(** X5. [get_embeddings] with the cache returns one embedding per text, in
    the order of the texts, and no placeholder is left in the result; a text
    the cache answers gets the cached embedding. *)
Theorem X5_get_embeddings_results :
  forall (hash : string -> Z) (svc : Service) (self : EmbeddingManager.t)
         (texts : list string) (w : World),
    exists embeddings self' w',
      EmbeddingManager.get_embeddings hash svc self texts true w
      = (Ok (embeddings, self'), w')
      /\ length embeddings = length texts
      /\ Forall is_Some embeddings
      /\ forall j t e,
           texts !! j = Some t ->
           EmbeddingManager.cache self !! EmbeddingManager._get_cache_key hash t
           = Some e ->
           embeddings !! j = Some (Some e).
Proof.
  intros hash svc self texts w.
  destruct (embed_documents_full svc (EmbeddingManager.embedding_model self)
              (misses hash self texts) w) as (new & w' & Hp & Hlen & _ & _).
  destruct (fill_complete hash self texts new Hlen) as (Hl & Hall & Hhit).
  destruct (decide (misses hash self texts = [])) as [Hm|Hm].
  - rewrite Hm in Hlen. destruct new; [|discriminate].
    rewrite fill_nil in Hl, Hall, Hhit.
    eexists _, _, _. split; [apply get_embeddings_all_hits; exact Hm|].
    split; [exact Hl|]. split; [exact Hall|exact Hhit].
  - eexists _, _, _. split; [apply get_embeddings_some_misses; eassumption|].
    split; [exact Hl|]. split; [exact Hall|exact Hhit].
Qed.

(** X6. After [get_embeddings] with the cache, the key of every text of the
    batch is in the cache, every entry that was in the cache is still there
    with its embedding, and the provider of the manager is the same. *)
Theorem X6_get_embeddings_cache_after :
  forall (hash : string -> Z) (svc : Service) (self : EmbeddingManager.t)
         (texts : list string) (w : World),
    exists embeddings self' w',
      EmbeddingManager.get_embeddings hash svc self texts true w
      = (Ok (embeddings, self'), w')
      /\ (forall t, t ∈ texts ->
            is_Some (EmbeddingManager.cache self'
                       !! EmbeddingManager._get_cache_key hash t))
      /\ (forall k e, EmbeddingManager.cache self !! k = Some e ->
                      EmbeddingManager.cache self' !! k = Some e)
      /\ EmbeddingManager.embedding_model self'
         = EmbeddingManager.embedding_model self.
Proof.
  intros hash svc self texts w.
  destruct (embed_documents_full svc (EmbeddingManager.embedding_model self)
              (misses hash self texts) w) as (new & w' & Hp & Hlen & _ & _).
  destruct (decide (misses hash self texts = [])) as [Hm|Hm].
  - eexists _, _, _. split; [apply get_embeddings_all_hits; exact Hm|].
    split; [|split; [auto|reflexivity]].
    intros t Ht.
    destruct (EmbeddingManager.cache self !! EmbeddingManager._get_cache_key hash t)
      eqn:Hk; [eauto|].
    assert (Hin : t ∈ misses hash self texts) by now apply misses_are_missing.
    rewrite Hm in Hin. now apply elem_of_nil in Hin.
  - eexists _, _, _. split; [apply get_embeddings_some_misses; eassumption|].
    cbn [EmbeddingManager.set_cache EmbeddingManager.cache
         EmbeddingManager.embedding_model].
    split; [|split; [|reflexivity]].
    + intros t Ht.
      destruct (EmbeddingManager.cache self !! EmbeddingManager._get_cache_key hash t)
        eqn:Hk.
      * apply store_all_is_Some. rewrite Hk. eauto.
      * apply store_all_stored; [exact Hlen|]. now apply misses_are_missing.
    + intros k e Hk. rewrite store_all_lookup_other; [exact Hk|].
      intros [t e'] Hin Heq. cbn [fst] in Heq.
      apply elem_of_zip_l in Hin. apply misses_are_missing in Hin as [_ Hnone].
      rewrite Heq in Hnone. congruence.
Qed.

(** X7. [get_embeddings] with the cache asks the provider only for the texts
    the cache does not answer: it enters [embed_documents] once, with exactly
    those texts in their order, when there are any, and sends one request for
    each of them; when the cache answers every text it does nothing outside
    and leaves the manager as it is. *)
Theorem X7_get_embeddings_asks_for_misses_only :
  forall (hash : string -> Z) (svc : Service) (self : EmbeddingManager.t)
         (texts : list string) (w : World),
    let missing := misses hash self texts in
    exists embeddings self' w',
      EmbeddingManager.get_embeddings hash svc self texts true w
      = (Ok (embeddings, self'), w')
      /\ embed_documents_calls w'
         = embed_documents_calls w
           ++ match missing with [] => [] | _ :: _ => [missing] end
      /\ embed_requests w'
         = embed_requests w
           ++ (document_request (EmbeddingManager.embedding_model self) <$> missing)
      /\ (missing = [] -> w' = w /\ self' = self).
Proof.
  intros hash svc self texts w missing. subst missing.
  destruct (embed_documents_full svc (EmbeddingManager.embedding_model self)
              (misses hash self texts) w) as (new & w' & Hp & Hlen & Hreq & Hcalls).
  destruct (decide (misses hash self texts = [])) as [Hm|Hm].
  - eexists _, _, _. split; [apply get_embeddings_all_hits; exact Hm|].
    rewrite Hm. cbn [fmap list_fmap]. rewrite !app_nil_r. auto.
  - eexists _, _, _. split; [apply get_embeddings_some_misses; eassumption|].
    split; [|split; [exact Hreq|congruence]].
    rewrite Hcalls. destruct (misses hash self texts); [congruence|reflexivity].
Qed.

Lemma X5_witness :
  exists embeddings self' w',
    EmbeddingManager.get_embeddings length_hash healthy warm_manager
      ["oil filter"; "air filters"] true [] = (Ok (embeddings, self'), w')
    /\ embeddings !! 0%nat = Some (Some [Py.lit 0.5; Py.lit 0.25]).
Proof.
  destruct (X5_get_embeddings_results length_hash healthy warm_manager
              ["oil filter"; "air filters"] [])
    as (embeddings & self' & w' & Heq & _ & _ & Hhit).
  exists embeddings, self', w'. split; [exact Heq|].
  apply (Hhit 0%nat "oil filter"); reflexivity.
Defined.

Lemma X6_witness :
  exists embeddings self' w',
    EmbeddingManager.get_embeddings length_hash healthy warm_manager
      ["oil filter"; "air filters"] true [] = (Ok (embeddings, self'), w')
    /\ is_Some (EmbeddingManager.cache self' !! "embed_11")
    /\ EmbeddingManager.cache self' !! "embed_10" = Some [Py.lit 0.5; Py.lit 0.25].
Proof.
  destruct (X6_get_embeddings_cache_after length_hash healthy warm_manager
              ["oil filter"; "air filters"] [])
    as (embeddings & self' & w' & Heq & Hin & Hold & _).
  exists embeddings, self', w'. split; [exact Heq|]. split.
  - apply (Hin "air filters"). apply list_elem_of_further, list_elem_of_here.
  - apply Hold. reflexivity.
Defined.

Lemma X7_witness :
  exists embeddings self' w',
    EmbeddingManager.get_embeddings length_hash healthy warm_manager
      ["oil filter"] true [] = (Ok (embeddings, self'), w')
    /\ w' = [] /\ self' = warm_manager.
Proof.
  destruct (X7_get_embeddings_asks_for_misses_only length_hash healthy warm_manager
              ["oil filter"] [])
    as (embeddings & self' & w' & Heq & _ & _ & Hnone).
  exists embeddings, self', w'. split; [exact Heq|]. apply Hnone. reflexivity.
Defined.

(** X8. What [get_query_embedding] with the cache has answered once for a
    text, it answers from then on: the embedding is in the cache under the
    key of the text, and a later call returns it without calling the provider
    and without changing the manager, whatever the service would answer
    then. *)
Theorem X8_get_query_embedding_is_sticky :
  forall (hash : string -> Z) (svc : Service) (self : EmbeddingManager.t)
         (query : string) (w : World),
    exists e self' w',
      EmbeddingManager.get_query_embedding hash svc self query true w
      = (Ok (e, self'), w')
      /\ EmbeddingManager.cache self' !! EmbeddingManager._get_cache_key hash query
         = Some e
      /\ forall (svc2 : Service) (w2 : World),
           EmbeddingManager.get_query_embedding hash svc2 self' query true w2
           = (Ok (e, self'), w2).
Proof.
  intros hash svc self query w.
  unfold EmbeddingManager.get_query_embedding. cbn [negb].
  destruct (EmbeddingManager.cache self !! EmbeddingManager._get_cache_key hash query)
    as [e|] eqn:Hk.
  - exists e, self, w. split; [reflexivity|]. split; [exact Hk|].
    intros svc2 w2. now rewrite Hk.
  - unfold bind. rewrite embed_query_once. eexists _, _, _.
    split; [reflexivity|].
    cbn [EmbeddingManager.set_cache EmbeddingManager.cache].
    rewrite lookup_insert_eq. split; [reflexivity|]. intros svc2 w2. reflexivity.
Qed.

(** X9. A failure is cached: when the request for a text that is not in the
    cache raises, [get_query_embedding] returns the vector of 768 zeros and
    stores it, and every later call for that text returns the zeros without a
    request, also when the service has recovered. *)
Theorem X9_fallback_is_cached :
  forall (hash : string -> Z) (svc : Service) (self : EmbeddingManager.t)
         (query : string) (w : World) (err : PyException),
    EmbeddingManager.cache self !! EmbeddingManager._get_cache_key hash query = None ->
    embed_outcome svc (EnterEmbedQuery query :: w)
      (query_request (EmbeddingManager.embedding_model self) query) = Raise err ->
    exists self' w',
      EmbeddingManager.get_query_embedding hash svc self query true w
      = (Ok (replicate 768 (Py.lit 0.0), self'), w')
      /\ forall (svc2 : Service) (w2 : World),
           EmbeddingManager.get_query_embedding hash svc2 self' query true w2
           = (Ok (replicate 768 (Py.lit 0.0), self'), w2).
Proof.
  intros hash svc self query w err Hk Hout.
  unfold EmbeddingManager.get_query_embedding. cbn [negb].
  rewrite Hk. unfold bind. rewrite embed_query_once, Hout.
  unfold GoogleEmbeddings.zero_vector. rewrite <- lit_zero.
  eexists _, _. split; [reflexivity|]. intros svc2 w2.
  cbn [EmbeddingManager.set_cache EmbeddingManager.cache].
  now rewrite lookup_insert_eq.
Qed.

Lemma X9_witness :
  exists self' w',
    EmbeddingManager.get_query_embedding length_hash flaky
      (new_manager {| GoogleEmbeddings.model := "models/embedding-001" |})
      "engine overheating" true []
    = (Ok (replicate 768 (Py.lit 0.0), self'), w')
    /\ EmbeddingManager.get_query_embedding length_hash healthy self'
         "engine overheating" true w'
       = (Ok (replicate 768 (Py.lit 0.0), self'), w').
Proof.
  destruct (X9_fallback_is_cached length_hash flaky
              (new_manager {| GoogleEmbeddings.model := "models/embedding-001" |})
              "engine overheating" [] (Exception "503 unavailable")
              eq_refl eq_refl) as (self' & w' & Heq & Hlater).
  exists self', w'. split; [exact Heq|apply Hlater].
Defined.

(** X10. The two methods of the manager share one cache: after
    [get_embeddings] has embedded a text as a document, [get_query_embedding]
    returns that document embedding for it, and no request with the task type
    [retrieval_query] is sent. *)
Theorem X10_query_served_from_document_cache :
  forall (hash : string -> Z) (svc : Service) (self : EmbeddingManager.t)
         (text : string) (w : World),
    EmbeddingManager.cache self !! EmbeddingManager._get_cache_key hash text = None ->
    exists e self1 w1,
      EmbeddingManager.get_embeddings hash svc self [text] true w
      = (Ok ([Some e], self1), w1)
      /\ EmbeddingManager.get_query_embedding hash svc self1 text true w1
         = (Ok (e, self1), w1)
      /\ embed_requests w1
         = embed_requests w
           ++ [document_request (EmbeddingManager.embedding_model self) text].
Proof.
  intros hash svc self text w Hk.
  assert (Hm : misses hash self [text] = [text]).
  { unfold misses. rewrite filter_cons, filter_nil.
    destruct (decide _) as [_|?]; [reflexivity|congruence]. }
  destruct (embed_documents_full svc (EmbeddingManager.embedding_model self)
              [text] w) as (new & w1 & Hp & Hlen & Hreq & _).
  destruct new as [|e [|? ?]]; try discriminate.
  exists e. eexists _, w1. split.
  - rewrite (get_embeddings_some_misses hash svc self [text] w w1 [e]);
      [|rewrite Hm; discriminate|now rewrite Hm].
    rewrite Hm. cbn [fmap list_fmap fill zip zip_with]. rewrite Hk. reflexivity.
  - split; [|exact Hreq].
    unfold EmbeddingManager.get_query_embedding. cbn [negb].
    cbn [EmbeddingManager.set_cache EmbeddingManager.cache].
    rewrite store_all_cons. cbn [fst snd store_all foldl].
    now rewrite lookup_insert_eq.
Qed.

Lemma X10_witness :
  exists e self1 w1,
    EmbeddingManager.get_embeddings length_hash healthy
      (new_manager {| GoogleEmbeddings.model := "models/embedding-001" |})
      ["engine overheating"] true [] = (Ok ([Some e], self1), w1)
    /\ EmbeddingManager.get_query_embedding length_hash healthy self1
         "engine overheating" true w1 = (Ok (e, self1), w1).
Proof.
  destruct (X10_query_served_from_document_cache length_hash healthy
              (new_manager {| GoogleEmbeddings.model := "models/embedding-001" |})
              "engine overheating" [] eq_refl) as (e & self1 & w1 & H1 & H2 & _).
  exists e, self1, w1. split; assumption.
Defined.

Lemma cache_stats_insert (self : EmbeddingManager.t) (k : string) (e : Embedding) :
  EmbeddingManager.cache self !! k = None ->
  let stats := EmbeddingManager.cache_stats self in
  let stats' :=
    EmbeddingManager.cache_stats
      (EmbeddingManager.set_cache self (<[k := e]> (EmbeddingManager.cache self))) in
  EmbeddingManager.cached_embeddings stats'
  = EmbeddingManager.cached_embeddings stats + 1
  /\ EmbeddingManager.total_cache_size stats'
     = EmbeddingManager.total_cache_size stats + Z.of_nat (length e).
Proof.
  intros Hk stats stats'. subst stats stats'.
  unfold EmbeddingManager.cache_stats.
  cbn [EmbeddingManager.set_cache EmbeddingManager.cache
       EmbeddingManager.cached_embeddings EmbeddingManager.total_cache_size].
  split.
  - rewrite map_size_insert_None by exact Hk. lia.
  - rewrite map_fold_insert_L; [reflexivity| |exact Hk].
    intros. lia.
Qed.

(** X11. [cache_stats] follows the cache: a call of [get_query_embedding]
    for a text that is not in the cache adds one to [cached_embeddings] and
    the length of the returned embedding to [total_cache_size]; a call for a
    text that is in the cache changes neither. *)
Theorem X11_cache_stats_count :
  forall (hash : string -> Z) (svc : Service) (self : EmbeddingManager.t)
         (query : string) (w : World),
    exists e self' w',
      EmbeddingManager.get_query_embedding hash svc self query true w
      = (Ok (e, self'), w')
      /\ let stats := EmbeddingManager.cache_stats self in
         let stats' := EmbeddingManager.cache_stats self' in
         match EmbeddingManager.cache self
                 !! EmbeddingManager._get_cache_key hash query with
         | None =>
             EmbeddingManager.cached_embeddings stats'
             = EmbeddingManager.cached_embeddings stats + 1
             /\ EmbeddingManager.total_cache_size stats'
                = EmbeddingManager.total_cache_size stats + Z.of_nat (length e)
         | Some _ => stats' = stats
         end.
Proof.
  intros hash svc self query w.
  unfold EmbeddingManager.get_query_embedding. cbn [negb].
  destruct (EmbeddingManager.cache self !! EmbeddingManager._get_cache_key hash query)
    as [e|] eqn:Hk.
  - exists e, self, w. split; reflexivity.
  - unfold bind. rewrite embed_query_once. eexists _, _, _.
    split; [reflexivity|]. apply cache_stats_insert. exact Hk.
Qed.

(** X12. [clear_cache] empties the cache: the statistics are zero, and the
    next request for any text, also one that was cached, calls the provider. *)
Theorem X12_clear_cache :
  forall (hash : string -> Z) (svc : Service) (entry : Entry)
         (self : EmbeddingManager.t) (text : string) (w : World),
    EmbeddingManager.cache_stats (EmbeddingManager.clear_cache self)
    = {| EmbeddingManager.cached_embeddings := 0;
         EmbeddingManager.total_cache_size := 0 |}
    /\ exists self' w',
         request_embedding hash svc entry (EmbeddingManager.clear_cache self)
           text true w = (Ok self', w')
         /\ provider_calls w' = S (provider_calls w)
         /\ EmbeddingManager.cached_embeddings (EmbeddingManager.cache_stats self') = 1.
Proof.
  intros hash svc entry self text w. split; [reflexivity|].
  destruct (request_miss hash svc entry (EmbeddingManager.clear_cache self) text w
              eq_refl) as (e & w' & Heq & _ & Hprov).
  eexists _, w'. split; [exact Heq|]. split; [exact Hprov|].
  unfold EmbeddingManager.cache_stats.
  cbn [EmbeddingManager.set_cache EmbeddingManager.clear_cache
       EmbeddingManager.cache EmbeddingManager.cached_embeddings].
  rewrite map_size_insert_None by reflexivity. rewrite map_size_empty. reflexivity.
Qed.

(** ** The vector store *)

Lemma slice_batch {A} (l : list A) (i : Z) :
  0 <= i ->
  Py.slice l i (i + 50) = take 50 (drop (Z.to_nat i) l).
Proof.
  intros Hi. unfold Py.slice, Py.slice_index.
  destruct (Z.ltb_spec i 0) as [?|_]; [lia|].
  destruct (Z.ltb_spec (i + 50) 0) as [?|_]; [lia|].
  destruct (Z.le_gt_cases i (Z.of_nat (length l))) as [Hin|Hout].
  - rewrite (Z.min_l i) by lia.
    destruct (Z.le_gt_cases (i + 50) (Z.of_nat (length l))).
    + rewrite Z.min_l by lia. now replace (Z.to_nat (i + 50 - i)) with 50%nat by lia.
    + rewrite Z.min_r by lia.
      rewrite !take_ge; [reflexivity| |]; rewrite length_drop; lia.
  - rewrite !Z.min_r by lia. rewrite Z.sub_diag. cbn [Z.to_nat]. rewrite take_0.
    rewrite drop_ge by lia. reflexivity.
Qed.

Lemma batches_unfold (documents : list Document) :
  batches documents
  = (fun j : nat => take 50 (drop (50 * j) documents))
      <$> seq 0 (Z.to_nat ((Z.of_nat (length documents) + 49) / 50)).
Proof.
  unfold batches, Py.range, VectorStore.batch_size.
  replace (Z.of_nat (length documents) - 0 + 50 - 1)
    with (Z.of_nat (length documents) + 49) by lia.
  rewrite <- list_fmap_compose. apply list_fmap_ext. intros _ j _. cbn.
  rewrite slice_batch by lia. f_equal. f_equal. lia.
Qed.

Lemma concat_batches {A} (l : list A) (s c : nat) :
  mjoin ((fun j : nat => take 50 (drop (50 * j) l)) <$> seq s c)
  = take (50 * c) (drop (50 * s) l).
Proof.
  revert s. induction c as [|c IH]; intros s.
  - cbn [seq fmap list_fmap mjoin list_join]. now rewrite Nat.mul_0_r, take_0.
  - cbn [seq fmap list_fmap mjoin list_join]. fold (@mjoin list _ A). rewrite IH.
    replace (50 * S s)%nat with (50 * s + 50)%nat by lia.
    rewrite <- drop_drop, take_take_drop. f_equal. lia.
Qed.

(** The batches are the documents, cut every 50: together they are the
    documents, in order; none is empty and none has more than 50 documents;
    all but the last have exactly 50. *)
Lemma batches_partition (documents : list Document) :
  mjoin (batches documents) = documents
  /\ Z.of_nat (length (batches documents))
     = (Z.of_nat (length documents) + 49) / 50
  /\ Forall (fun b => (1 <= length b <= 50)%nat) (batches documents)
  /\ forall j b,
       batches documents !! j = Some b ->
       (S j < length (batches documents))%nat ->
       length b = 50%nat.
Proof.
  rewrite batches_unfold.
  set (n := length documents).
  assert (Hq : 0 <= (Z.of_nat n + 49) / 50) by (apply Z.div_pos; lia).
  pose proof (Z.div_mod (Z.of_nat n + 49) 50 ltac:(lia)) as Hd.
  pose proof (Z.mod_pos_bound (Z.of_nat n + 49) 50 ltac:(lia)) as Hm.
  set (c := Z.to_nat ((Z.of_nat n + 49) / 50)) in *.
  assert (Hc : Z.of_nat c = (Z.of_nat n + 49) / 50) by (subst c; lia).
  split; [|split; [|split]].
  - rewrite concat_batches, Nat.mul_0_r, drop_0. apply take_ge. fold n. lia.
  - rewrite length_fmap, length_seq. exact Hc.
  - apply Forall_forall. intros b Hb.
    apply list_elem_of_fmap in Hb as (j & -> & Hj).
    apply elem_of_seq in Hj. rewrite list.length_take, length_drop. fold n. lia.
  - intros j b Hj Hlast. rewrite length_fmap, length_seq in Hlast.
    rewrite list_lookup_fmap in Hj.
    destruct (seq 0 c !! j) as [j'|] eqn:Hs; [|discriminate].
    apply lookup_seq in Hs as [-> _]. injection Hj as <-.
    rewrite list.length_take, length_drop. fold n. lia.
Qed.

Lemma add_batches_recording (starts : list Z) (documents : list Document)
    (w : list StoreEvent) :
  VectorStore.add_batches recording_add starts documents w
  = (Ok tt,
     reverse (AddDocuments
                <$> ((fun i => Py.slice documents i (i + VectorStore.batch_size))
                       <$> starts)) ++ w).
Proof.
  revert w. induction starts as [|i rest IH]; intros w; [reflexivity|].
  cbn [VectorStore.add_batches fmap list_fmap]. unfold bind, recording_add.
  rewrite IH, reverse_cons, <- app_assoc. reflexivity.
Qed.

(** X13. [add_documents] hands the documents to the collection in batches:
    the batches joined are the documents in their order, no batch is empty
    or has more than 50 documents, all batches but the last have exactly 50,
    there are [ceil(n / 50)] of them, and the collection is persisted once,
    after the last batch.  With no documents the collection is not touched,
    and not persisted. *)
Theorem X13_add_documents_batches :
  forall (documents : list Document) (w : list StoreEvent),
    VectorStore.add_documents recording_add recording_persist documents w
    = (Ok tt,
       match documents with
       | [] => w
       | _ :: _ => Persist :: reverse (AddDocuments <$> batches documents) ++ w
       end)
    /\ mjoin (batches documents) = documents
    /\ Z.of_nat (length (batches documents))
       = (Z.of_nat (length documents) + 49) / 50
    /\ Forall (fun b => (1 <= length b <= 50)%nat) (batches documents)
    /\ forall j b,
         batches documents !! j = Some b ->
         (S j < length (batches documents))%nat ->
         length b = 50%nat.
Proof.
  intros documents w. split; [|apply batches_partition].
  unfold VectorStore.add_documents, try_except.
  destruct documents as [|d rest]; [reflexivity|].
  unfold bind. rewrite add_batches_recording. reflexivity.
Qed.

Lemma X13_witness :
  let documents := replicate 120 (doc_of "Check coolant level." "manual.pdf") in
  exists b, batches documents !! 1%nat = Some b /\ length b = 50%nat.
Proof.
  intros documents.
  destruct (X13_add_documents_batches documents []) as (_ & _ & _ & _ & Hfull).
  exists (replicate 50 (doc_of "Check coolant level." "manual.pdf")).
  assert (Hb : batches documents !! 1%nat
               = Some (replicate 50 (doc_of "Check coolant level." "manual.pdf")))
    by (vm_compute; reflexivity).
  split; [exact Hb|]. apply (Hfull 1%nat _ Hb). vm_compute. lia.
Defined.

Lemma add_batches_app {W} (add : list Document -> M W unit)
    (starts1 starts2 : list Z) (documents : list Document) (w : W) :
  VectorStore.add_batches add (starts1 ++ starts2) documents w
  = match VectorStore.add_batches add starts1 documents w with
    | (Ok _, w1) => VectorStore.add_batches add starts2 documents w1
    | (Raise e, w1) => (Raise e, w1)
    end.
Proof.
  revert w. induction starts1 as [|i rest IH]; intros w; [reflexivity|].
  cbn [app VectorStore.add_batches]. unfold bind.
  destruct (add _ w) as [[[]|e] w1]; [apply IH|reflexivity].
Qed.

(** X14. [add_documents] does not swallow a failure and does not undo what
    was done: when the collection raises on a batch after the batches before
    it went in, [add_documents] raises that same exception out of the world
    the failing call left, the later batches are not tried and the
    collection is not persisted. *)
Theorem X14_add_documents_failure :
  forall W (add : list Document -> M W unit) (persist : M W unit)
         (documents : list Document) (w wj w' : W) (j : nat) (i : Z)
         (e : PyException),
    let starts :=
      Py.range 0 (Z.of_nat (length documents)) VectorStore.batch_size in
    starts !! j = Some i ->
    VectorStore.add_batches add (take j starts) documents w = (Ok tt, wj) ->
    add (Py.slice documents i (i + VectorStore.batch_size)) wj = (Raise e, w') ->
    VectorStore.add_documents add persist documents w = (Raise e, w').
Proof.
  intros W add persist documents w wj w' j i e starts Hj Hbefore Hfail.
  unfold VectorStore.add_documents, try_except, raise.
  destruct documents as [|d rest]; [discriminate|].
  unfold bind. fold starts.
  rewrite <- (take_drop_middle starts j i Hj), add_batches_app, Hbefore.
  cbn [VectorStore.add_batches]. unfold bind. rewrite Hfail. reflexivity.
Qed.

Lemma X14_witness :
  let documents := replicate 120 (doc_of "Check coolant level." "manual.pdf") in
  VectorStore.add_documents (limited_add 100) recording_persist documents []
  = (Raise (Exception "quota exceeded"),
     [AddDocuments (replicate 50 (doc_of "Check coolant level." "manual.pdf"));
      AddDocuments (replicate 50 (doc_of "Check coolant level." "manual.pdf"))]).
Proof.
  intros documents.
  apply (X14_add_documents_failure (list StoreEvent) (limited_add 100)
           recording_persist documents []
           [AddDocuments (replicate 50 (doc_of "Check coolant level." "manual.pdf"));
            AddDocuments (replicate 50 (doc_of "Check coolant level." "manual.pdf"))]
           _ 2%nat 100 (Exception "quota exceeded")).
  - vm_compute. reflexivity.
  - vm_compute. reflexivity.
  - vm_compute. reflexivity.
Defined.

(** X15. [similarity_search] never raises.  When the index answers, it
    returns a subsequence of the index's results: the same chunks with the
    same scores in the same order, none added; when the index raises, it
    returns the empty sequence.  In both cases the world is as the index left
    it. *)
Theorem X15_similarity_search_total :
  forall W (settings : Settings) (index : string -> Z -> M W (list Scored))
         (query : string) (k : Z) (threshold : option Py.float) (w : W),
    exists kept,
      VectorStore.similarity_search settings index query k threshold w
      = (Ok kept, snd (index query k w))
      /\ match fst (index query k w) with
         | Ok results => sublist kept results
         | Raise _ => kept = []
         end.
Proof.
  intros W settings index query k threshold w.
  destruct (index query k w) as [[results|e] w'] eqn:Hidx.
  - eexists. split; [apply similarity_search_returns; exact Hidx|].
    cbn [fst]. cbv zeta. destruct (Py.truthy _); [|reflexivity].
    apply sublist_filter.
  - exists []. split; [eapply similarity_search_fails; exact Hidx|reflexivity].
Qed.

(** ** The confidence, as a number *)

Lemma Qcle_alt (x y : Py.float) :
  (x <= y)%Qc
  <-> Qnum (this x) * Z.pos (Qden (this y)) <= Qnum (this y) * Z.pos (Qden (this x)).
Proof. reflexivity. Qed.

Lemma round_units_mono (x y : Py.float) (ndigits : nat) :
  (x <= y)%Qc -> Py.round_units x ndigits <= Py.round_units y ndigits.
Proof.
  intros Hxy. unfold Qcle, Qle in Hxy.
  destruct (round_units_nearest x ndigits) as [[Hxl Hxh] Hxt].
  destruct (round_units_nearest y ndigits) as [[Hyl Hyh] Hyt].
  cbv zeta in *.
  set (a := Qnum (this x)) in *. set (b := Z.pos (Qden (this x))) in *.
  set (c := Qnum (this y)) in *. set (d := Z.pos (Qden (this y))) in *.
  assert (Hs : 0 < 10 ^ Z.of_nat ndigits) by (apply Z.pow_pos_nonneg; lia).
  set (s := 10 ^ Z.of_nat ndigits) in *.
  set (n := Py.round_units x ndigits) in *.
  set (m := Py.round_units y ndigits) in *.
  assert (Hb : 0 < b) by (subst b; lia). assert (Hd : 0 < d) by (subst d; lia).
  destruct (Z.le_gt_cases n m) as [?|Hgt]; [assumption|exfalso].
  assert (H1 : (2 * n - 1) * b * d <= 2 * (a * s) * d)
    by (apply Z.mul_le_mono_nonneg_r; lia).
  assert (H2 : a * d * (2 * s) <= c * b * (2 * s))
    by (apply Z.mul_le_mono_nonneg_r; lia).
  assert (H3 : 2 * (c * s) * b <= (2 * m + 1) * d * b)
    by (apply Z.mul_le_mono_nonneg_r; lia).
  assert (H4 : (2 * n - 1) * (b * d) <= (2 * m + 1) * (b * d)) by lia.
  assert (Hbd : 0 < b * d) by nia.
  assert (H5 : 2 * n - 1 <= 2 * m + 1)
    by (apply (Z.mul_le_mono_pos_r _ _ (b * d)); assumption).
  assert (Hnm : n = m + 1) by lia.
  assert (Hx : 2 * (a * s) * d = (2 * n - 1) * b * d) by lia.
  assert (Hy : 2 * (c * s) * b = (2 * m + 1) * d * b) by lia.
  apply Z.mul_cancel_r in Hx; [|lia]. apply Z.mul_cancel_r in Hy; [|lia].
  assert (E1 : Z.even n = true) by (apply Hxt; left; exact Hx).
  rewrite Hnm in E1.
  assert (E2 : Z.even m = true) by (apply Hyt; right; exact Hy).
  rewrite Z.add_1_r, Z.even_succ, <- Z.negb_even, E2 in E1. discriminate.
Qed.

Lemma round_mono (x y : Py.float) (ndigits : nat) :
  (x <= y)%Qc -> (Py.round x ndigits <= Py.round y ndigits)%Qc.
Proof.
  intros Hxy. pose proof (round_units_mono x y ndigits Hxy) as Hn.
  unfold Py.round, Qcle. cbn [this Q2Qc]. rewrite !Qred_correct.
  unfold Qle. cbn [Qnum Qden].
  apply Z.mul_le_mono_nonneg_r; [apply Pos2Z.is_nonneg|exact Hn].
Qed.

Lemma clamp_bounds (x : Py.float) :
  (Q2Qc 0 <= Spec.clamp x (Py.lit 0.0) (Py.lit 1.0) <= Q2Qc 1)%Qc.
Proof.
  rewrite lit_zero, lit_one. unfold Spec.clamp.
  assert (H01 : (Q2Qc 0 <= Q2Qc 1)%Qc) by (apply Qclt_le_weak; reflexivity).
  destruct (decide (x < Q2Qc 0)%Qc) as [?|Hlo]; [split; [apply Qcle_refl|exact H01]|].
  destruct (decide (Q2Qc 1 < x)%Qc) as [?|Hhi]; [split; [exact H01|apply Qcle_refl]|].
  split; now apply Qcnot_lt_le.
Qed.

Lemma clamp_mono (x y : Py.float) :
  (x <= y)%Qc ->
  (Spec.clamp x (Py.lit 0.0) (Py.lit 1.0)
   <= Spec.clamp y (Py.lit 0.0) (Py.lit 1.0))%Qc.
Proof.
  intros Hxy. pose proof (clamp_bounds y) as [Hy0 _]. revert Hy0.
  rewrite lit_zero, lit_one. unfold Spec.clamp.
  destruct (decide (x < Q2Qc 0)%Qc) as [Hxl|Hxl]; [intros Hy0; exact Hy0|].
  intros _. apply Qcnot_lt_le in Hxl.
  destruct (decide (Q2Qc 1 < x)%Qc) as [Hxh|Hxh].
  - destruct (decide (y < Q2Qc 0)%Qc) as [Hyl|Hyl].
    + exfalso. apply (Qclt_not_le _ _ Hyl). eapply Qcle_trans; eassumption.
    + destruct (decide (Q2Qc 1 < y)%Qc) as [Hyh|Hyh]; [apply Qcle_refl|].
      exfalso. apply Hyh. eapply Qclt_le_trans; eassumption.
  - apply Qcnot_lt_le in Hxh.
    destruct (decide (y < Q2Qc 0)%Qc) as [Hyl|Hyl].
    + exfalso. apply (Qclt_not_le _ _ Hyl). eapply Qcle_trans; eassumption.
    + destruct (decide (Q2Qc 1 < y)%Qc) as [Hyh|Hyh]; assumption.
Qed.

Lemma round_zero_one :
  Py.round (Q2Qc 0) 2 = Q2Qc 0 /\ Py.round (Q2Qc 1) 2 = Q2Qc 1
  /\ Py.round_units (Q2Qc 0) 2 = 0 /\ Py.round_units (Q2Qc 1) 2 = 100.
Proof.
  repeat split; try reflexivity; apply Qc_is_canon; reflexivity.
Qed.

(** The confidence lies between the roundings of 0 and of 1. *)
Lemma calculate_confidence_hundredths (docs : list Scored) :
  (Q2Qc 0 <= RAGPipeline._calculate_confidence docs <= Q2Qc 1)%Qc
  /\ exists n : Z,
       0 <= n <= 100
       /\ (RAGPipeline._calculate_confidence docs * Qc_of_Z 100)%Qc = Qc_of_Z n.
Proof.
  destruct round_zero_one as (R0 & R1 & U0 & U1).
  destruct docs as [|r rest].
  - cbn [RAGPipeline._calculate_confidence]. rewrite lit_zero. split.
    + split; [apply Qcle_refl|apply Qclt_le_weak; reflexivity].
    + exists 0. split; [lia|]. apply Qc_is_canon. reflexivity.
  - unfold RAGPipeline._calculate_confidence. rewrite min_max_clamp.
    set (c := Spec.clamp _ _ _). pose proof (clamp_bounds _ : (_ <= c <= _)%Qc) as [Hc0 Hc1].
    split.
    + split.
      * rewrite <- R0. now apply round_mono.
      * rewrite <- R1. now apply round_mono.
    + exists (Py.round_units c 2). split.
      * split.
        -- rewrite <- U0. now apply round_units_mono.
        -- rewrite <- U1. now apply round_units_mono.
      * exact (round_times_unit c 2).
Qed.

(** X16. The confidence is a number of hundredths between 0 and 1, for every
    sequence of results, whatever the scores. *)
Theorem X16_confidence_range :
  forall docs : list Scored,
    (Q2Qc 0 <= RAGPipeline._calculate_confidence docs <= Q2Qc 1)%Qc
    /\ exists n : Z,
         0 <= n <= 100
         /\ (RAGPipeline._calculate_confidence docs * Qc_of_Z 100)%Qc = Qc_of_Z n.
Proof. exact calculate_confidence_hundredths. Qed.

Lemma sum_ge (t : Py.float) (scores : list Py.float) :
  Forall (fun s => (t <= s)%Qc) scores ->
  (Qc_of_Z (Z.of_nat (length scores)) * t <= foldr Qcplus (Q2Qc 0) scores)%Qc.
Proof.
  induction 1 as [|s rest Hs _ IH].
  - cbn [length foldr]. change (Z.of_nat 0) with 0.
    rewrite Z2Qc_inj_0, Qcmult_0_l. apply Qcle_refl.
  - cbn [length foldr]. rewrite Nat2Z.inj_succ, <- Z.add_1_l, Z2Qc_inj_add.
    rewrite Z2Qc_inj_1, Qcmult_plus_distr_l, Qcmult_1_l.
    now apply Qcplus_le_compat.
Qed.

Lemma mean_ge (t : Py.float) (s : Py.float) (rest : list Py.float) :
  Forall (fun s => (t <= s)%Qc) (s :: rest) ->
  (t <= Spec.mean (s :: rest))%Qc.
Proof.
  intros Hall. pose proof (sum_ge t _ Hall) as Hsum. unfold Spec.mean.
  set (n := Qc_of_Z (Z.of_nat (length (s :: rest)))) in *.
  assert (Hn : (Q2Qc 0 < n)%Qc).
  { subst n. rewrite <- Z2Qc_inj_0.
    apply (proj1 (Z2Qc_inj_lt 0 (Z.of_nat (length (s :: rest))))).
    change (length (s :: rest)) with (S (length rest)). lia. }
  assert (Hne : n <> Q2Qc 0) by (intros E; rewrite E in Hn; now apply Qclt_not_eq in Hn).
  unfold Qcdiv.
  replace t with ((n * t) * / n)%Qc at 1.
  - apply Qcmult_le_compat_r; [exact Hsum|]. apply Qclt_le_weak, Qcinv_pos, Hn.
  - rewrite (Qcmult_comm n t), <- Qcmult_assoc, Qcmult_inv_r by exact Hne.
    apply Qcmult_1_r.
Qed.

(** The confidence of results that all score at least [t]. *)
Lemma confidence_at_least (t : Py.float) (docs : list Scored) :
  docs <> [] ->
  Forall (fun r => (t <= snd r)%Qc) docs ->
  (Py.round (Spec.clamp t (Py.lit 0.0) (Py.lit 1.0)) 2
   <= RAGPipeline._calculate_confidence docs)%Qc.
Proof.
  intros Hne Hall. destruct docs as [|r rest]; [congruence|].
  unfold RAGPipeline._calculate_confidence.
  rewrite min_max_clamp, sum_foldr.
  apply round_mono, clamp_mono.
  pose proof (mean_ge t (snd r) (snd <$> rest)) as Hm.
  unfold Spec.mean in Hm.
  change (snd r :: (snd <$> rest)) with (snd <$> r :: rest) in Hm.
  rewrite length_fmap in Hm. apply Hm.
  apply Forall_fmap. exact Hall.
Qed.

Lemma keep_at_least (t : Py.float) (results : list Scored) :
  Forall (fun r => (t <= snd r)%Qc) (VectorStore.keep t results).
Proof.
  apply Forall_forall. intros r Hr. now apply elem_of_keep in Hr as [Hle _].
Qed.

(** ** The pipeline as it is assembled *)

(** What retrieval hands to the rest of [query]. *)
Lemma assembled_retrieval (settings : Settings) (svc : Service)
    (index : string -> Z -> M World (list Scored)) (question : string) (k : Z)
    (w : World) :
  RAGPipeline.similarity_search (initialize_rag_pipeline settings svc index)
    question k w
  = VectorStore.similarity_search settings index question k None w.
Proof. reflexivity. Qed.

(** [query] of the assembled pipeline when retrieval hands over something. *)
Lemma assembled_query_answers (settings : Settings) (svc : Service)
    (index : string -> Z -> M World (list Scored)) (question : string) (k : Z)
    (include_sources : bool) (w w1 : World) (r : Scored) (rest : list Scored) :
  VectorStore.similarity_search settings index question k None w
  = (Ok (r :: rest), w1) ->
  let request :=
    generate_request {| GoogleLLM.model := gemini_model settings |}
      (RAGPipeline.build_prompt question
         (RAGPipeline._prepare_context (max_context_length settings) (r :: rest)))
      1000 in
  RAGPipeline.query (initialize_rag_pipeline settings svc index)
    question k include_sources w
  = (Ok {| answer := match generate_outcome svc w1 request with
                     | Ok text => text
                     | Raise _ => GoogleLLM.apology
                     end;
           sources := if include_sources
                      then RAGPipeline._format_sources (r :: rest) else [];
           confidence := RAGPipeline._calculate_confidence (r :: rest) |},
     GenerateContent request :: w1).
Proof.
  intros Hs request. unfold initialize_rag_pipeline.
  apply (query_new_returns settings _ _ None question k include_sources r rest
           _ w w1 _ Hs).
  cbn [Py.or_int]. apply generate_once.
Qed.

Lemma query_no_match {W} (self : RAGPipeline.t W) (question : string) (k : Z)
    (include_sources : bool) (w w1 : W) :
  RAGPipeline.similarity_search self question k w = (Ok [], w1) ->
  RAGPipeline.query self question k include_sources w
  = (Ok RAGPipeline.no_match, w1).
Proof.
  intros Hs. unfold RAGPipeline.query, RAGPipeline.query_body, try_except, bind.
  rewrite Hs. reflexivity.
Qed.

(** X17. In the assembled pipeline a failure of the index does not show as an
    error: [similarity_search] turns it into an empty retrieval, and [query]
    answers with the no-match response, without a request to the model. *)
Theorem X17_index_failure_is_no_match :
  forall (settings : Settings) (svc : Service)
         (index : string -> Z -> M World (list Scored)) (question : string)
         (k : Z) (include_sources : bool) (w w1 : World) (e : PyException),
    index question k w = (Raise e, w1) ->
    RAGPipeline.query (initialize_rag_pipeline settings svc index)
      question k include_sources w
    = (Ok {| answer := "I couldn't find relevant information to answer your question. Please try rephrasing or asking about a different topic.";
             sources := [];
             confidence := Py.lit 0.0 |}, w1).
Proof.
  intros settings svc index question k include_sources w w1 e Hidx.
  apply (query_no_match (initialize_rag_pipeline settings svc index)).
  rewrite assembled_retrieval. eapply similarity_search_fails. exact Hidx.
Qed.

(** An index that is down. *)
Lemma X17_witness :
  RAGPipeline.query
    (initialize_rag_pipeline default_settings healthy failing_index)
    "Why is my engine overheating?" 5 true []
  = (Ok RAGPipeline.no_match, []).
Proof.
  apply (X17_index_failure_is_no_match default_settings healthy failing_index
           "Why is my engine overheating?" 5 true [] []
           (Exception "collection not found")).
  reflexivity.
Defined.

(** X18. In the assembled pipeline, when retrieval hands over at least one
    chunk, [query] sends exactly one request to the model, with the prompt
    built from the question and the assembled context and a limit of 1000
    tokens; the answer is the text of the model, or the apology when the
    request raises, and in both cases the confidence and the sources are
    those of the retrieval: a failure of the model does not give the error
    response. *)
Theorem X18_model_failure_keeps_retrieval :
  forall (settings : Settings) (svc : Service)
         (index : string -> Z -> M World (list Scored)) (question : string)
         (k : Z) (include_sources : bool) (w w1 : World)
         (r : Scored) (rest : list Scored),
    VectorStore.similarity_search settings index question k None w
    = (Ok (r :: rest), w1) ->
    let request :=
      generate_request {| GoogleLLM.model := gemini_model settings |}
        (RAGPipeline.build_prompt question
           (RAGPipeline._prepare_context (max_context_length settings) (r :: rest)))
        1000 in
    exists response,
      RAGPipeline.query (initialize_rag_pipeline settings svc index)
        question k include_sources w
      = (Ok response, GenerateContent request :: w1)
      /\ confidence response = RAGPipeline._calculate_confidence (r :: rest)
      /\ sources response
         = (if include_sources then RAGPipeline._format_sources (r :: rest) else [])
      /\ (forall text, generate_outcome svc w1 request = Ok text ->
                       answer response = text)
      /\ (forall err, generate_outcome svc w1 request = Raise err ->
                      answer response
                      = "I apologize, but I encountered an error processing your request. Please try again.").
Proof.
  intros settings svc index question k include_sources w w1 r rest Hs request.
  eexists. split; [apply assembled_query_answers; exact Hs|].
  cbn [confidence sources answer]. fold request.
  split; [reflexivity|]. split; [reflexivity|]. split.
  - intros text ->. reflexivity.
  - intros err ->. reflexivity.
Qed.

Lemma X18_witness :
  exists response w',
    RAGPipeline.query
      (initialize_rag_pipeline default_settings dead
         (stocked_index [(doc_of "Check coolant level." "manual.pdf", Py.lit 0.9)]))
      "Why is my engine overheating?" 5 true [] = (Ok response, w')
    /\ answer response = GoogleLLM.apology
    /\ confidence response = Py.lit 0.9
    /\ length (sources response) = 1%nat.
Proof.
  destruct (X18_model_failure_keeps_retrieval default_settings dead
              (stocked_index [(doc_of "Check coolant level." "manual.pdf", Py.lit 0.9)])
              "Why is my engine overheating?" 5 true [] []
              (doc_of "Check coolant level." "manual.pdf", Py.lit 0.9) []
              eq_refl) as (response & Hq & Hc & Hs & _ & Ha).
  exists response. eexists. split; [exact Hq|]. split.
  - apply (Ha (Exception "503 unavailable")). reflexivity.
  - split.
    + rewrite Hc. apply Qc_is_canon. vm_compute. reflexivity.
    + rewrite Hs. reflexivity.
Defined.

(** X19. In the assembled pipeline with a configured threshold other than
    zero, [query] always returns a response, and it is either the no-match
    response or one whose confidence is at least the threshold (clamped to
    [0,1] and rounded to two decimals): 0.70 with the default settings. *)
Theorem X19_confidence_at_least_threshold :
  forall (settings : Settings) (svc : Service)
         (index : string -> Z -> M World (list Scored)) (question : string)
         (k : Z) (include_sources : bool) (w : World),
    similarity_threshold settings <> Q2Qc 0 ->
    exists response w',
      RAGPipeline.query (initialize_rag_pipeline settings svc index)
        question k include_sources w = (Ok response, w')
      /\ (response = RAGPipeline.no_match
          \/ (Py.round (Spec.clamp (similarity_threshold settings)
                          (Py.lit 0.0) (Py.lit 1.0)) 2
              <= confidence response <= Q2Qc 1)%Qc).
Proof.
  intros settings svc index question k include_sources w Ht.
  destruct (index question k w) as [[results|e] w1] eqn:Hidx.
  - pose proof (similarity_search_returns settings index question k None w w1
                  results Hidx) as Hs.
    cbv zeta in Hs. cbn [Py.or_float] in Hs. rewrite (truthy_nonzero _ Ht) in Hs.
    destruct (VectorStore.keep (similarity_threshold settings) results)
      as [|r rest] eqn:Hk.
    + exists RAGPipeline.no_match, w1. split; [|now left].
      apply (query_no_match (initialize_rag_pipeline settings svc index)).
      rewrite assembled_retrieval. exact Hs.
    + eexists _, _. split; [apply assembled_query_answers; exact Hs|].
      right. cbn [confidence]. split.
      * apply confidence_at_least; [discriminate|].
        rewrite <- Hk. apply keep_at_least.
      * apply calculate_confidence_hundredths.
  - exists RAGPipeline.no_match, w1. split; [|now left].
    apply (query_no_match (initialize_rag_pipeline settings svc index)).
    rewrite assembled_retrieval. eapply similarity_search_fails. exact Hidx.
Qed.

Lemma X19_witness :
  exists response w',
    RAGPipeline.query
      (initialize_rag_pipeline default_settings healthy
         (stocked_index [(doc_of "Check coolant level." "manual.pdf", Py.lit 0.9);
                         (doc_of "Rotate the tyres." "guide.pdf", Py.lit 0.4)]))
      "Why is my engine overheating?" 5 true [] = (Ok response, w')
    /\ (response = RAGPipeline.no_match
        \/ (Py.round (Spec.clamp (similarity_threshold default_settings)
                        (Py.lit 0.0) (Py.lit 1.0)) 2
            <= confidence response <= Q2Qc 1)%Qc).
Proof.
  apply (X19_confidence_at_least_threshold default_settings healthy
           (stocked_index [(doc_of "Check coolant level." "manual.pdf", Py.lit 0.9);
                           (doc_of "Rotate the tyres." "guide.pdf", Py.lit 0.4)])
           "Why is my engine overheating?" 5 true []).
  vm_compute. discriminate.
Defined.

(** ** The context when everything fits *)

Lemma parts_length_whole (docs : list Scored) :
  Measure.parts_length (Measure.whole_part <$> docs)
  = Measure.contents_length docs + Measure.headers_length docs.
Proof.
  induction docs as [|[doc score] rest IH].
  - reflexivity.
  - cbn [fmap list_fmap Measure.parts_length foldr Measure.contents_length
         Measure.headers_length].
    fold (Measure.whole_part <$> rest).
    fold (Measure.parts_length (Measure.whole_part <$> rest)).
    rewrite IH. unfold Measure.whole_part. cbn [fst].
    rewrite len_context_part. lia.
Qed.

(** X20. When the contents of the retrieved chunks fit the limit together,
    [_prepare_context] returns every chunk whole, each under its header, in
    the order of retrieval, and the length of the context is the length of
    the contents plus that of the headers and of the blank lines between the
    entries. *)
Theorem X20_context_when_all_fit :
  forall (max_length : Z) (docs : list Scored),
    Measure.contents_length docs <= max_length ->
    RAGPipeline._prepare_context max_length docs
    = Py.join (Py.nl +:+ Py.nl) (Measure.whole_part <$> docs)
    /\ Py.len (RAGPipeline._prepare_context max_length docs)
       = Measure.contents_length docs + Measure.framing (length docs) docs.
Proof.
  intros max_length docs Hfit.
  assert (Heq : RAGPipeline._prepare_context max_length docs
                = Py.join (Py.nl +:+ Py.nl) (Measure.whole_part <$> docs)).
  { unfold RAGPipeline._prepare_context.
    rewrite <- (app_nil_r docs) at 1.
    rewrite prepare_loop_fits by lia. reflexivity. }
  split; [exact Heq|]. rewrite Heq, len_join.
  fold (Measure.parts_length (Measure.whole_part <$> docs)).
  rewrite parts_length_whole, length_fmap. unfold Measure.framing.
  rewrite firstn_all. lia.
Qed.

Lemma X20_witness :
  RAGPipeline._prepare_context 4000
    [(doc_of "Check coolant level." "manual.pdf", Py.lit 0.9);
     (doc_of "Inspect the radiator fan clutch." "bulletin.csv", Py.lit 0.8)]
  = "Source: manual.pdf" +:+ Py.nl +:+ "Check coolant level."
    +:+ Py.nl +:+ Py.nl
    +:+ "Source: bulletin.csv" +:+ Py.nl +:+ "Inspect the radiator fan clutch.".
Proof.
  rewrite (proj1 (X20_context_when_all_fit 4000
             [(doc_of "Check coolant level." "manual.pdf", Py.lit 0.9);
              (doc_of "Inspect the radiator fan clutch." "bulletin.csv", Py.lit 0.8)]
             ltac:(vm_compute; discriminate))).
  vm_compute. reflexivity.
Defined.

(** ** The size of the sources *)

Lemma len_source_content (doc : Document) :
  Py.len (RAGPipeline.source_content doc) <= 203
  /\ Py.len (RAGPipeline.source_content doc)
     <= Py.len (page_content doc) + 3.
Proof.
  unfold RAGPipeline.source_content.
  destruct (Z.ltb_spec 200 (Py.len (page_content doc))) as [Hlong|Hshort].
  - rewrite len_app, len_slice_to by lia. change (Py.len "...") with 3. lia.
  - lia.
Qed.

Lemma format_loop_Forall (P : SourceInfo -> Prop) (docs : list Scored) (i : Z)
    (acc : list SourceInfo) :
  Forall P acc ->
  (forall (j : Z) (doc : Document) (score : Py.float),
     P {| src_id := j; src_content := RAGPipeline.source_content doc;
          src_metadata := metadata doc;
          src_similarity_score := Py.round score 3 |}) ->
  Forall P (RAGPipeline.format_loop i docs acc).
Proof.
  intros Hacc Hnew. revert i acc Hacc.
  induction docs as [|[doc score] rest IH]; intros i acc Hacc.
  - exact Hacc.
  - cbn [RAGPipeline.format_loop]. apply IH.
    apply Forall_app. split; [exact Hacc|].
    apply Forall_singleton, Hnew.
Qed.

(** X21. Whatever the size of the retrieved chunks, the content of an entry of
    the sources is never longer than 203 characters: 200 of the chunk and the
    three of the ellipsis marker. *)
Theorem X21_sources_content_is_short :
  forall (docs : list Scored),
    Forall (fun entry => Py.len (src_content entry) <= 203)
      (RAGPipeline._format_sources docs).
Proof.
  intros docs. unfold RAGPipeline._format_sources.
  apply format_loop_Forall; [constructor|].
  intros j doc score. cbn [src_content]. apply len_source_content.
Qed.

(** ** The metrics collector *)

Lemma of_int_nonzero (n : Z) : n <> 0 -> Py.of_int n <> Q2Qc 0.
Proof.
  intros Hn E. unfold Py.of_int in E. rewrite <- Z2Qc_inj_0 in E.
  now apply Z2Qc_inj in E.
Qed.

Lemma truediv_ok (a b : Py.float) :
  b <> Q2Qc 0 -> MetricsCollector.truediv a b = Ok (a / b)%Qc.
Proof.
  intros Hb. unfold MetricsCollector.truediv.
  destruct (decide (b = Q2Qc 0)); [contradiction|reflexivity].
Qed.

(** The effect of recording a query that succeeded. *)
Lemma record_query_success (response_time : Py.float) (m : MetricsCollector.t) :
  MetricsCollector.error_count m <= MetricsCollector.query_count m ->
  MetricsCollector.record_query response_time false m
  = (Ok tt,
     {| MetricsCollector.query_count := MetricsCollector.query_count m + 1;
        MetricsCollector.total_response_time :=
          (MetricsCollector.total_response_time m + response_time)%Qc;
        MetricsCollector.average_response_time :=
          ((MetricsCollector.total_response_time m + response_time)
           / Py.of_int (MetricsCollector.query_count m + 1
                        - MetricsCollector.error_count m))%Qc;
        MetricsCollector.error_count := MetricsCollector.error_count m;
        MetricsCollector.embedding_cache_hits :=
          MetricsCollector.embedding_cache_hits m;
        MetricsCollector.embedding_cache_misses :=
          MetricsCollector.embedding_cache_misses m |}).
Proof.
  intros Hle. unfold MetricsCollector.record_query.
  cbn [MetricsCollector.query_count MetricsCollector.total_response_time
       MetricsCollector.average_response_time MetricsCollector.error_count
       MetricsCollector.embedding_cache_hits
       MetricsCollector.embedding_cache_misses].
  rewrite truediv_ok by (apply of_int_nonzero; lia). reflexivity.
Qed.

(** Every call keeps the collector consistent, and none raises. *)
Lemma metrics_call_consistent (c : MetricsCall) (m : MetricsCollector.t) :
  consistent m ->
  exists m', metrics_call c m = (Ok tt, m') /\ consistent m'.
Proof.
  intros (Hcount & Hhits & Hmisses & Havg).
  destruct c as [response_time [|]| | |]; cbn [metrics_call].
  - eexists. split; [reflexivity|]. unfold consistent.
    cbn [MetricsCollector.query_count MetricsCollector.total_response_time
         MetricsCollector.average_response_time MetricsCollector.error_count
         MetricsCollector.embedding_cache_hits
         MetricsCollector.embedding_cache_misses].
    repeat split; try lia.
    rewrite <- Havg. do 2 f_equal. lia.
  - rewrite record_query_success by lia. eexists. split; [reflexivity|].
    unfold consistent.
    cbn [MetricsCollector.query_count MetricsCollector.total_response_time
         MetricsCollector.average_response_time MetricsCollector.error_count
         MetricsCollector.embedding_cache_hits
         MetricsCollector.embedding_cache_misses].
    repeat split; try lia.
    rewrite Qcmult_comm. apply Qcmult_div_r, of_int_nonzero. lia.
  - eexists. split; [reflexivity|]. unfold consistent.
    cbn [MetricsCollector.query_count MetricsCollector.total_response_time
         MetricsCollector.average_response_time MetricsCollector.error_count
         MetricsCollector.embedding_cache_hits
         MetricsCollector.embedding_cache_misses].
    repeat split; try lia. exact Havg.
  - eexists. split; [reflexivity|]. unfold consistent.
    cbn [MetricsCollector.query_count MetricsCollector.total_response_time
         MetricsCollector.average_response_time MetricsCollector.error_count
         MetricsCollector.embedding_cache_hits
         MetricsCollector.embedding_cache_misses].
    repeat split; try lia. exact Havg.
  - exists MetricsCollector.init. split; [reflexivity|].
    unfold consistent. cbn. repeat split; lia.
Qed.

Lemma init_consistent : consistent MetricsCollector.init.
Proof.
  unfold consistent. cbn. repeat split; lia.
Qed.

Lemma metrics_calls_cons (c : MetricsCall) (rest : list MetricsCall)
    (m m' : MetricsCollector.t) :
  metrics_call c m = (Ok tt, m') ->
  metrics_calls (c :: rest) m = metrics_calls rest m'.
Proof.
  intros H. cbn [metrics_calls]. unfold bind. now rewrite H.
Qed.

Lemma metrics_calls_consistent (cs : list MetricsCall) (m : MetricsCollector.t) :
  consistent m ->
  exists m', metrics_calls cs m = (Ok tt, m') /\ consistent m'.
Proof.
  revert m. induction cs as [|c rest IH]; intros m Hm.
  - exists m. split; [reflexivity|exact Hm].
  - destruct (metrics_call_consistent c m Hm) as (m1 & Hc & Hm1).
    rewrite (metrics_calls_cons c rest m m1 Hc). apply IH, Hm1.
Qed.

Lemma metrics_calls_app (before after : list MetricsCall)
    (m m' : MetricsCollector.t) :
  metrics_calls before m = (Ok tt, m') ->
  metrics_calls (before ++ after) m = metrics_calls after m'.
Proof.
  revert m. induction before as [|c rest IH]; intros m H.
  - injection H as <-. reflexivity.
  - cbn [app metrics_calls] in *. unfold bind in *.
    destruct (metrics_call c m) as [[[]|e] m1]; [|discriminate].
    apply IH, H.
Qed.

(** X22. Whatever calls a client makes on a fresh collector, in whatever
    order, none of them raises (the division of [record_query] is never by
    zero), the errors never outnumber the queries, and while at least one
    query was recorded without error the average is the total response time
    divided by the number of such queries. *)
Theorem X22_metrics_invariant :
  forall (cs : list MetricsCall),
    exists m,
      metrics_calls cs MetricsCollector.init = (Ok tt, m)
      /\ 0 <= MetricsCollector.error_count m <= MetricsCollector.query_count m
      /\ 0 <= MetricsCollector.embedding_cache_hits m
      /\ 0 <= MetricsCollector.embedding_cache_misses m
      /\ (MetricsCollector.error_count m < MetricsCollector.query_count m ->
          MetricsCollector.average_response_time m
          = (MetricsCollector.total_response_time m
             / Py.of_int (MetricsCollector.query_count m
                          - MetricsCollector.error_count m))%Qc).
Proof.
  intros cs.
  destruct (metrics_calls_consistent cs _ init_consistent)
    as (m & Hrun & Hcount & Hhits & Hmisses & Havg).
  exists m. repeat split; try assumption; try lia.
  intros Hsome. rewrite <- Havg. symmetry.
  apply Qcdiv_mult_l, of_int_nonzero. lia.
Qed.

Lemma ratio_bounds (a b : Z) :
  0 <= a <= b -> 0 < b ->
  (Q2Qc 0 <= Py.of_int a / Py.of_int b <= Q2Qc 1)%Qc.
Proof.
  intros Ha Hb. unfold Py.of_int.
  assert (Hpos : (Q2Qc 0 < Qc_of_Z b)%Qc).
  { rewrite <- Z2Qc_inj_0. apply (proj1 (Z2Qc_inj_lt 0 b)). exact Hb. }
  assert (Hinv : (Q2Qc 0 <= / Qc_of_Z b)%Qc)
    by apply Qclt_le_weak, Qcinv_pos, Hpos.
  assert (Hne : Qc_of_Z b <> Q2Qc 0)
    by (intros E; rewrite E in Hpos; now apply Qclt_not_eq in Hpos).
  unfold Qcdiv. split.
  - replace (Q2Qc 0) with (Q2Qc 0 * / Qc_of_Z b)%Qc by apply Qcmult_0_l.
    apply Qcmult_le_compat_r; [|exact Hinv].
    rewrite <- Z2Qc_inj_0. apply (proj1 (Z2Qc_inj_le 0 a)). lia.
  - replace (Q2Qc 1) with (Qc_of_Z b * / Qc_of_Z b)%Qc
      by (apply Qcmult_inv_r; exact Hne).
    apply Qcmult_le_compat_r; [|exact Hinv].
    apply (proj1 (Z2Qc_inj_le a b)). lia.
Qed.

(** [get_metrics] returns in every state of the collector, and leaves it as
    it is: both divisions are guarded. *)
Lemma get_metrics_returns (m : MetricsCollector.t) :
  exists report,
    MetricsCollector.get_metrics m = (Ok report, m)
    /\ MetricsCollector.metrics report = m
    /\ MetricsCollector.cache_hit_rate report
       = (if 0 <? MetricsCollector.embedding_cache_hits m
                  + MetricsCollector.embedding_cache_misses m
          then (Py.of_int (MetricsCollector.embedding_cache_hits m)
                / Py.of_int (MetricsCollector.embedding_cache_hits m
                             + MetricsCollector.embedding_cache_misses m))%Qc
          else Q2Qc 0)
    /\ MetricsCollector.error_rate report
       = (if 0 <? MetricsCollector.query_count m
          then (Py.of_int (MetricsCollector.error_count m)
                / Py.of_int (MetricsCollector.query_count m))%Qc
          else Q2Qc 0).
Proof.
  unfold MetricsCollector.get_metrics.
  destruct (Z.ltb_spec 0 (MetricsCollector.embedding_cache_hits m
                          + MetricsCollector.embedding_cache_misses m)) as [Hc|Hc];
    destruct (Z.ltb_spec 0 (MetricsCollector.query_count m)) as [Hq|Hq];
    rewrite ?truediv_ok by (apply of_int_nonzero; lia);
    eexists; repeat split.
Qed.

(** X23. After any calls on a fresh collector, [get_metrics] returns a report
    (it does not raise, also when nothing was recorded), leaves the collector
    unchanged, and both rates of the report lie between 0 and 1. *)
Theorem X23_get_metrics_rates :
  forall (cs : list MetricsCall) (m : MetricsCollector.t),
    metrics_calls cs MetricsCollector.init = (Ok tt, m) ->
    exists report,
      MetricsCollector.get_metrics m = (Ok report, m)
      /\ MetricsCollector.metrics report = m
      /\ (Q2Qc 0 <= MetricsCollector.cache_hit_rate report <= Q2Qc 1)%Qc
      /\ (Q2Qc 0 <= MetricsCollector.error_rate report <= Q2Qc 1)%Qc.
Proof.
  intros cs m Hrun.
  destruct (metrics_calls_consistent cs _ init_consistent)
    as (m' & Hrun' & Hcount & Hhits & Hmisses & _).
  rewrite Hrun in Hrun'. injection Hrun' as <-.
  destruct (get_metrics_returns m) as (report & Hget & Hm & Hhit & Herr).
  exists report. split; [exact Hget|]. split; [exact Hm|].
  assert (H01 : (Q2Qc 0 <= Q2Qc 0 <= Q2Qc 1)%Qc)
    by (split; [apply Qcle_refl|apply Qclt_le_weak; reflexivity]).
  rewrite Hhit, Herr. split.
  - destruct (Z.ltb_spec 0 (MetricsCollector.embedding_cache_hits m
                            + MetricsCollector.embedding_cache_misses m));
      [apply ratio_bounds; lia|exact H01].
  - destruct (Z.ltb_spec 0 (MetricsCollector.query_count m));
      [apply ratio_bounds; lia|exact H01].
Qed.

Lemma X23_witness :
  exists report,
    MetricsCollector.get_metrics
      (snd (metrics_calls [RecordQuery (Py.lit 1.5) false; RecordCacheMiss;
                           RecordQuery (Py.lit 0.5) true; RecordCacheHit]
              MetricsCollector.init))
    = (Ok report,
       snd (metrics_calls [RecordQuery (Py.lit 1.5) false; RecordCacheMiss;
                           RecordQuery (Py.lit 0.5) true; RecordCacheHit]
              MetricsCollector.init))
    /\ (Q2Qc 0 <= MetricsCollector.cache_hit_rate report <= Q2Qc 1)%Qc
    /\ (Q2Qc 0 <= MetricsCollector.error_rate report <= Q2Qc 1)%Qc.
Proof.
  destruct (X23_get_metrics_rates
              [RecordQuery (Py.lit 1.5) false; RecordCacheMiss;
               RecordQuery (Py.lit 0.5) true; RecordCacheHit]
              (snd (metrics_calls [RecordQuery (Py.lit 1.5) false; RecordCacheMiss;
                                   RecordQuery (Py.lit 0.5) true; RecordCacheHit]
                      MetricsCollector.init)))
    as (report & Hget & _ & Hhit & Herr).
  - vm_compute. reflexivity.
  - exists report. split; [exact Hget|]. split; [exact Hhit|exact Herr].
Defined.

Lemma count_calls_cons (kind : MetricsCall -> bool) (c : MetricsCall)
    (rest : list MetricsCall) :
  count_calls kind (c :: rest)
  = (if kind c then 1 else 0) + count_calls kind rest.
Proof.
  unfold count_calls. cbn [List.filter]. destruct (kind c); [|lia].
  cbn [length]. lia.
Qed.

(** What the calls add to a collector, when none of them is a reset. *)
Lemma metrics_calls_totals (cs : list MetricsCall) (m0 : MetricsCollector.t) :
  Forall (fun c => c <> ResetMetrics) cs ->
  MetricsCollector.error_count m0 <= MetricsCollector.query_count m0 ->
  exists m,
    metrics_calls cs m0 = (Ok tt, m)
    /\ MetricsCollector.query_count m
       = MetricsCollector.query_count m0 + count_calls is_query cs
    /\ MetricsCollector.error_count m
       = MetricsCollector.error_count m0 + count_calls is_error cs
    /\ MetricsCollector.embedding_cache_hits m
       = MetricsCollector.embedding_cache_hits m0 + count_calls is_hit cs
    /\ MetricsCollector.embedding_cache_misses m
       = MetricsCollector.embedding_cache_misses m0 + count_calls is_miss cs
    /\ MetricsCollector.total_response_time m
       = foldl Qcplus (MetricsCollector.total_response_time m0)
           (successful_times cs).
Proof.
  intros Hcs. revert m0.
  induction Hcs as [|c rest Hc _ IH]; intros m0 Hle.
  - exists m0. unfold count_calls. cbn. repeat split; lia.
  - rewrite !count_calls_cons.
    destruct c as [response_time [|]| | |]; [| | | |congruence].
    + destruct (IH {| MetricsCollector.query_count :=
                        MetricsCollector.query_count m0 + 1;
                      MetricsCollector.total_response_time :=
                        MetricsCollector.total_response_time m0;
                      MetricsCollector.average_response_time :=
                        MetricsCollector.average_response_time m0;
                      MetricsCollector.error_count :=
                        MetricsCollector.error_count m0 + 1;
                      MetricsCollector.embedding_cache_hits :=
                        MetricsCollector.embedding_cache_hits m0;
                      MetricsCollector.embedding_cache_misses :=
                        MetricsCollector.embedding_cache_misses m0 |})
        as (m & Hrun & Hq & He & Hh & Hm & Ht); [cbn; lia|].
      exists m. split; [erewrite metrics_calls_cons; [exact Hrun|reflexivity]|].
      cbn [MetricsCollector.query_count MetricsCollector.total_response_time
           MetricsCollector.error_count MetricsCollector.embedding_cache_hits
           MetricsCollector.embedding_cache_misses] in *.
      cbn [is_query is_error is_hit is_miss successful_times].
      repeat split; try lia. exact Ht.
    + destruct (IH {| MetricsCollector.query_count :=
                        MetricsCollector.query_count m0 + 1;
                      MetricsCollector.total_response_time :=
                        (MetricsCollector.total_response_time m0
                         + response_time)%Qc;
                      MetricsCollector.average_response_time :=
                        ((MetricsCollector.total_response_time m0 + response_time)
                         / Py.of_int (MetricsCollector.query_count m0 + 1
                                      - MetricsCollector.error_count m0))%Qc;
                      MetricsCollector.error_count :=
                        MetricsCollector.error_count m0;
                      MetricsCollector.embedding_cache_hits :=
                        MetricsCollector.embedding_cache_hits m0;
                      MetricsCollector.embedding_cache_misses :=
                        MetricsCollector.embedding_cache_misses m0 |})
        as (m & Hrun & Hq & He & Hh & Hm & Ht); [cbn; lia|].
      exists m.
      split; [erewrite metrics_calls_cons;
              [exact Hrun|apply record_query_success; lia]|].
      cbn [MetricsCollector.query_count MetricsCollector.total_response_time
           MetricsCollector.error_count MetricsCollector.embedding_cache_hits
           MetricsCollector.embedding_cache_misses] in *.
      cbn [is_query is_error is_hit is_miss successful_times foldl].
      repeat split; try lia. exact Ht.
    + destruct (IH {| MetricsCollector.query_count :=
                        MetricsCollector.query_count m0;
                      MetricsCollector.total_response_time :=
                        MetricsCollector.total_response_time m0;
                      MetricsCollector.average_response_time :=
                        MetricsCollector.average_response_time m0;
                      MetricsCollector.error_count :=
                        MetricsCollector.error_count m0;
                      MetricsCollector.embedding_cache_hits :=
                        MetricsCollector.embedding_cache_hits m0 + 1;
                      MetricsCollector.embedding_cache_misses :=
                        MetricsCollector.embedding_cache_misses m0 |})
        as (m & Hrun & Hq & He & Hh & Hm & Ht); [cbn; lia|].
      exists m. split; [erewrite metrics_calls_cons; [exact Hrun|reflexivity]|].
      cbn [MetricsCollector.query_count MetricsCollector.total_response_time
           MetricsCollector.error_count MetricsCollector.embedding_cache_hits
           MetricsCollector.embedding_cache_misses] in *.
      cbn [is_query is_error is_hit is_miss successful_times].
      repeat split; try lia. exact Ht.
    + destruct (IH {| MetricsCollector.query_count :=
                        MetricsCollector.query_count m0;
                      MetricsCollector.total_response_time :=
                        MetricsCollector.total_response_time m0;
                      MetricsCollector.average_response_time :=
                        MetricsCollector.average_response_time m0;
                      MetricsCollector.error_count :=
                        MetricsCollector.error_count m0;
                      MetricsCollector.embedding_cache_hits :=
                        MetricsCollector.embedding_cache_hits m0;
                      MetricsCollector.embedding_cache_misses :=
                        MetricsCollector.embedding_cache_misses m0 + 1 |})
        as (m & Hrun & Hq & He & Hh & Hm & Ht); [cbn; lia|].
      exists m. split; [erewrite metrics_calls_cons; [exact Hrun|reflexivity]|].
      cbn [MetricsCollector.query_count MetricsCollector.total_response_time
           MetricsCollector.error_count MetricsCollector.embedding_cache_hits
           MetricsCollector.embedding_cache_misses] in *.
      cbn [is_query is_error is_hit is_miss successful_times].
      repeat split; try lia. exact Ht.
Qed.

(** X24. On a fresh collector and without a reset, the counters are the
    numbers of the calls of each kind, a query recorded with an error counts
    as a query and as an error, and its response time is left out of the
    total: the total is the sum of the response times of the queries recorded
    without error, added in the order of the calls. *)
Theorem X24_metrics_totals :
  forall (cs : list MetricsCall),
    Forall (fun c => c <> ResetMetrics) cs ->
    exists m,
      metrics_calls cs MetricsCollector.init = (Ok tt, m)
      /\ MetricsCollector.query_count m = count_calls is_query cs
      /\ MetricsCollector.error_count m = count_calls is_error cs
      /\ MetricsCollector.embedding_cache_hits m = count_calls is_hit cs
      /\ MetricsCollector.embedding_cache_misses m = count_calls is_miss cs
      /\ MetricsCollector.total_response_time m = Py.sum (successful_times cs).
Proof.
  intros cs Hcs.
  destruct (metrics_calls_totals cs MetricsCollector.init Hcs)
    as (m & Hrun & Hq & He & Hh & Hm & Ht); [cbn; lia|].
  exists m. split; [exact Hrun|]. cbn in Hq, He, Hh, Hm.
  repeat split; try assumption; try lia.
Qed.

Lemma X24_witness :
  exists m,
    metrics_calls [RecordQuery (Py.lit 1.5) false; RecordCacheMiss;
                   RecordQuery (Py.lit 9.0) true; RecordQuery (Py.lit 0.5) false]
      MetricsCollector.init = (Ok tt, m)
    /\ MetricsCollector.query_count m = 3
    /\ MetricsCollector.error_count m = 1
    /\ MetricsCollector.total_response_time m = Py.lit 2.0
    /\ MetricsCollector.average_response_time m = Py.lit 1.0.
Proof.
  destruct (X24_metrics_totals
              [RecordQuery (Py.lit 1.5) false; RecordCacheMiss;
               RecordQuery (Py.lit 9.0) true; RecordQuery (Py.lit 0.5) false])
    as (m & Hrun & Hq & He & _ & _ & Ht).
  - repeat constructor; discriminate.
  - exists m. split; [exact Hrun|]. split; [exact Hq|]. split; [exact He|].
    split.
    + rewrite Ht. apply Qc_is_canon. vm_compute. reflexivity.
    + vm_compute in Hrun. injection Hrun as <-.
      apply Qc_is_canon. vm_compute. reflexivity.
Defined.

(** X25. [reset_metrics] forgets everything: the calls made before it have no
    effect on the collector that the calls after it leave. *)
Theorem X25_reset_forgets :
  forall (before after : list MetricsCall),
    metrics_calls (before ++ ResetMetrics :: after) MetricsCollector.init
    = metrics_calls after MetricsCollector.init.
Proof.
  intros before after.
  destruct (metrics_calls_consistent before _ init_consistent)
    as (m & Hrun & _).
  rewrite (metrics_calls_app before (ResetMetrics :: after) _ m Hrun).
  apply metrics_calls_cons. reflexivity.
Qed.

(** Two queries before a reset and two after it: the average is that of the
    last two. *)
Lemma X22_witness :
  exists m,
    metrics_calls [RecordQuery (Py.lit 7.0) false; RecordQuery (Py.lit 9.0) true;
                   ResetMetrics;
                   RecordQuery (Py.lit 0.5) false; RecordQuery (Py.lit 2.5) false]
      MetricsCollector.init = (Ok tt, m)
    /\ MetricsCollector.average_response_time m = Py.lit 1.5.
Proof.
  destruct (X22_metrics_invariant
              [RecordQuery (Py.lit 7.0) false; RecordQuery (Py.lit 9.0) true;
               ResetMetrics;
               RecordQuery (Py.lit 0.5) false; RecordQuery (Py.lit 2.5) false])
    as (m & Hrun & _ & _ & _ & Havg).
  exists m. split; [exact Hrun|].
  vm_compute in Hrun. injection Hrun as <-.
  rewrite Havg by (vm_compute; reflexivity).
  apply Qc_is_canon. vm_compute. reflexivity.
Defined.
